(** * EyeGuard: break/idle coordinator, settings validator and proximity sampler

    A shallow embedding of the extension's JavaScript sources:

    - the background service worker (the coordinator; the storage-proxy
      variant, whose break/idle/settings handlers are textually the same as
      the other variant's),
    - [options.js] (validation rules, [validateSettings], [saveSettings]),
    - the popup's toggle wiring,
    - [offscreen.js] (the message-passing sampler) and the older sampler that
      talks to the store directly.

    Modelling conventions.

    - A JavaScript number is a value of [num]: [NaN], the two infinities, or
      a finite number carried as an exact rational.  Rounding of finite
      doubles and the sign of zero are not modelled; every comparison and
      arithmetic operation follows the IEEE/ECMAScript case analysis on
      NaN and the infinities.
    - A property that may be missing from an object is an [option]; reading a
      missing property gives [undefined], whose numeric coercion is [NaN] and
      whose truthiness is [false].
    - Each asynchronous handler is run to completion as one atomic step; the
      answers of the platform (clock, idle state, camera frame, reply of the
      other context) are parameters of the step. *)

From Stdlib Require Import ZArith QArith Qabs Bool List String Lia.
From stdpp Require Import gmap strings.
Import ListNotations.

Local Open Scope Z_scope.

(** ** JavaScript numbers *)

Module JsNum.

Inductive num : Type :=
| NaN
| PInf
| NInf
| Fin (q : Q).

Definition ofZ (z : Z) : num := Fin (inject_Z z).

(** [q1 < q2] on rationals, as a boolean. *)
Definition Qltb (a b : Q) : bool :=
  (Qnum a * QDen b <? Qnum b * QDen a)%Z.

Definition Qeqb (a b : Q) : bool := Qeq_bool a b.

(** The relational operators.  Anything compared with NaN is [false]. *)
Definition ltb (a b : num) : bool :=
  match a, b with
  | NaN, _ | _, NaN => false
  | Fin x, Fin y => Qltb x y
  | NInf, NInf => false
  | NInf, _ => true
  | _, NInf => false
  | PInf, _ => false
  | Fin _, PInf => true
  end.

Definition gtb (a b : num) : bool := ltb b a.

Definition isNaN (a : num) : bool :=
  match a with NaN => true | _ => false end.

(** [a >= b] is [false] when either side is NaN, else [not (a < b)]. *)
Definition geb (a b : num) : bool :=
  negb (isNaN a) && negb (isNaN b) && negb (ltb a b).

Definition leb (a b : num) : bool := geb b a.

Definition neg (a : num) : num :=
  match a with
  | NaN => NaN
  | PInf => NInf
  | NInf => PInf
  | Fin q => Fin (- q)
  end.

Definition add (a b : num) : num :=
  match a, b with
  | NaN, _ | _, NaN => NaN
  | PInf, NInf | NInf, PInf => NaN
  | PInf, _ | _, PInf => PInf
  | NInf, _ | _, NInf => NInf
  | Fin x, Fin y => Fin (x + y)
  end.

Definition sub (a b : num) : num := add a (neg b).

(** Sign of a number that is not NaN: [Lt], [Eq] (zero) or [Gt]. *)
Definition sign (a : num) : comparison :=
  match a with
  | NaN => Eq
  | PInf => Gt
  | NInf => Lt
  | Fin q => (Qnum q ?= 0)%Z
  end.

Definition inf_of_sign (c : comparison) : num :=
  match c with Lt => NInf | Gt => PInf | Eq => NaN end.

Definition sign_mul (c d : comparison) : comparison :=
  match c, d with
  | Eq, _ | _, Eq => Eq
  | Lt, Lt | Gt, Gt => Gt
  | _, _ => Lt
  end.

Definition mul (a b : num) : num :=
  match a, b with
  | NaN, _ | _, NaN => NaN
  | Fin x, Fin y => Fin (x * y)
  | _, _ => inf_of_sign (sign_mul (sign a) (sign b))
  end.

(** Division.  A finite nonzero number over zero is an infinity of the sign
    of the numerator (the zero is taken as [+0]), [0/0] and [inf/inf] are
    NaN, and a finite number over an infinity is zero. *)
Definition div (a b : num) : num :=
  match a, b with
  | NaN, _ | _, NaN => NaN
  | Fin x, Fin y =>
      match (Qnum y ?= 0)%Z with
      | Eq => inf_of_sign (sign a)
      | _ => Fin (x / y)
      end
  | Fin _, _ => Fin 0
  | _, Fin y =>
      match (Qnum y ?= 0)%Z with
      | Lt => neg a
      | _ => a
      end
  | _, _ => NaN
  end.

(** [Math.abs]. *)
Definition abs (a : num) : num :=
  match a with
  | NaN => NaN
  | PInf | NInf => PInf
  | Fin q => Fin (Qabs q)
  end.

(** [Math.max] of two arguments: NaN if either is NaN. *)
Definition max (a b : num) : num :=
  match a, b with
  | NaN, _ | _, NaN => NaN
  | _, _ => if ltb a b then b else a
  end.

(** Truthiness of a number: everything but [0] and NaN. *)
Definition truthy (a : num) : bool :=
  match a with
  | NaN => false
  | Fin q => negb (Qnum q =? 0)%Z
  | _ => true
  end.

(** Numeric coercion of a property that may be [undefined]. *)
Definition toNumber (o : option num) : num :=
  match o with
  | Some n => n
  | None => NaN
  end.

(** The order on numbers as a relation, stated without the boolean
    operators: NaN is unrelated to everything. *)
Inductive lt : num -> num -> Prop :=
| lt_fin (x y : Q) : (x < y)%Q -> lt (Fin x) (Fin y)
| lt_ninf_fin (y : Q) : lt NInf (Fin y)
| lt_fin_pinf (x : Q) : lt (Fin x) PInf
| lt_ninf_pinf : lt NInf PInf.

Definition eqv (a b : num) : Prop :=
  match a, b with
  | Fin x, Fin y => (x == y)%Q
  | NaN, NaN | PInf, PInf | NInf, NInf => True
  | _, _ => False
  end.

End JsNum.

Abbreviation num := JsNum.num.
Abbreviation NaN := JsNum.NaN.
Abbreviation PInf := JsNum.PInf.
Abbreviation NInf := JsNum.NInf.
Abbreviation Fin := JsNum.Fin.
Abbreviation ofZ := JsNum.ofZ.
Abbreviation toNumber := JsNum.toNumber.

Definition is_Some_b {A : Type} (o : option A) : bool :=
  match o with
  | Some _ => true
  | None => false
  end.

(** Truthiness of a boolean property that may be [undefined]. *)
Definition truthy_flag (o : option bool) : bool :=
  match o with
  | Some b => b
  | None => false
  end.

(** ** Settings and messages *)

(** A settings object.  Every property is optional: the background stores
    whatever payload a [settings.update] message carries. *)
Record Settings : Type := mkSettings {
  enabled : option bool;
  autoStart : option bool;
  theme : option string;
  proximityEnabled : option bool;
  sensitivity : option num;
  proximityPeriodSeconds : option num;
  breaksEnabled : option bool;
  breakIntervalMinutes : option num;
  breakDurationSeconds : option num;
  snoozeMinutes : option num
}.

(** The object literal [{}]. *)
Definition emptySettings : Settings :=
  mkSettings None None None None None None None None None None.

(** [DEFAULT_SETTINGS] of the background script, equal field by field to
    [DEFAULTS] of options.js. *)
Definition DEFAULT_SETTINGS : Settings := {|
  enabled := Some true;
  autoStart := Some true;
  theme := Some "system"%string;
  proximityEnabled := Some true;
  sensitivity := Some (Fin 1.5);
  proximityPeriodSeconds := Some (Fin 30);
  breaksEnabled := Some true;
  breakIntervalMinutes := Some (Fin 20);
  breakDurationSeconds := Some (Fin 20);
  snoozeMinutes := Some (Fin 5)
|}.

(** [{ baselineFaceSize, timestamp }] *)
Record Calibration : Type := mkCalibration {
  baselineFaceSize : num;
  timestamp : Z
}.

(** Messages, by their string tag. *)
Inductive Message : Type :=
| RequestStatus                                   (* eyeguard.request.status *)
| BreakStart (durationSeconds : num)              (* eyeguard.break.start *)
| BreakCompleted                                  (* eyeguard.break.completed *)
| BreakSnooze                                     (* eyeguard.break.snooze *)
| BreakReminder                                   (* eyeguard.break.reminder *)
| SettingsUpdate (payload : Settings)             (* eyeguard.settings.update *)
| ProximitySample                                 (* eyeguard.proximity.sample *)
| ProximityWarning                                (* eyeguard.proximity.warning *)
| ProximityReset                                  (* eyeguard.proximity.reset *)
| StorageGetCalibration                           (* eyeguard.storage.get.calibration *)
| StorageSetCalibration (c : Calibration)         (* eyeguard.storage.set.calibration *)
| StorageGetSettings                              (* eyeguard.storage.get.settings *)
| StorageRemoveCalibration.                       (* eyeguard.storage.remove.calibration *)

(** What [sendResponse] is called with; [NoResponse] when it is not called. *)
Inductive Response : Type :=
| StatusResponse (activeMinutes : Z) (minutesRemaining : num)
                 (isBreakInProgress : bool) (settings : Settings)
| SuccessResponse (success : bool)
| CalibrationResponse (calibrationData : option Calibration)
| SettingsResponse (settings : Settings)
| NoResponse.

(** Result of [chrome.idle.queryState]. *)
Inductive IdleState : Type := Active | Idle | Locked.

Definition is_active (s : IdleState) : bool :=
  match s with Active => true | _ => false end.

(** [chrome.storage.local], by key. *)
Record Storage : Type := mkStorage {
  stored_activeMinutes : option Z;
  stored_settings : option Settings;
  stored_calibrationData : option Calibration
}.

(** The argument of [chrome.alarms.create]. *)
Record Alarm : Type := mkAlarm {
  delayInMinutes : num;
  periodInMinutes : num
}.

(** ** The background service worker (coordinator) *)

Module Background.

(** The module-level variables of the script together with the parts of the
    browser it acts on. *)
Record World : Type := mkWorld {
  activeMinutes : Z;                   (* let activeMinutes = 0 *)
  isBreakInProgress : bool;            (* let isBreakInProgress = false *)
  snoozedUntilMs : num;                (* let snoozedUntilMs = 0 *)
  storage : Storage;                   (* chrome.storage.local *)
  alarms : gmap string Alarm;          (* chrome.alarms, by name *)
  offscreenOpen : bool;                (* an offscreen document exists *)
  tabs : list Z;                       (* ids returned by chrome.tabs.query({}) *)
  tabMessages : list (Z * Message);    (* calls of chrome.tabs.sendMessage *)
  runtimeMessages : list Message       (* calls of chrome.runtime.sendMessage *)
}.

Definition set_activeMinutes (v : Z) (w : World) : World :=
  mkWorld v (isBreakInProgress w) (snoozedUntilMs w) (storage w) (alarms w)
          (offscreenOpen w) (tabs w) (tabMessages w) (runtimeMessages w).

Definition set_isBreakInProgress (v : bool) (w : World) : World :=
  mkWorld (activeMinutes w) v (snoozedUntilMs w) (storage w) (alarms w)
          (offscreenOpen w) (tabs w) (tabMessages w) (runtimeMessages w).

Definition set_snoozedUntilMs (v : num) (w : World) : World :=
  mkWorld (activeMinutes w) (isBreakInProgress w) v (storage w) (alarms w)
          (offscreenOpen w) (tabs w) (tabMessages w) (runtimeMessages w).

Definition set_storage (v : Storage) (w : World) : World :=
  mkWorld (activeMinutes w) (isBreakInProgress w) (snoozedUntilMs w) v (alarms w)
          (offscreenOpen w) (tabs w) (tabMessages w) (runtimeMessages w).

Definition set_alarms (v : gmap string Alarm) (w : World) : World :=
  mkWorld (activeMinutes w) (isBreakInProgress w) (snoozedUntilMs w) (storage w) v
          (offscreenOpen w) (tabs w) (tabMessages w) (runtimeMessages w).

Definition set_offscreenOpen (v : bool) (w : World) : World :=
  mkWorld (activeMinutes w) (isBreakInProgress w) (snoozedUntilMs w) (storage w)
          (alarms w) v (tabs w) (tabMessages w) (runtimeMessages w).

Definition set_tabMessages (v : list (Z * Message)) (w : World) : World :=
  mkWorld (activeMinutes w) (isBreakInProgress w) (snoozedUntilMs w) (storage w)
          (alarms w) (offscreenOpen w) (tabs w) v (runtimeMessages w).

Definition set_runtimeMessages (v : list Message) (w : World) : World :=
  mkWorld (activeMinutes w) (isBreakInProgress w) (snoozedUntilMs w) (storage w)
          (alarms w) (offscreenOpen w) (tabs w) (tabMessages w) v.

(** [chrome.storage.local.set({ activeMinutes: v })] *)
Definition store_activeMinutes (v : Z) (w : World) : World :=
  set_storage (mkStorage (Some v) (stored_settings (storage w))
                         (stored_calibrationData (storage w))) w.

(** [chrome.storage.local.set({ settings: v })] *)
Definition store_settings (v : Settings) (w : World) : World :=
  set_storage (mkStorage (stored_activeMinutes (storage w)) (Some v)
                         (stored_calibrationData (storage w))) w.

(** [chrome.storage.local.set({ calibrationData: v })] *)
Definition store_calibrationData (v : Calibration) (w : World) : World :=
  set_storage (mkStorage (stored_activeMinutes (storage w))
                         (stored_settings (storage w)) (Some v)) w.

(** [chrome.storage.local.remove('calibrationData')] *)
Definition remove_calibrationData (w : World) : World :=
  set_storage (mkStorage (stored_activeMinutes (storage w))
                         (stored_settings (storage w)) None) w.

(** [const { settings = DEFAULT_SETTINGS } = await chrome.storage.local.get("settings")] *)
Definition get_settings (w : World) : Settings :=
  match stored_settings (storage w) with
  | Some s => s
  | None => DEFAULT_SETTINGS
  end.

Definition BREAK_TICK : string := "eyeguard.break.tick".
Definition PROXIMITY_SAMPLE : string := "eyeguard.proximity.sample".

(** [broadcastMessage]: one [chrome.tabs.sendMessage] per open tab; a
    rejected send is swallowed by the [catch]. *)
Definition broadcastMessage (message : Message) (w : World) : World :=
  set_tabMessages (tabMessages w ++ map (fun tab => (tab, message)) (tabs w)) w.

(** [handleBreakTick], with [now] the value of [Date.now()] and [state] the
    answer of [chrome.idle.queryState(60, ...)]. *)
Definition handleBreakTick (now : Z) (state : IdleState) (w : World) : World :=
  let settings := get_settings w in
  if negb (truthy_flag (enabled settings)) || negb (truthy_flag (breaksEnabled settings))
  then w
  else if JsNum.ltb (ofZ now) (snoozedUntilMs w)
  then w
  else
    if is_active state && negb (isBreakInProgress w) then
      let oldValue := activeMinutes w in
      let w1 := set_activeMinutes (oldValue + 1) w in
      let w2 := store_activeMinutes (activeMinutes w1) w1 in
      if JsNum.geb (ofZ (activeMinutes w2)) (toNumber (breakIntervalMinutes settings)) then
        let w3 := set_activeMinutes 0 w2 in
        let w4 := store_activeMinutes 0 w3 in
        broadcastMessage BreakReminder w4
      else w2
    else if negb (is_active state) then
      let w1 := set_activeMinutes 0 w in
      store_activeMinutes 0 w1
    else w.

(** [ensureOffscreenDocument] *)
Definition ensureOffscreenDocument (w : World) : World :=
  if offscreenOpen w then w else set_offscreenOpen true w.

(** [handleProximitySample] *)
Definition handleProximitySample (w : World) : World :=
  let settings := get_settings w in
  if negb (truthy_flag (enabled settings)) || negb (truthy_flag (proximityEnabled settings))
  then w
  else
    let w1 := ensureOffscreenDocument w in
    set_runtimeMessages (runtimeMessages w1 ++ [ProximitySample]) w1.

(** [ensureBreakTickAlarm] *)
Definition ensureBreakTickAlarm (w : World) : World :=
  let settings := get_settings w in
  if negb (truthy_flag (enabled settings)) || negb (truthy_flag (breaksEnabled settings))
  then w
  else set_alarms (<[BREAK_TICK := mkAlarm (Fin 1) (Fin 1)]> (alarms w)) w.

(** [ensureProximitySampling] *)
Definition ensureProximitySampling (w : World) : World :=
  let settings := get_settings w in
  if negb (truthy_flag (enabled settings)) || negb (truthy_flag (proximityEnabled settings))
  then w
  else
    set_alarms
      (<[PROXIMITY_SAMPLE :=
           mkAlarm (Fin 0.5)
                   (JsNum.div (toNumber (proximityPeriodSeconds settings)) (Fin 60))]>
         (alarms w)) w.

(** [forceRecreateOffscreenDocument]: [closeDocument] rejects when there is
    no document, and the [catch] then skips the re-creation. *)
Definition forceRecreateOffscreenDocument (w : World) : World :=
  if offscreenOpen w then set_offscreenOpen true (set_offscreenOpen false w) else w.

(** The [chrome.alarms.onAlarm] listener. *)
Definition onAlarm (name : string) (now : Z) (state : IdleState) (w : World) : World :=
  if String.eqb name BREAK_TICK then handleBreakTick now state w
  else if String.eqb name PROXIMITY_SAMPLE then handleProximitySample w
  else w.

(** The [chrome.runtime.onInstalled] listener. *)
Definition onInstalled (w : World) : World :=
  ensureBreakTickAlarm (store_settings DEFAULT_SETTINGS (store_activeMinutes 0 w)).

(** The [chrome.runtime.onStartup] listener: [activeMinutes = saved || 0]. *)
Definition onStartup (w : World) : World :=
  let saved := stored_activeMinutes (storage w) in
  ensureBreakTickAlarm
    (set_activeMinutes (match saved with Some v => v | None => 0 end) w).

(** The [chrome.runtime.onMessage] listener; [now] is [Date.now()]. *)
Definition onMessage (now : Z) (message : Message) (w : World) : World * Response :=
  match message with
  | RequestStatus =>
      let settings := get_settings w in
      let minutesRemaining :=
        JsNum.max (JsNum.sub (toNumber (breakIntervalMinutes settings))
                             (ofZ (activeMinutes w))) (Fin 0) in
      (w, StatusResponse (activeMinutes w) minutesRemaining (isBreakInProgress w) settings)
  | BreakCompleted =>
      let w1 := set_isBreakInProgress false w in
      let w2 := set_activeMinutes 0 w1 in
      (store_activeMinutes 0 w2, SuccessResponse true)
  | BreakSnooze =>
      let settings := get_settings w in
      (set_snoozedUntilMs
         (JsNum.add (ofZ now)
            (JsNum.mul (JsNum.mul (toNumber (snoozeMinutes settings)) (Fin 60)) (Fin 1000)))
         w,
       SuccessResponse true)
  | SettingsUpdate payload =>
      let w1 := store_settings payload w in
      let w2 := set_alarms ∅ w1 in
      let w3 := ensureBreakTickAlarm w2 in
      let w4 := ensureProximitySampling w3 in
      let w5 :=
        if truthy_flag (proximityEnabled payload)
        then ensureProximitySampling (ensureOffscreenDocument w4)
        else set_alarms (delete PROXIMITY_SAMPLE (alarms w4)) w4 in
      (w5, SuccessResponse true)
  | ProximityWarning =>
      (broadcastMessage ProximityWarning w, SuccessResponse true)
  | ProximityReset =>
      (forceRecreateOffscreenDocument w, SuccessResponse true)
  | StorageGetCalibration =>
      (w, CalibrationResponse (stored_calibrationData (storage w)))
  | StorageSetCalibration c =>
      (store_calibrationData c w, SuccessResponse true)
  | StorageGetSettings =>
      (w, SettingsResponse (get_settings w))
  | StorageRemoveCalibration =>
      (remove_calibrationData w, SuccessResponse true)
  | BreakStart _ | BreakReminder | ProximitySample =>
      (w, NoResponse)
  end.

(** The state right after the script is loaded in a browser with the given
    tabs and store. *)
Definition initial (st : Storage) (open_tabs : list Z) : World :=
  mkWorld 0 false (Fin 0) st ∅ false open_tabs [] [].

End Background.

(** ** The options page *)

Module Options.

(** An entry of [VALIDATION_RULES]. *)
Record Rule : Type := mkRule { min : num; max : num }.

Record Rules : Type := mkRules {
  rule_sensitivity : Rule;
  rule_proximityPeriodSeconds : Rule;
  rule_breakIntervalMinutes : Rule;
  rule_breakDurationSeconds : Rule;
  rule_snoozeMinutes : Rule
}.

Definition VALIDATION_RULES : Rules := {|
  rule_sensitivity := mkRule (Fin 1.1) (Fin 2.0);
  rule_proximityPeriodSeconds := mkRule (Fin 10) (Fin 300);
  rule_breakIntervalMinutes := mkRule (Fin 5) (Fin 120);
  rule_breakDurationSeconds := mkRule (Fin 10) (Fin 300);
  rule_snoozeMinutes := mkRule (Fin 1) (Fin 60)
|}.

(** The five template strings of [validateSettings], with the bounds of
    [VALIDATION_RULES] printed the way JavaScript prints them. *)
Definition msg_sensitivity : string := "Sensitivity must be between 1.1 and 2".
Definition msg_proximityPeriodSeconds : string :=
  "Proximity sampling must be between 10 and 300 seconds".
Definition msg_breakIntervalMinutes : string :=
  "Break interval must be between 5 and 120 minutes".
Definition msg_breakDurationSeconds : string :=
  "Break duration must be between 10 and 300 seconds".
Definition msg_snoozeMinutes : string :=
  "Snooze time must be between 1 and 60 minutes".

(** [value < rule.min || value > rule.max] *)
Definition violates (r : Rule) (value : option num) : bool :=
  JsNum.ltb (toNumber value) (min r) || JsNum.gtb (toNumber value) (max r).

(** [if (...) errors.push(message)] *)
Definition push_if (c : bool) (message : string) (errors : list string) : list string :=
  if c then errors ++ [message] else errors.

(** [validateSettings] *)
Definition validateSettings (settings : Settings) : list string :=
  let errors := [] in
  let errors := push_if (violates (rule_sensitivity VALIDATION_RULES) (sensitivity settings))
                        msg_sensitivity errors in
  let errors := push_if (violates (rule_proximityPeriodSeconds VALIDATION_RULES)
                                  (proximityPeriodSeconds settings))
                        msg_proximityPeriodSeconds errors in
  let errors := push_if (violates (rule_breakIntervalMinutes VALIDATION_RULES)
                                  (breakIntervalMinutes settings))
                        msg_breakIntervalMinutes errors in
  let errors := push_if (violates (rule_breakDurationSeconds VALIDATION_RULES)
                                  (breakDurationSeconds settings))
                        msg_breakDurationSeconds errors in
  let errors := push_if (violates (rule_snoozeMinutes VALIDATION_RULES) (snoozeMinutes settings))
                        msg_snoozeMinutes errors in
  errors.

(** The values of the form controls: [checked] of the check boxes, [value]
    of the theme selector, and [Number(value)] of the numeric inputs. *)
Record Form : Type := mkForm {
  form_enabled : bool;
  form_autoStart : bool;
  form_theme : string;
  form_proximityEnabled : bool;
  form_sensitivity : num;
  form_proximityPeriodSeconds : num;
  form_breaksEnabled : bool;
  form_breakIntervalMinutes : num;
  form_breakDurationSeconds : num;
  form_snoozeMinutes : num
}.

(** [readForm] *)
Definition readForm (f : Form) : Settings := {|
  enabled := Some (form_enabled f);
  autoStart := Some (form_autoStart f);
  theme := Some (form_theme f);
  proximityEnabled := Some (form_proximityEnabled f);
  sensitivity := Some (form_sensitivity f);
  proximityPeriodSeconds := Some (form_proximityPeriodSeconds f);
  breaksEnabled := Some (form_breaksEnabled f);
  breakIntervalMinutes := Some (form_breakIntervalMinutes f);
  breakDurationSeconds := Some (form_breakDurationSeconds f);
  snoozeMinutes := Some (form_snoozeMinutes f)
|}.

Inductive NotificationType : Type := success | error.

(** A call [showNotification(message, type)]. *)
Record Notification : Type := mkNotification {
  notification_message : string;
  notification_type : NotificationType
}.

(** [errors.join(', ')] *)
Fixpoint join (errors : list string) : string :=
  match errors with
  | [] => ""
  | [e] => e
  | e :: rest => e ++ ", " ++ join rest
  end.

(** Delivery of a message to the background: [chrome.runtime.sendMessage]
    either reaches the listener or rejects, and both callers catch the
    rejection. *)
Definition sendToBackground (available : bool) (now : Z) (m : Message)
    (w : Background.World) : Background.World :=
  if available then fst (Background.onMessage now m w) else w.

(** [saveSettings]: the page writes the store itself and then tells the
    background. *)
Definition saveSettings (f : Form) (available : bool) (now : Z)
    (w : Background.World) : Background.World * Notification :=
  let payload := readForm f in
  let errors := validateSettings payload in
  if (0 <? Z.of_nat (length errors)) then
    (w, mkNotification ("Validation errors: " ++ join errors) error)
  else
    let w1 := Background.store_settings payload w in
    let w2 := sendToBackground available now (SettingsUpdate payload) w1 in
    (w2, mkNotification "Settings saved successfully!" success).

(** [resetSettings], after the user has confirmed. *)
Definition resetSettings (available : bool) (now : Z)
    (w : Background.World) : Background.World * Notification :=
  let w1 := Background.store_settings DEFAULT_SETTINGS w in
  let w2 := sendToBackground available now (SettingsUpdate DEFAULT_SETTINGS) w1 in
  (w2, mkNotification "Settings reset to defaults!" success).

End Options.

(** ** The popup *)

Module Popup.

(** The message sent by the [change] listener of [toggle-proximity]:
    [{ type: "eyeguard.settings.update", payload: { proximityEnabled: checked } }] *)
Definition toggleProximityMessage (checked : bool) : Message :=
  SettingsUpdate (mkSettings None None None (Some checked) None None None None None None).

(** The message sent by the [change] listener of [toggle-breaks]:
    [{ type: "eyeguard.settings.update", payload: { breaksEnabled: checked } }] *)
Definition toggleBreaksMessage (checked : bool) : Message :=
  SettingsUpdate (mkSettings None None None None None None (Some checked) None None None).

Definition toggleProximity (checked : bool) (available : bool) (now : Z)
    (w : Background.World) : Background.World :=
  Options.sendToBackground available now (toggleProximityMessage checked) w.

Definition toggleBreaks (checked : bool) (available : bool) (now : Z)
    (w : Background.World) : Background.World :=
  Options.sendToBackground available now (toggleBreaksMessage checked) w.

End Popup.

(** ** The proximity sampler *)

(** What the sampler does to the outside: a [chrome.runtime.sendMessage], or
    (older sampler only) a direct call of [chrome.storage.local]. *)
Inductive Effect : Type :=
| SendMessage (m : Message)
| StorageSet (c : Calibration)
| StorageRemove.

(** The text last passed to [updateStatus]. *)
Inductive Status : Type :=
| StatusNone
| StatusReady                          (* 'Ready' *)
| StatusSampling                       (* 'Sampling...' *)
| StatusVideoNotReady                  (* 'Video not ready' *)
| StatusNoDimensions                   (* 'Video has no dimensions' *)
| StatusFaceDetected (faceSize : num)  (* `Face detected - Size: ...` *)
| StatusCalibrating (n : nat)          (* `Calibrating... n/5` *)
| StatusCalibrated                     (* 'Calibrated - Ready' *)
| StatusTooClose                       (* 'TOO CLOSE!' *)
| StatusNoFace                         (* 'No face detected' *)
| StatusSampleError                    (* 'Sample error' *)
| StatusCalibrationReset.              (* 'Calibration reset' *)

(** The module-level variables of a sampler script, [window.calibrationSamples]
    ([None] while it is [undefined]) and the trace of its effects. *)
Record Sampler : Type := mkSampler {
  initialized : bool;
  isProcessing : bool;
  calibrationData : option Calibration;
  lastSampleTime : Z;
  calibrationSamples : option (list num);
  effects : list Effect;
  status : Status
}.

(** The video element and the pixels [getImageData] returns for it
    (four bytes per pixel: red, green, blue, alpha). *)
Record Frame : Type := mkFrame {
  readyState : Z;
  videoWidth : Z;
  videoHeight : Z;
  data : list Z
}.

Definition SAMPLE_INTERVAL : Z := 2000.
Definition CALIBRATION_SAMPLES : nat := 5.
Definition PROXIMITY_THRESHOLD : num := Fin 0.7.
Definition CALIBRATION_VALIDITY_MS : Z := 24 * 60 * 60 * 1000.

(** [data[i]]: a byte, or [undefined] past the end. *)
Definition channel (data : list Z) (i : nat) : num :=
  toNumber (ofZ <$> nth_error data i).

(** The [for (let i = 0; i < data.length; i += 16)] loop of
    [estimateFaceSize], for a given skin test; [fuel] bounds the number of
    iterations. *)
Fixpoint estimate_loop (skin : num -> num -> num -> bool) (fuel : nat)
    (data : list Z) (i : nat) (skinPixels totalPixels : Z) : Z * Z :=
  match fuel with
  | O => (skinPixels, totalPixels)
  | S fuel' =>
      if (i <? length data)%nat then
        let r := channel data i in
        let g := channel data (i + 1) in
        let b := channel data (i + 2) in
        let skinPixels' := if skin r g b then skinPixels + 1 else skinPixels in
        estimate_loop skin fuel' data (i + 16) skinPixels' (totalPixels + 1)
      else (skinPixels, totalPixels)
  end.

(** The body of [performCalibration], shared word for word by both
    samplers up to the way the calibration is saved. *)
Definition performCalibration_with (save : Calibration -> Effect)
    (now : Z) (faceSize : num) (s : Sampler) : Sampler :=
  let samples :=
    match calibrationSamples s with
    | None => []
    | Some l => l
    end ++ [faceSize] in
  if (length samples <? CALIBRATION_SAMPLES)%nat then
    mkSampler (initialized s) (isProcessing s) (calibrationData s) (lastSampleTime s)
              (Some samples) (effects s) (StatusCalibrating (length samples))
  else
    let avgFaceSize :=
      JsNum.div (fold_left JsNum.add samples (Fin 0)) (ofZ (Z.of_nat (length samples))) in
    let c := mkCalibration avgFaceSize now in
    mkSampler (initialized s) (isProcessing s) (Some c) (lastSampleTime s)
              (Some samples) (effects s ++ [save c]) StatusCalibrated.

(** [sendProximityWarning] *)
Definition sendProximityWarning (s : Sampler) : Sampler :=
  mkSampler (initialized s) (isProcessing s) (calibrationData s) (lastSampleTime s)
            (calibrationSamples s) (effects s ++ [SendMessage ProximityWarning])
            StatusTooClose.

Definition set_status (st : Status) (s : Sampler) : Sampler :=
  mkSampler (initialized s) (isProcessing s) (calibrationData s) (lastSampleTime s)
            (calibrationSamples s) (effects s) st.

(** The sampler of offscreen.js, which reaches the store through messages
    to the background. *)
Module Offscreen.

(** The test inside the loop of [estimateFaceSize]. *)
Definition is_skin (r g b : num) : bool :=
  JsNum.gtb r (Fin 60) && JsNum.gtb g (Fin 20) && JsNum.gtb b (Fin 10) &&
  JsNum.gtb r g && JsNum.gtb r b &&
  JsNum.gtb (JsNum.abs (JsNum.sub r g)) (Fin 5).

(** [estimateFaceSize] *)
Definition estimateFaceSize (data : list Z) : num :=
  let '(skinPixels, totalPixels) := estimate_loop is_skin (length data) data 0 0 0 in
  JsNum.div (ofZ skinPixels) (ofZ totalPixels).

(** [performCalibration]; [now] is the [Date.now()] of the timestamp. *)
Definition performCalibration (now : Z) (faceSize : num) (s : Sampler) : Sampler :=
  performCalibration_with (fun c => SendMessage (StorageSetCalibration c)) now faceSize s.

(** [getSensitivity]; [response] is the reply to
    [eyeguard.storage.get.settings], [None] when the reply carries no
    settings or does not come within the second. *)
Definition getSensitivity (response : option Settings) : num :=
  match response with
  | Some settings =>
      if JsNum.truthy (toNumber (sensitivity settings))
      then toNumber (sensitivity settings)
      else Fin 1.5
  | None => Fin 1.5
  end.

(** [checkProximity] *)
Definition checkProximity (response : option Settings) (faceSize : num) (s : Sampler) : bool :=
  match calibrationData s with
  | None => false
  | Some c =>
      let sensitivity := getSensitivity response in
      let proximityRatio := JsNum.div faceSize (baselineFaceSize c) in
      let threshold := JsNum.mul PROXIMITY_THRESHOLD sensitivity in
      JsNum.gtb proximityRatio threshold
  end.

(** [performSample].  [now] is the first [Date.now()], [now'] the one taken
    if a calibration completes; the [finally] clears [isProcessing]. *)
Definition performSample (now now' : Z) (response : option Settings) (frame : Frame)
    (s : Sampler) : Sampler :=
  if negb (initialized s) || isProcessing s then s
  else if now - lastSampleTime s <? SAMPLE_INTERVAL then s
  else
    let s1 := mkSampler (initialized s) false (calibrationData s) now
                        (calibrationSamples s) (effects s) StatusSampling in
    if readyState frame <? 2 then set_status StatusVideoNotReady s1
    else if (videoWidth frame =? 0) || (videoHeight frame =? 0)
    then set_status StatusNoDimensions s1
    else
      let faceSize := estimateFaceSize (data frame) in
      if JsNum.gtb faceSize (Fin 0) then
        let s2 := set_status (StatusFaceDetected faceSize) s1 in
        match calibrationData s2 with
        | None => performCalibration now' faceSize s2
        | Some _ =>
            if checkProximity response faceSize s2
            then sendProximityWarning s2
            else s2
        end
      else set_status StatusNoFace s1.

(** [loadCalibrationData]; [response] is the reply to
    [eyeguard.storage.get.calibration]. *)
Definition loadCalibrationData (now : Z) (response : option Calibration) (s : Sampler) : Sampler :=
  match response with
  | Some saved =>
      if negb (timestamp saved =? 0) then
        let age := now - timestamp saved in
        if age <? CALIBRATION_VALIDITY_MS
        then mkSampler (initialized s) (isProcessing s) (Some saved) (lastSampleTime s)
                       (calibrationSamples s) (effects s) (status s)
        else s
      else s
  | None => s
  end.

(** The reset branch of the message listener. *)
Definition resetCalibration (s : Sampler) : Sampler :=
  mkSampler (initialized s) (isProcessing s) None (lastSampleTime s) (Some [])
            (effects s ++ [SendMessage StorageRemoveCalibration]) StatusCalibrationReset.

(** The sampler once [initialize] has succeeded with the given reply. *)
Definition initialize (now : Z) (response : option Calibration) : Sampler :=
  let s := loadCalibrationData now response
             (mkSampler false false None 0 None [] StatusNone) in
  mkSampler true (isProcessing s) (calibrationData s) (lastSampleTime s)
            (calibrationSamples s) (effects s) StatusReady.

End Offscreen.

(** The older sampler, which calls [chrome.storage.local] itself. *)
Module OffscreenDirect.

(** The test inside the loop of [estimateFaceSize]. *)
Definition is_skin (r g b : num) : bool :=
  JsNum.gtb r (Fin 95) && JsNum.gtb g (Fin 40) && JsNum.gtb b (Fin 20) &&
  JsNum.gtb r g && JsNum.gtb r b &&
  JsNum.gtb (JsNum.abs (JsNum.sub r g)) (Fin 15).

(** [estimateFaceSize] *)
Definition estimateFaceSize (data : list Z) : num :=
  let '(skinPixels, totalPixels) := estimate_loop is_skin (length data) data 0 0 0 in
  JsNum.div (ofZ skinPixels) (ofZ totalPixels).

(** [performCalibration] *)
Definition performCalibration (now : Z) (faceSize : num) (s : Sampler) : Sampler :=
  performCalibration_with StorageSet now faceSize s.

(** A value that is a number or a promise of one. *)
Inductive Value : Type :=
| Number (n : num)
| Promise (resolved : num).

(** Numeric coercion: a promise object coerces to NaN. *)
Definition valueToNumber (v : Value) : num :=
  match v with
  | Number n => n
  | Promise _ => NaN
  end.

(** [getSensitivity] is declared [async]: the caller gets a promise of
    [settings?.sensitivity || 1.5].  [stored] is the [settings] entry of the
    store, if any. *)
Definition getSensitivity (stored : option Settings) : Value :=
  Promise
    match stored with
    | Some settings =>
        if JsNum.truthy (toNumber (sensitivity settings))
        then toNumber (sensitivity settings)
        else Fin 1.5
    | None => Fin 1.5
    end.

(** [checkProximity]: the result of [getSensitivity()] is used as it is
    returned, without [await]. *)
Definition checkProximity (stored : option Settings) (faceSize : num) (s : Sampler) : bool :=
  match calibrationData s with
  | None => false
  | Some c =>
      let sensitivity := getSensitivity stored in
      let proximityRatio := JsNum.div faceSize (baselineFaceSize c) in
      let threshold := JsNum.mul PROXIMITY_THRESHOLD (valueToNumber sensitivity) in
      JsNum.gtb proximityRatio threshold
  end.

(** [performSample].  There is no readiness test here; [frame] carries the
    pixels that [getImageData] returned. *)
Definition performSample (now now' : Z) (stored : option Settings) (frame : Frame)
    (s : Sampler) : Sampler :=
  if negb (initialized s) || isProcessing s then s
  else if now - lastSampleTime s <? SAMPLE_INTERVAL then s
  else
    let s1 := mkSampler (initialized s) false (calibrationData s) now
                        (calibrationSamples s) (effects s) StatusSampling in
    let faceSize := estimateFaceSize (data frame) in
    if JsNum.gtb faceSize (Fin 0) then
      let s2 := set_status (StatusFaceDetected faceSize) s1 in
      match calibrationData s2 with
      | None => performCalibration now' faceSize s2
      | Some _ =>
          if checkProximity stored faceSize s2
          then sendProximityWarning s2
          else s2
      end
    else set_status StatusNoFace s1.

End OffscreenDirect.

(** ** Notions used in the statements *)

(** The break subsystem is on: the master switch and the break switch. *)
Definition breaks_on (w : Background.World) : Prop :=
  enabled (Background.get_settings w) = Some true /\
  breaksEnabled (Background.get_settings w) = Some true.

(** [now] lies inside the snooze window. *)
Definition snoozed (now : Z) (w : Background.World) : Prop :=
  JsNum.lt (ofZ now) (Background.snoozedUntilMs w).

(** The break interval of the settings in force is the number [q]. *)
Definition interval_is (w : Background.World) (q : Q) : Prop :=
  breakIntervalMinutes (Background.get_settings w) = Some (Fin q).

(** The deliveries of one broadcast of [m]: one per open tab. *)
Definition one_broadcast (m : Message) (w : Background.World) : list (Z * Message) :=
  map (fun tab => (tab, m)) (Background.tabs w).

(** A world with the default settings stored, no break in progress, no
    snooze, two open tabs and the given count of active minutes. *)
Definition world_at (elapsed : Z) : Background.World :=
  Background.mkWorld elapsed false (Fin 0)
    (mkStorage (Some elapsed) (Some DEFAULT_SETTINGS) None)
    ∅ false [1; 2] [] [].

(** A run of ticks, each with its clock reading and idle state. *)
Definition run_ticks (ticks : list (Z * IdleState)) (w : Background.World) : Background.World :=
  fold_left (fun acc t => Background.handleBreakTick (fst t) (snd t) acc) ticks w.

(** The world after the background has handled a message. *)
Definition after (now : Z) (m : Message) (w : Background.World) : Background.World :=
  fst (Background.onMessage now m w).

(** The numeric fields of the settings table. *)
Inductive NumericField : Type :=
| FSensitivity
| FProximityPeriodSeconds
| FBreakIntervalMinutes
| FBreakDurationSeconds
| FSnoozeMinutes.

Definition field_value (f : NumericField) (s : Settings) : option num :=
  match f with
  | FSensitivity => sensitivity s
  | FProximityPeriodSeconds => proximityPeriodSeconds s
  | FBreakIntervalMinutes => breakIntervalMinutes s
  | FBreakDurationSeconds => breakDurationSeconds s
  | FSnoozeMinutes => snoozeMinutes s
  end.

(** The range column of the settings table of the specification. *)
Definition documented_range (f : NumericField) : Q * Q :=
  match f with
  | FSensitivity => (1.1, 2.0)
  | FProximityPeriodSeconds => (10, 300)
  | FBreakIntervalMinutes => (5, 120)
  | FBreakDurationSeconds => (10, 300)
  | FSnoozeMinutes => (1, 60)
  end%Q.

(** The field holds a number below the lower or above the upper bound. *)
Definition outside_range (f : NumericField) (s : Settings) : Prop :=
  exists v, field_value f s = Some v /\
            (JsNum.lt v (Fin (fst (documented_range f))) \/
             JsNum.lt (Fin (snd (documented_range f))) v).

(** The field holds a finite number between the bounds. *)
Definition within_range (f : NumericField) (s : Settings) : Prop :=
  exists q, field_value f s = Some (Fin q) /\
            (fst (documented_range f) <= q <= snd (documented_range f))%Q.

(** The violation [validateSettings] reports for a field. *)
Definition violation (f : NumericField) : string :=
  match f with
  | FSensitivity => Options.msg_sensitivity
  | FProximityPeriodSeconds => Options.msg_proximityPeriodSeconds
  | FBreakIntervalMinutes => Options.msg_breakIntervalMinutes
  | FBreakDurationSeconds => Options.msg_breakDurationSeconds
  | FSnoozeMinutes => Options.msg_snoozeMinutes
  end.

(** Every property of the settings record is present. *)
Definition complete (s : Settings) : bool :=
  is_Some_b (enabled s) && is_Some_b (autoStart s) && is_Some_b (theme s) &&
  is_Some_b (proximityEnabled s) && is_Some_b (sensitivity s) &&
  is_Some_b (proximityPeriodSeconds s) && is_Some_b (breaksEnabled s) &&
  is_Some_b (breakIntervalMinutes s) && is_Some_b (breakDurationSeconds s) &&
  is_Some_b (snoozeMinutes s).

(** The freshly installed extension in a browser with two tabs. *)
Definition installed : Background.World :=
  Background.onInstalled (Background.initial (mkStorage None None None) [1; 2]).

(** The default form with another sensitivity. *)
Definition form_with_sensitivity (v : num) : Options.Form :=
  Options.mkForm true true "system" true v (Fin 30) true (Fin 20) (Fin 20) (Fin 5).

(** The skin rule of the specification, on integer channels. *)
Definition skin_rule (r g b : Z) : Prop :=
  r > 60 /\ g > 20 /\ b > 10 /\ r > g /\ r > b /\ Z.abs (r - g) > 5.

Definition skin_rule_b (r g b : Z) : bool :=
  (60 <? r) && (20 <? g) && (10 <? b) && (g <? r) && (b <? r) && (5 <? Z.abs (r - g)).

(** The rule of the older sampler. *)
Definition strict_skin_rule (r g b : Z) : Prop :=
  r > 95 /\ g > 40 /\ b > 20 /\ r > g /\ r > b /\ Z.abs (r - g) > 15.

Definition strict_skin_rule_b (r g b : Z) : bool :=
  (95 <? r) && (40 <? g) && (20 <? b) && (g <? r) && (b <? r) && (15 <? Z.abs (r - g)).

(** The offsets of the strided subsample of a buffer of [n] bytes: every
    16th byte, that is every 4th pixel. *)
Definition sampled_offsets (n : nat) : list nat :=
  map (fun k => 16 * k)%nat (seq 0 ((n + 15) / 16)).

(** The pixel that starts at offset [i] has its three colour bytes in the
    buffer and they satisfy [rule]. *)
Definition pixel_satisfies (rule : Z -> Z -> Z -> bool) (data : list Z) (i : nat) : bool :=
  match nth_error data i, nth_error data (i + 1), nth_error data (i + 2) with
  | Some r, Some g, Some b => rule r g b
  | _, _, _ => false
  end.

(** Number of sampled pixels that satisfy [rule], and their fraction among
    the sampled pixels. *)
Definition skin_count (rule : Z -> Z -> Z -> bool) (data : list Z) : nat :=
  length (List.filter (pixel_satisfies rule data) (sampled_offsets (length data))).

Definition skin_fraction (rule : Z -> Z -> Z -> bool) (data : list Z) : num :=
  JsNum.div (ofZ (Z.of_nat (skin_count rule data)))
            (ofZ (Z.of_nat (length (sampled_offsets (length data))))).

(** The video has data and dimensions, so that [performSample] reaches the
    estimation. *)
Definition ready (f : Frame) : Prop :=
  2 <= readyState f /\ videoWidth f <> 0 /\ videoHeight f <> 0.

(** The sampler processes samples and is not in the middle of one. *)
Definition idle_sampler (s : Sampler) : Prop :=
  initialized s = true /\ isProcessing s = false.

(** Nothing has been accumulated for calibration. *)
Definition accumulator_empty (s : Sampler) : Prop :=
  calibrationSamples s = None \/ calibrationSamples s = Some [].

(** The frame is ready and its estimated face size is the positive
    number [a]. *)
Definition gives (f : Frame) (a : Q) : Prop :=
  ready f /\
  Offscreen.estimateFaceSize (data f) = Fin a /\
  (0 < a)%Q.

(** A sample taken at [now] from frame [f] passes the interval floor and
    yields the positive face size [a]. *)
Definition yields (s : Sampler) (now : Z) (f : Frame) (a : Q) : Prop :=
  SAMPLE_INTERVAL <= now - lastSampleTime s /\ gives f a.

(** A 640x480 video frame cut down to its first and fifth pixel, the two
    that a buffer of 20 bytes has sampled. *)
Definition frame_of (first fifth : Z * Z * Z) : Frame :=
  let '(r1, g1, b1) := first in
  let '(r5, g5, b5) := fifth in
  mkFrame 4 640 480
    [r1; g1; b1; 255;  0; 0; 0; 255;  0; 0; 0; 255;  0; 0; 0; 255;  r5; g5; b5; 255].

Definition skin_pixel : Z * Z * Z := (200, 120, 90).
Definition dark_pixel : Z * Z * Z := (10, 10, 10).

(** The proximity ratio of a face size against a calibration, and the
    threshold for a sensitivity, as the specification writes them. *)
Definition proximity_ratio (faceSize : num) (c : Calibration) : num :=
  JsNum.div faceSize (baselineFaceSize c).

Definition proximity_threshold (sens : num) : num :=
  JsNum.mul (Fin 0.7) sens.

(** A sampler calibrated to a baseline of one half. *)
Definition calibrated_sampler : Sampler :=
  mkSampler true false (Some (mkCalibration (Fin 0.5) 1000)) 0 None [] StatusReady.

(** The installed extension after a save of the default settings: both
    alarms are scheduled and the offscreen document is open. *)
Definition running : Background.World :=
  after 0 (SettingsUpdate DEFAULT_SETTINGS) installed.

(** The default settings with proximity switched off. *)
Definition proximity_off_settings : Settings :=
  mkSettings (Some true) (Some true) (Some "system"%string) (Some false) (Some (Fin 1.5))
             (Some (Fin 30)) (Some true) (Some (Fin 20)) (Some (Fin 20)) (Some (Fin 5)).

(** [Math.max(interval - elapsed, 0)] for a finite interval. *)
Definition remaining (interval : Q) (elapsed : Z) : Q :=
  if JsNum.Qltb (interval + - inject_Z elapsed) 0 then 0 else interval + - inject_Z elapsed.

(** ** Further parts of the sources *)

(** The live feedback of the options form ([setupFormValidation]). *)
Module OptionsForm.

(** [VALIDATION_RULES[fieldName]], for the id of an input element. *)
Definition rule_of (fieldName : string) : option Options.Rule :=
  if String.eqb fieldName "sensitivity"
  then Some (Options.rule_sensitivity Options.VALIDATION_RULES)
  else if String.eqb fieldName "proximityPeriodSeconds"
  then Some (Options.rule_proximityPeriodSeconds Options.VALIDATION_RULES)
  else if String.eqb fieldName "breakIntervalMinutes"
  then Some (Options.rule_breakIntervalMinutes Options.VALIDATION_RULES)
  else if String.eqb fieldName "breakDurationSeconds"
  then Some (Options.rule_breakDurationSeconds Options.VALIDATION_RULES)
  else if String.eqb fieldName "snoozeMinutes"
  then Some (Options.rule_snoozeMinutes Options.VALIDATION_RULES)
  else None.

(** The [input] listener: [value] is [Number(input.value)]; the result
    tells whether the field is marked with an error. *)
Definition onInput (fieldName : string) (value : num) : bool :=
  match rule_of fieldName with
  | Some rule => JsNum.ltb value (Options.min rule) || JsNum.gtb value (Options.max rule)
  | None => false
  end.

End OptionsForm.

(** The popup's status query. *)
Module PopupStatus.

(** [getStatus].  [response] is the reply to [eyeguard.request.status]
    ([None] when the send rejects or nothing comes back); [storageOk] tells
    whether the fallback read of the store succeeds.  The popup's own
    [DEFAULT_SETTINGS] has one more key than the background's,
    [proximitySampleSeconds: 2], which no code reads; on the keys of
    [Settings] the two objects are equal. *)
Definition getStatus (response : option Response) (storageOk : bool) (st : Storage)
    : Response :=
  match response with
  | Some (StatusResponse a m b s) => StatusResponse a m b s
  | _ =>
      if storageOk then
        let activeMinutes := match stored_activeMinutes st with Some v => v | None => 0 end in
        let settings := match stored_settings st with Some v => v | None => DEFAULT_SETTINGS end in
        let minutesRemaining :=
          JsNum.max (JsNum.sub (toNumber (breakIntervalMinutes settings)) (ofZ activeMinutes))
                    (Fin 0) in
        StatusResponse activeMinutes minutesRemaining false settings
      else StatusResponse 0 (Fin 20) false DEFAULT_SETTINGS
  end.

End PopupStatus.

(** The content script. *)
Module Content.

(** The closure variables of the script and what it has sent:
    [breakOverlayEl] with the duration the overlay was created for, the
    [remaining] of the running countdown interval, whether the toast element
    is in the page, and the calls of [chrome.runtime.sendMessage]. *)
Record Page : Type := mkPage {
  breakOverlayEl : option num;
  countdown : option num;
  toast : bool;
  sent : list Message
}.

Definition empty : Page := mkPage None None false [].

(** [createToast] *)
Definition createToast (p : Page) : Page :=
  if toast p then p else mkPage (breakOverlayEl p) (countdown p) true (sent p).

(** The click on [eyeguard-toast-ok]. *)
Definition dismissToast (p : Page) : Page :=
  mkPage (breakOverlayEl p) (countdown p) false (sent p).

(** [showBreakOverlay] *)
Definition showBreakOverlay (durationSeconds : num) (p : Page) : Page :=
  match breakOverlayEl p with
  | Some _ => p
  | None => mkPage (Some durationSeconds) (countdown p) (toast p) (sent p)
  end.

(** [cleanupOverlay] *)
Definition cleanupOverlay (p : Page) : Page :=
  mkPage None (countdown p) (toast p) (sent p).

(** [startCountdown]: a running interval is cleared and a new one starts. *)
Definition startCountdown (secs : num) (p : Page) : Page :=
  mkPage (breakOverlayEl p) (Some secs) (toast p) (sent p).

(** The click on [eyeguard-start-break]; the button exists only while the
    overlay does. *)
Definition clickStart (p : Page) : Page :=
  match breakOverlayEl p with
  | Some durationSeconds => startCountdown durationSeconds p
  | None => p
  end.

(** The click on [eyeguard-skip-break]. *)
Definition clickSkip (p : Page) : Page :=
  match breakOverlayEl p with
  | Some _ =>
      let p1 := cleanupOverlay p in
      mkPage (breakOverlayEl p1) (countdown p1) (toast p1) (sent p1 ++ [BreakSnooze])
  | None => p
  end.

(** One firing of the countdown interval. *)
Definition intervalTick (p : Page) : Page :=
  match countdown p with
  | None => p
  | Some remaining =>
      let remaining := JsNum.sub remaining (Fin 1) in
      if JsNum.leb remaining (Fin 0) then
        mkPage None None (toast p) (sent p ++ [BreakCompleted])
      else mkPage (breakOverlayEl p) (Some remaining) (toast p) (sent p)
  end.

(** The message listener. *)
Definition onMessage (message : Message) (p : Page) : Page :=
  match message with
  | ProximityWarning => createToast p
  | BreakReminder => showBreakOverlay (Fin 20) p
  | BreakStart durationSeconds =>
      showBreakOverlay (if JsNum.truthy durationSeconds then durationSeconds else Fin 20) p
  | _ => p
  end.

End Content.

(** ** Further notions used in the statements *)

(** The id of the form input of a numeric field. *)
Definition field_name (f : NumericField) : string :=
  match f with
  | FSensitivity => "sensitivity"
  | FProximityPeriodSeconds => "proximityPeriodSeconds"
  | FBreakIntervalMinutes => "breakIntervalMinutes"
  | FBreakDurationSeconds => "breakDurationSeconds"
  | FSnoozeMinutes => "snoozeMinutes"
  end.

(** The numeric fields in the order in which [validateSettings] looks at
    them. *)
Definition all_fields : list NumericField :=
  [FSensitivity; FProximityPeriodSeconds; FBreakIntervalMinutes;
   FBreakDurationSeconds; FSnoozeMinutes].

(** Decision of [outside_range]. *)
Definition outside_range_b (s : Settings) (f : NumericField) : bool :=
  match field_value f s with
  | Some v => JsNum.ltb v (Fin (fst (documented_range f))) ||
              JsNum.ltb (Fin (snd (documented_range f))) v
  | None => false
  end.

(** What the background can be given: an alarm or a message. *)
Inductive Event : Type :=
| AlarmFired (name : string) (now : Z) (state : IdleState)
| MessageReceived (now : Z) (m : Message).

Definition handle (e : Event) (w : Background.World) : Background.World :=
  match e with
  | AlarmFired name now state => Background.onAlarm name now state w
  | MessageReceived now m => after now m w
  end.

Definition run (events : list Event) (w : Background.World) : Background.World :=
  fold_left (fun acc e => handle e acc) events w.

(** The count of active minutes is the stored one, is not negative, and no
    break is marked as in progress. *)
Definition coherent (w : Background.World) : Prop :=
  stored_activeMinutes (Background.storage w) = Some (Background.activeMinutes w) /\
  0 <= Background.activeMinutes w /\
  Background.isBreakInProgress w = false.

(** [n] broadcasts of [m]. *)
Fixpoint broadcasts (n : nat) (m : Message) (w : Background.World) : list (Z * Message) :=
  match n with
  | O => []
  | S n' => one_broadcast m w ++ broadcasts n' m w
  end.

(** A positive finite number. *)
Definition positive (n : num) : Prop :=
  exists q, n = Fin q /\ (0 < q)%Q.

(** What holds of a sampler that started without calibration and has only
    taken samples since: it is ready, an accumulator that is still filling
    holds fewer than five positive numbers, and a baseline is positive. *)
Definition sampler_ok (s : Sampler) : Prop :=
  idle_sampler s /\
  (calibrationData s = None ->
     exists acc, (calibrationSamples s = Some acc \/ (calibrationSamples s = None /\ acc = [])) /\
                 (length acc < CALIBRATION_SAMPLES)%nat /\
                 Forall positive acc) /\
  (forall c, calibrationData s = Some c -> positive (baselineFaceSize c)).

(** [n] firings of the countdown interval. *)
Fixpoint interval_ticks (n : nat) (p : Content.Page) : Content.Page :=
  match n with
  | O => p
  | S n' => interval_ticks n' (Content.intervalTick p)
  end.

(** Delivery of the messages sent to tab [tab] to its content script. *)
Definition deliver_to_tab (tab : Z) (log : list (Z * Message)) (p : Content.Page) : Content.Page :=
  fold_left (fun acc tm => if (fst tm =? tab) then Content.onMessage (snd tm) acc else acc) log p.

(** The alarms a settings record asks for: the break tick every minute if
    the master and break switches are on, the proximity sample every
    [proximityPeriodSeconds / 60] minutes if the master and proximity
    switches are on. *)
Definition scheduled (s : Settings) : gmap string Alarm :=
  let breaks :=
    if truthy_flag (enabled s) && truthy_flag (breaksEnabled s)
    then <[Background.BREAK_TICK := mkAlarm (Fin 1) (Fin 1)]> ∅
    else ∅ in
  if truthy_flag (enabled s) && truthy_flag (proximityEnabled s)
  then <[Background.PROXIMITY_SAMPLE :=
           mkAlarm (Fin 0.5) (JsNum.div (toNumber (proximityPeriodSeconds s)) (Fin 60))]> breaks
  else breaks.

(** The calibration the background answers a [storage.get.calibration]
    with. *)
Definition calibration_reply (now : Z) (w : Background.World) : option Calibration :=
  match snd (Background.onMessage now StorageGetCalibration w) with
  | CalibrationResponse c => c
  | _ => None
  end.

(** The settings the background answers a [storage.get.settings] with. *)
Definition settings_reply (now : Z) (w : Background.World) : option Settings :=
  match snd (Background.onMessage now StorageGetSettings w) with
  | SettingsResponse s => Some s
  | _ => None
  end.





(** [k] firings of the proximity alarm. *)
Definition proximity_alarms (k : nat) : list Event :=
  repeat (AlarmFired Background.PROXIMITY_SAMPLE 0 Active) k.

(** * Properties *)

(** ** Comparison of numbers *)

Lemma Qltb_lt (a b : Q) : JsNum.Qltb a b = true <-> (a < b)%Q.
Proof. unfold JsNum.Qltb, Qlt. apply Z.ltb_lt. Qed.

Lemma Qltb_ge (a b : Q) : JsNum.Qltb a b = false <-> (b <= a)%Q.
Proof. unfold JsNum.Qltb, Qle. apply Z.ltb_ge. Qed.

Lemma ltb_lt (a b : num) : JsNum.ltb a b = true <-> JsNum.lt a b.
Proof.
  split.
  - destruct a, b; simpl; intros H; try discriminate H; try constructor.
    now apply Qltb_lt.
  - intros H. destruct H; simpl; try reflexivity. now apply Qltb_lt.
Qed.

Lemma ltb_not_lt (a b : num) : JsNum.ltb a b = false <-> ~ JsNum.lt a b.
Proof.
  rewrite <- ltb_lt. destruct (JsNum.ltb a b); split; intros H; try reflexivity;
    try discriminate H; try (intros H'; discriminate H').
  exfalso. now apply H.
Qed.

Lemma geb_fin (x y : Q) : JsNum.geb (Fin x) (Fin y) = true <-> (y <= x)%Q.
Proof.
  unfold JsNum.geb. simpl. rewrite negb_true_iff. apply Qltb_ge.
Qed.

Lemma geb_fin_false (x y : Q) : JsNum.geb (Fin x) (Fin y) = false <-> (x < y)%Q.
Proof.
  unfold JsNum.geb. simpl. rewrite negb_false_iff. apply Qltb_lt.
Qed.

Lemma ltb_ofZ (a b : Z) : JsNum.ltb (ofZ a) (ofZ b) = (a <? b).
Proof.
  unfold JsNum.ofZ, JsNum.ltb, JsNum.Qltb. simpl. now rewrite !Z.mul_1_r.
Qed.

Lemma truthy_flag_true (o : option bool) : truthy_flag o = true <-> o = Some true.
Proof.
  destruct o as [[|]|]; simpl; split; intros H; try reflexivity; try discriminate H.
Qed.

(** ** The break tick *)

Section Tick.

Import Background.

Variable now : Z.
Variable w : World.

Hypothesis Hon : breaks_on w.
Hypothesis Hsnooze : ~ snoozed now w.

Lemma tick_passes_guards (state : IdleState) :
  handleBreakTick now state w =
    if is_active state && negb (isBreakInProgress w) then
      let w2 := store_activeMinutes (activeMinutes w + 1)
                  (set_activeMinutes (activeMinutes w + 1) w) in
      if JsNum.geb (ofZ (activeMinutes w + 1))
                   (toNumber (breakIntervalMinutes (get_settings w)))
      then broadcastMessage BreakReminder (store_activeMinutes 0 (set_activeMinutes 0 w2))
      else w2
    else if negb (is_active state) then store_activeMinutes 0 (set_activeMinutes 0 w)
    else w.
Proof.
  destruct Hon as [He Hb]. apply ltb_not_lt in Hsnooze.
  unfold handleBreakTick. rewrite He, Hb, Hsnooze. reflexivity.
Qed.

End Tick.

Lemma world_at_on (elapsed : Z) : breaks_on (world_at elapsed).
Proof. split; reflexivity. Qed.

Lemma world_at_not_snoozed (now elapsed : Z) : 0 <= now -> ~ snoozed now (world_at elapsed).
Proof.
  intros Hnow H. apply ltb_lt in H. change (JsNum.ltb (ofZ now) (ofZ 0) = true) in H.
  rewrite ltb_ofZ in H. apply Z.ltb_lt in H. lia.
Qed.

(** C1. In a state where the break subsystem is on, the snooze window has
    passed, no break is in progress and the user is active, a tick whose
    increment brings the count of active minutes to the break interval or
    beyond leaves the count at 0, in memory and in the store, and adds to the
    messages sent to tabs exactly one break reminder per open tab, that is
    one broadcast; nothing is sent to the other contexts. *)
Theorem tick_reaching_interval_resets_and_reminds
    (now : Z) (w : Background.World) (q : Q) :
  breaks_on w ->
  ~ snoozed now w ->
  Background.isBreakInProgress w = false ->
  interval_is w q ->
  (q <= inject_Z (Background.activeMinutes w + 1))%Q ->
  let w' := Background.handleBreakTick now Active w in
  Background.activeMinutes w' = 0 /\
  stored_activeMinutes (Background.storage w') = Some 0 /\
  Background.tabMessages w' = Background.tabMessages w ++ one_broadcast BreakReminder w /\
  Background.runtimeMessages w' = Background.runtimeMessages w.
Proof.
  intros Hon Hsn Hbreak Hq Hreach w'. subst w'.
  rewrite (tick_passes_guards now w Hon Hsn Active), Hbreak.
  unfold interval_is in Hq. rewrite Hq. simpl.
  apply geb_fin in Hreach. unfold JsNum.ofZ. rewrite Hreach.
  repeat split.
Qed.

(** The scenario of the specification: interval 20, 19 minutes elapsed,
    user active. *)
Lemma tick_reaching_interval_witness :
  let w' := Background.handleBreakTick 60000 Active (world_at 19) in
  Background.activeMinutes w' = 0 /\
  stored_activeMinutes (Background.storage w') = Some 0 /\
  Background.tabMessages w' = [(1, BreakReminder); (2, BreakReminder)] /\
  Background.runtimeMessages w' = [].
Proof.
  apply (tick_reaching_interval_resets_and_reminds 60000 (world_at 19) 20).
  - apply world_at_on.
  - apply world_at_not_snoozed. lia.
  - reflexivity.
  - reflexivity.
  - vm_compute. discriminate.
Defined.

(** C2, as it is written, at the last minute before the interval: with 19
    of 20 minutes elapsed every premise holds, and the tick leaves 0, not 20. *)
Lemma tick_last_minute_does_not_leave_increment :
  breaks_on (world_at 19) /\
  ~ snoozed 60000 (world_at 19) /\
  Background.isBreakInProgress (world_at 19) = false /\
  interval_is (world_at 19) 20 /\
  (inject_Z (Background.activeMinutes (world_at 19)) < 20)%Q /\
  Background.activeMinutes (Background.handleBreakTick 60000 Active (world_at 19))
    <> Background.activeMinutes (world_at 19) + 1.
Proof.
  split; [apply world_at_on|].
  split; [apply world_at_not_snoozed; lia|].
  repeat split. vm_compute. discriminate.
Qed.

(** C2, amended. In a state where the break subsystem is on, the snooze
    window has passed, no break is in progress and the user is active, a tick
    whose increment stays below the break interval leaves the count of active
    minutes exactly one higher, in memory and in the store, and sends
    nothing. *)
Theorem tick_below_interval_increments
    (now : Z) (w : Background.World) (q : Q) :
  breaks_on w ->
  ~ snoozed now w ->
  Background.isBreakInProgress w = false ->
  interval_is w q ->
  (inject_Z (Background.activeMinutes w + 1) < q)%Q ->
  let w' := Background.handleBreakTick now Active w in
  Background.activeMinutes w' = Background.activeMinutes w + 1 /\
  stored_activeMinutes (Background.storage w') = Some (Background.activeMinutes w + 1) /\
  Background.tabMessages w' = Background.tabMessages w /\
  Background.runtimeMessages w' = Background.runtimeMessages w.
Proof.
  intros Hon Hsn Hbreak Hq Hbelow w'. subst w'.
  rewrite (tick_passes_guards now w Hon Hsn Active), Hbreak.
  unfold interval_is in Hq. rewrite Hq. simpl.
  apply geb_fin_false in Hbelow. unfold JsNum.ofZ. rewrite Hbelow.
  repeat split.
Qed.

Lemma tick_below_interval_witness :
  let w' := Background.handleBreakTick 60000 Active (world_at 7) in
  Background.activeMinutes w' = 8 /\
  stored_activeMinutes (Background.storage w') = Some 8 /\
  Background.tabMessages w' = [] /\
  Background.runtimeMessages w' = [].
Proof.
  apply (tick_below_interval_increments 60000 (world_at 7) 20).
  - apply world_at_on.
  - apply world_at_not_snoozed. lia.
  - reflexivity.
  - reflexivity.
  - reflexivity.
Defined.

(** C3. In a state where the break subsystem is on and the snooze window
    has passed, a tick that finds the user not active leaves the count of
    active minutes at 0, in memory and in the store, whatever it was before
    and whether or not a break is in progress, and sends nothing. *)
Theorem tick_not_active_resets
    (now : Z) (state : IdleState) (w : Background.World) :
  breaks_on w ->
  ~ snoozed now w ->
  state <> Active ->
  let w' := Background.handleBreakTick now state w in
  Background.activeMinutes w' = 0 /\
  stored_activeMinutes (Background.storage w') = Some 0 /\
  Background.tabMessages w' = Background.tabMessages w /\
  Background.runtimeMessages w' = Background.runtimeMessages w.
Proof.
  intros Hon Hsn Hstate w'. subst w'.
  rewrite (tick_passes_guards now w Hon Hsn state).
  destruct state; [congruence | |]; simpl; repeat split.
Qed.

Lemma tick_not_active_witness :
  let w' := Background.handleBreakTick 60000 Locked (world_at 13) in
  Background.activeMinutes w' = 0 /\
  stored_activeMinutes (Background.storage w') = Some 0 /\
  Background.tabMessages w' = [] /\
  Background.runtimeMessages w' = [].
Proof.
  apply (tick_not_active_resets 60000 Locked (world_at 13)).
  - apply world_at_on.
  - apply world_at_not_snoozed. lia.
  - discriminate.
Defined.

(** ** Snoozing *)

Lemma tick_snoozed_noop (now : Z) (state : IdleState) (w : Background.World) :
  snoozed now w -> Background.handleBreakTick now state w = w.
Proof.
  intros H. apply ltb_lt in H. unfold Background.handleBreakTick.
  rewrite H. now destruct (_ || _).
Qed.

Lemma run_ticks_snoozed_noop (ticks : list (Z * IdleState)) (w : Background.World) :
  Forall (fun t => snoozed (fst t) w) ticks -> run_ticks ticks w = w.
Proof.
  induction 1 as [|t ticks Ht _ IH]; [reflexivity|].
  unfold run_ticks in *. simpl. now rewrite tick_snoozed_noop.
Qed.

(** C4. The snooze message, handled at time [t0] under settings whose
    snooze length is the number [m], sets the snooze deadline to
    [t0 + m * 60 * 1000] milliseconds and leaves the count of active minutes
    (and everything but the deadline) as it was; after that, every tick
    whose clock reading is before the deadline, whatever the idle state,
    returns the world unchanged, so the count, the store, the alarms and the
    messages sent all stay as they were, and so does any run of such
    ticks. *)
Theorem snooze_suppresses_ticks
    (t0 : Z) (m : Q) (w : Background.World) :
  snoozeMinutes (Background.get_settings w) = Some (Fin m) ->
  let w1 := after t0 BreakSnooze w in
  Background.snoozedUntilMs w1 = Fin (inject_Z t0 + m * 60 * 1000) /\
  Background.activeMinutes w1 = Background.activeMinutes w /\
  w1 = Background.set_snoozedUntilMs (Background.snoozedUntilMs w1) w /\
  (forall now state, snoozed now w1 -> Background.handleBreakTick now state w1 = w1) /\
  (forall ticks, Forall (fun t => snoozed (fst t) w1) ticks -> run_ticks ticks w1 = w1).
Proof.
  intros Hm w1. subst w1. unfold after. simpl. rewrite Hm. simpl.
  repeat split.
  - intros now state. apply tick_snoozed_noop.
  - intros ticks. apply run_ticks_snoozed_noop.
Qed.

(** Default settings (5 minutes), snoozed at t0 = 1000 with 19 minutes
    elapsed: the deadline is 301000, and ticks at 61000 and 300999 change
    nothing. *)
Lemma snooze_suppresses_ticks_witness :
  let w1 := after 1000 BreakSnooze (world_at 19) in
  Background.snoozedUntilMs w1 = Fin (inject_Z 1000 + 5 * 60 * 1000) /\
  Background.activeMinutes w1 = 19 /\
  Background.handleBreakTick 61000 Active w1 = w1 /\
  run_ticks [(61000, Active); (300999, Idle)] w1 = w1.
Proof.
  destruct (snooze_suppresses_ticks 1000 5 (world_at 19) eq_refl)
    as (Hd & Ha & _ & Ht & Hr).
  split; [exact Hd|]. split; [exact Ha|]. split.
  - apply Ht. apply ltb_lt. reflexivity.
  - apply Hr. repeat constructor; apply ltb_lt; reflexivity.
Defined.

(** ** Validation of settings *)

Lemma In_push_if_old (c : bool) (m m' : string) (errors : list string) :
  In m errors -> In m (Options.push_if c m' errors).
Proof.
  intros H. unfold Options.push_if. destruct c; [|exact H].
  apply in_or_app. now left.
Qed.

Lemma In_push_if_new (m : string) (errors : list string) :
  In m (Options.push_if true m errors).
Proof. unfold Options.push_if. apply in_or_app. right. now left. Qed.

Lemma violates_outside (r : Options.Rule) (lo hi : Q) (v : num) :
  Options.min r = Fin lo -> Options.max r = Fin hi ->
  JsNum.lt v (Fin lo) \/ JsNum.lt (Fin hi) v ->
  Options.violates r (Some v) = true.
Proof.
  intros Hlo Hhi H. unfold Options.violates, JsNum.gtb. rewrite Hlo, Hhi.
  change (toNumber (Some v)) with v.
  apply orb_true_iff. destruct H as [H|H]; [left|right]; now apply ltb_lt.
Qed.

Lemma validate_reports (f : NumericField) (s : Settings) :
  outside_range f s -> In (violation f) (Options.validateSettings s).
Proof.
  intros (v & Hv & Hout). unfold Options.validateSettings.
  destruct f; simpl in Hv, Hout; rewrite Hv;
    match goal with
    | |- context [Options.violates ?r (Some v)] =>
        rewrite (violates_outside r _ _ v eq_refl eq_refl Hout)
    end;
    simpl violation;
    repeat first [ apply In_push_if_new | apply In_push_if_old ].
Qed.

Lemma save_rejected (f : Options.Form) (available : bool) (now : Z) (w : Background.World) :
  Options.validateSettings (Options.readForm f) <> [] ->
  Options.saveSettings f available now w =
    (w, Options.mkNotification
          ("Validation errors: " ++ Options.join (Options.validateSettings (Options.readForm f)))
          Options.error).
Proof.
  intros H. unfold Options.saveSettings.
  destruct (Options.validateSettings (Options.readForm f)) as [|e errors]; [congruence|].
  reflexivity.
Qed.

(** C6. [validateSettings] returns the empty list for the default record;
    for every record in which a numeric field holds a number below the lower
    or above the upper bound of its documented range, the returned list
    contains the violation of that field, so it is not empty; and
    [saveSettings] on a form whose record is rejected returns the world as it
    was (no write to the store, no message to the background, no change of
    alarms) together with an error notification. *)
Theorem validateSettings_rejects_out_of_range :
  Options.validateSettings DEFAULT_SETTINGS = [] /\
  (forall (f : NumericField) (s : Settings),
      outside_range f s ->
      In (violation f) (Options.validateSettings s) /\
      Options.validateSettings s <> []) /\
  (forall (f : NumericField) (form : Options.Form) (available : bool) (now : Z)
          (w : Background.World),
      outside_range f (Options.readForm form) ->
      fst (Options.saveSettings form available now w) = w /\
      Options.notification_type (snd (Options.saveSettings form available now w))
        = Options.error).
Proof.
  split; [reflexivity|]. split.
  - intros f s H. pose proof (validate_reports f s H) as Hin.
    split; [exact Hin|]. intros Hnil. rewrite Hnil in Hin. exact Hin.
  - intros f form available now w H.
    pose proof (validate_reports f _ H) as Hin.
    rewrite save_rejected; [split; reflexivity|].
    intros Hnil. rewrite Hnil in Hin. exact Hin.
Qed.

(** A sensitivity of 2.5 is reported, and saving it changes nothing. *)
Lemma validateSettings_sensitivity_witness :
  In Options.msg_sensitivity
     (Options.validateSettings (Options.readForm (form_with_sensitivity (Fin 2.5)))) /\
  fst (Options.saveSettings (form_with_sensitivity (Fin 2.5)) true 1000 installed) = installed.
Proof.
  destruct validateSettings_rejects_out_of_range as (_ & Hv & Hs).
  assert (Hout : outside_range FSensitivity
                   (Options.readForm (form_with_sensitivity (Fin 2.5)))).
  { exists (Fin 2.5). split; [reflexivity|]. right. constructor. reflexivity. }
  split.
  - exact (proj1 (Hv FSensitivity _ Hout)).
  - exact (proj1 (Hs FSensitivity _ true 1000 installed Hout)).
Defined.

Lemma push_if_nil (c : bool) (m : string) (errors : list string) :
  Options.push_if c m errors = [] -> c = false /\ errors = [].
Proof.
  unfold Options.push_if. destruct c; intros H; [|now split].
  destruct errors; discriminate H.
Qed.

Lemma validate_nil_within (s : Settings) (f : NumericField) (q : Q) :
  Options.validateSettings s = [] ->
  field_value f s = Some (Fin q) ->
  within_range f s.
Proof.
  unfold Options.validateSettings. intros H Hq.
  apply push_if_nil in H as [H5 H]. apply push_if_nil in H as [H4 H].
  apply push_if_nil in H as [H3 H]. apply push_if_nil in H as [H2 H].
  apply push_if_nil in H as [H1 _].
  exists q. split; [exact Hq|].
  destruct f; simpl in Hq |- *;
    match goal with
    | Hv : Options.violates _ ?x = false, Hx : ?x = Some (Fin q) |- _ =>
        rewrite Hx in Hv; apply orb_false_iff in Hv as [Hlo Hhi];
        apply Qltb_ge in Hlo; apply Qltb_ge in Hhi; split; assumption
    end.
Qed.

(** A record without any numeric field passes validation: a comparison with
    [undefined] is false. *)
Lemma validate_empty_record : Options.validateSettings emptySettings = [].
Proof. reflexivity. Qed.

(** ** What reaches the store *)

Lemma update_stores_payload (now : Z) (payload : Settings) (w : Background.World) :
  stored_settings (Background.storage (after now (SettingsUpdate payload) w)) = Some payload.
Proof.
  unfold after. simpl.
  unfold Background.ensureProximitySampling, Background.ensureBreakTickAlarm,
    Background.ensureOffscreenDocument.
  repeat match goal with
         | |- context [if ?c then _ else _] => destruct c; simpl
         end; reflexivity.
Qed.

Lemma validate_nil_not_outside (s : Settings) (f : NumericField) :
  Options.validateSettings s = [] -> ~ outside_range f s.
Proof.
  intros Hnil Hout. apply validate_reports in Hout. rewrite Hnil in Hout. exact Hout.
Qed.

(** The popup, evaluated. After installation the store holds the complete
    default record. One change of the popup's proximity toggle replaces it by
    the record whose only property is [proximityEnabled]: the stored record
    is not complete and none of its numeric fields is within range; with the
    master switch gone, every later tick returns at its first guard and the
    status query answers a remaining time that is not a number. *)
Lemma popup_toggle_stores_partial_record :
  stored_settings (Background.storage installed) = Some DEFAULT_SETTINGS /\
  complete DEFAULT_SETTINGS = true /\
  let partial := mkSettings None None None (Some false) None None None None None None in
  let w1 := Popup.toggleProximity false true 1000 installed in
  stored_settings (Background.storage w1) = Some partial /\
  complete partial = false /\
  (forall f, ~ within_range f partial) /\
  (forall now state, Background.handleBreakTick now state w1 = w1) /\
  snd (Background.onMessage 2000 RequestStatus w1) = StatusResponse 0 NaN false partial.
Proof.
  split; [reflexivity|]. split; [reflexivity|].
  intros partial w1.
  split; [reflexivity|]. split; [reflexivity|]. split.
  { intros f (q & Hq & _). destruct f; discriminate Hq. }
  split; [intros now state; reflexivity|].
  reflexivity.
Qed.

(** C5, as it is written, on a settings.update message: a complete record
    with sensitivity 2.5, which is above the documented range, is stored by
    the background as it comes. *)
Lemma background_update_stores_out_of_range :
  let bad := Options.readForm (form_with_sensitivity (Fin 2.5)) in
  complete bad = true /\
  outside_range FSensitivity bad /\
  stored_settings (Background.storage (after 1000 (SettingsUpdate bad) installed)) = Some bad.
Proof.
  intros bad. split; [reflexivity|]. split.
  - exists (Fin 2.5). split; [reflexivity|]. right. constructor. reflexivity.
  - apply update_stores_payload.
Qed.

(** C5, amended. A save on the options page either changes nothing, which
    is what happens whenever a numeric field of the form is below its lower
    or above its upper bound, or stores the whole record read from the form,
    which is complete and has no numeric field below its lower or above its
    upper bound, every finite one lying within its range. The background's
    settings.update handler replaces the stored record by the payload it is
    given, whatever the payload is. *)
Theorem options_save_stores_validated_records :
  (forall (form : Options.Form) (available : bool) (now : Z) (w : Background.World),
      let w' := fst (Options.saveSettings form available now w) in
      w' = w \/
      (stored_settings (Background.storage w') = Some (Options.readForm form) /\
       complete (Options.readForm form) = true /\
       (forall f, ~ outside_range f (Options.readForm form)) /\
       (forall f q, field_value f (Options.readForm form) = Some (Fin q) ->
                    within_range f (Options.readForm form)))) /\
  (forall (form : Options.Form) (available : bool) (now : Z) (w : Background.World) f,
      outside_range f (Options.readForm form) ->
      fst (Options.saveSettings form available now w) = w) /\
  (forall (now : Z) (payload : Settings) (w : Background.World),
      stored_settings (Background.storage (after now (SettingsUpdate payload) w))
      = Some payload).
Proof.
  split; [|split].
  - intros form available now w. unfold Options.saveSettings.
    destruct (Options.validateSettings (Options.readForm form)) as [|e errors] eqn:Hv.
    + right. cbn [fst length Z.of_nat Z.ltb Z.compare]. split; [|split; [|split]].
      * unfold Options.sendToBackground. destruct available; [|reflexivity].
        apply (update_stores_payload now).
      * reflexivity.
      * intros f. now apply validate_nil_not_outside.
      * intros f q Hq. now apply (validate_nil_within _ f q).
    + left. reflexivity.
  - intros form available now w f Hout. rewrite save_rejected; [reflexivity|].
    intros Hnil. now apply (validate_nil_not_outside _ f Hnil).
  - intros now payload w. apply update_stores_payload.
Qed.

(** Saving the default form with sensitivity 1.8 stores that record, and
    its sensitivity is within range. *)
Lemma options_save_witness :
  let form := form_with_sensitivity (Fin 1.8) in
  let w' := fst (Options.saveSettings form true 1000 installed) in
  stored_settings (Background.storage w') = Some (Options.readForm form) /\
  within_range FSensitivity (Options.readForm form).
Proof.
  intros form w'.
  destruct options_save_stores_validated_records as (Hsave & _ & _).
  destruct (Hsave form true 1000 installed) as [Hsame | (Hst & _ & _ & Hin)].
  - exfalso. apply (f_equal (fun w => stored_settings (Background.storage w))) in Hsame.
    vm_compute in Hsame. discriminate Hsame.
  - split; [exact Hst|]. apply (Hin FSensitivity 1.8%Q). reflexivity.
Defined.

(** ** Face-size estimation *)

Lemma gtb_ofZ (a b : Z) : JsNum.gtb (ofZ a) (ofZ b) = (b <? a).
Proof. unfold JsNum.gtb. apply ltb_ofZ. Qed.

Lemma gtb_abs_sub_ofZ (r g k : Z) :
  JsNum.gtb (JsNum.abs (JsNum.sub (ofZ r) (ofZ g))) (ofZ k) = (k <? Z.abs (r - g)).
Proof.
  unfold JsNum.gtb, JsNum.ofZ, JsNum.sub, JsNum.ltb, JsNum.Qltb. simpl.
  rewrite !Z.mul_1_r. f_equal.
Qed.

Lemma is_skin_ofZ (r g b : Z) :
  Offscreen.is_skin (ofZ r) (ofZ g) (ofZ b) = skin_rule_b r g b.
Proof.
  unfold Offscreen.is_skin, skin_rule_b.
  change (Fin 60) with (ofZ 60). change (Fin 20) with (ofZ 20).
  change (Fin 10) with (ofZ 10). change (Fin 5) with (ofZ 5).
  now rewrite !gtb_ofZ, gtb_abs_sub_ofZ.
Qed.

Lemma strict_is_skin_ofZ (r g b : Z) :
  OffscreenDirect.is_skin (ofZ r) (ofZ g) (ofZ b) = strict_skin_rule_b r g b.
Proof.
  unfold OffscreenDirect.is_skin, strict_skin_rule_b.
  change (Fin 95) with (ofZ 95). change (Fin 40) with (ofZ 40).
  change (Fin 20) with (ofZ 20). change (Fin 15) with (ofZ 15).
  now rewrite !gtb_ofZ, gtb_abs_sub_ofZ.
Qed.

Lemma skin_rule_b_spec (r g b : Z) : skin_rule_b r g b = true <-> skin_rule r g b.
Proof.
  unfold skin_rule_b, skin_rule. rewrite !andb_true_iff, !Z.ltb_lt. lia.
Qed.

Lemma strict_skin_rule_b_spec (r g b : Z) :
  strict_skin_rule_b r g b = true <-> strict_skin_rule r g b.
Proof.
  unfold strict_skin_rule_b, strict_skin_rule. rewrite !andb_true_iff, !Z.ltb_lt. lia.
Qed.

(** A test that fails as soon as one channel is [undefined] agrees, on the
    bytes of a buffer, with the rule it computes on integers. *)
Section Loop.

Variable skin : num -> num -> num -> bool.
Variable rule : Z -> Z -> Z -> bool.

Hypothesis skin_rule_agree : forall r g b, skin (ofZ r) (ofZ g) (ofZ b) = rule r g b.
Hypothesis skin_nan_r : forall g b, skin NaN g b = false.
Hypothesis skin_nan_g : forall r b, skin r NaN b = false.
Hypothesis skin_nan_b : forall r g, skin r g NaN = false.

Lemma skin_channels (data : list Z) (i : nat) :
  skin (channel data i) (channel data (i + 1)) (channel data (i + 2))
  = pixel_satisfies rule data i.
Proof.
  unfold channel, pixel_satisfies.
  destruct (nth_error data i) as [r|]; simpl; [|apply skin_nan_r].
  destruct (nth_error data (i + 1)) as [g|]; simpl; [|apply skin_nan_g].
  destruct (nth_error data (i + 2)) as [b|]; simpl; [|apply skin_nan_b].
  apply skin_rule_agree.
Qed.

Lemma offset_in_range (n k : nat) : (k < (n + 15) / 16 <-> 16 * k < n)%nat.
Proof.
  pose proof (Nat.div_mod_eq (n + 15) 16) as E.
  pose proof (Nat.mod_upper_bound (n + 15) 16 ltac:(lia)) as B.
  lia.
Qed.

(** The loop started at the [k]-th sampled offset with enough fuel adds to
    its counters what the remaining sampled offsets contribute. *)
Lemma estimate_loop_from (data : list Z) (d : nat) :
  forall (k fuel : nat) (skinPixels totalPixels : Z),
    (k + d = (length data + 15) / 16)%nat ->
    (d <= fuel)%nat ->
    estimate_loop skin fuel data (16 * k) skinPixels totalPixels =
      (skinPixels +
         Z.of_nat (length (List.filter (pixel_satisfies rule data)
                                  (map (fun j => 16 * j)%nat (seq k d)))),
       totalPixels + Z.of_nat d).
Proof.
  induction d as [|d IH]; intros k fuel sk tot Hk Hfuel.
  - cbn [seq map List.filter length]. rewrite !Z.add_0_r.
    destruct fuel as [|fuel]; [reflexivity|]. cbn [estimate_loop].
    assert (H : ~ (16 * k < length data)%nat) by (rewrite <- offset_in_range; lia).
    apply Nat.ltb_nlt in H. now rewrite H.
  - destruct fuel as [|fuel]; [lia|].
    assert (H : (16 * k < length data)%nat) by (apply offset_in_range; lia).
    apply Nat.ltb_lt in H.
    cbn [estimate_loop]. rewrite H. cbv zeta.
    rewrite skin_channels.
    replace (16 * k + 16)%nat with (16 * S k)%nat by lia.
    rewrite IH by lia.
    cbn [seq map List.filter].
    destruct (pixel_satisfies rule data (16 * k)); cbn [length]; f_equal; lia.
Qed.

Lemma estimate_loop_total (data : list Z) :
  estimate_loop skin (length data) data 0 0 0 =
    (Z.of_nat (skin_count rule data),
     Z.of_nat (length (sampled_offsets (length data)))).
Proof.
  change 0%nat with (16 * 0)%nat at 1.
  rewrite (estimate_loop_from data ((length data + 15) / 16) 0).
  - unfold skin_count, sampled_offsets. now rewrite length_map, length_seq.
  - reflexivity.
  - assert (H : forall n, ((n + 15) / 16 <= n)%nat).
    { intros n. pose proof (Nat.div_mod_eq (n + 15) 16).
      pose proof (Nat.mod_upper_bound (n + 15) 16 ltac:(lia)). lia. }
    apply H.
Qed.

End Loop.

Lemma is_skin_nan :
  (forall g b, Offscreen.is_skin NaN g b = false) /\
  (forall r b, Offscreen.is_skin r NaN b = false) /\
  (forall r g, Offscreen.is_skin r g NaN = false).
Proof.
  unfold Offscreen.is_skin, JsNum.gtb. split; [reflexivity|]. split.
  - intros r b. change (JsNum.ltb (Fin 20) NaN) with false.
    now rewrite andb_false_r.
  - intros r g. change (JsNum.ltb (Fin 10) NaN) with false.
    now rewrite andb_false_r.
Qed.

Lemma strict_is_skin_nan :
  (forall g b, OffscreenDirect.is_skin NaN g b = false) /\
  (forall r b, OffscreenDirect.is_skin r NaN b = false) /\
  (forall r g, OffscreenDirect.is_skin r g NaN = false).
Proof.
  unfold OffscreenDirect.is_skin, JsNum.gtb. split; [reflexivity|]. split.
  - intros r b. change (JsNum.ltb (Fin 40) NaN) with false.
    now rewrite andb_false_r.
  - intros r g. change (JsNum.ltb (Fin 20) NaN) with false.
    now rewrite andb_false_r.
Qed.

Lemma estimateFaceSize_fraction (data : list Z) :
  Offscreen.estimateFaceSize data = skin_fraction skin_rule_b data.
Proof.
  destruct is_skin_nan as (Hr & Hg & Hb).
  unfold Offscreen.estimateFaceSize.
  now rewrite (estimate_loop_total _ skin_rule_b is_skin_ofZ Hr Hg Hb).
Qed.

Lemma strict_estimateFaceSize_fraction (data : list Z) :
  OffscreenDirect.estimateFaceSize data = skin_fraction strict_skin_rule_b data.
Proof.
  destruct strict_is_skin_nan as (Hr & Hg & Hb).
  unfold OffscreenDirect.estimateFaceSize.
  now rewrite (estimate_loop_total _ strict_skin_rule_b strict_is_skin_ofZ Hr Hg Hb).
Qed.

(** On a buffer that is not empty the fraction is a finite quotient. *)
Lemma skin_fraction_finite (rule : Z -> Z -> Z -> bool) (data : list Z) :
  data <> [] ->
  skin_fraction rule data =
    Fin (inject_Z (Z.of_nat (skin_count rule data)) /
         inject_Z (Z.of_nat (length (sampled_offsets (length data))))).
Proof.
  intros Hne. unfold skin_fraction, sampled_offsets.
  rewrite length_map, length_seq.
  assert (H : (0 < (length data + 15) / 16)%nat).
  { apply offset_in_range. destruct data; [congruence|simpl; lia]. }
  unfold JsNum.div, JsNum.ofZ.
  destruct ((length data + 15) / 16)%nat as [|m]; [lia|]. reflexivity.
Qed.

(** C7, as it is written, on the pixel (70, 30, 15): the rule of the
    specification holds for it, the sampler of offscreen.js counts it, and
    the older sampler does not, so that the two report fractions 1 and 0 for
    the one-pixel frame. *)
Lemma older_sampler_uses_another_rule :
  skin_rule 70 30 15 /\
  Offscreen.is_skin (ofZ 70) (ofZ 30) (ofZ 15) = true /\
  OffscreenDirect.is_skin (ofZ 70) (ofZ 30) (ofZ 15) = false /\
  JsNum.eqv (Offscreen.estimateFaceSize [70; 30; 15; 255]) (Fin 1) /\
  JsNum.eqv (OffscreenDirect.estimateFaceSize [70; 30; 15; 255]) (Fin 0).
Proof.
  split; [unfold skin_rule; lia|].
  repeat split; vm_compute; reflexivity.
Qed.

(** C7, amended. In offscreen.js a pixel with integer channels (r, g, b) is
    counted as skin exactly when r>60, g>20, b>10, r>g, r>b and |r-g|>5,
    and [estimateFaceSize] returns the number of sampled pixels that satisfy
    this rule divided by the number of sampled pixels, the sampled pixels
    being those that start at every 16th byte of the buffer; a pixel whose
    colour bytes are not all in the buffer is not counted. The older sampler
    does the same with its own rule r>95, g>40, b>20, r>g, r>b and
    |r-g|>15. *)
Theorem estimateFaceSize_counts_skin_rule :
  (forall r g b, Offscreen.is_skin (ofZ r) (ofZ g) (ofZ b) = true <-> skin_rule r g b) /\
  (forall data, Offscreen.estimateFaceSize data = skin_fraction skin_rule_b data) /\
  (forall r g b,
      OffscreenDirect.is_skin (ofZ r) (ofZ g) (ofZ b) = true <-> strict_skin_rule r g b) /\
  (forall data, OffscreenDirect.estimateFaceSize data = skin_fraction strict_skin_rule_b data) /\
  (forall rule data,
      data <> [] ->
      skin_fraction rule data =
        Fin (inject_Z (Z.of_nat (skin_count rule data)) /
             inject_Z (Z.of_nat (length (sampled_offsets (length data)))))).
Proof.
  split; [intros r g b; rewrite is_skin_ofZ; apply skin_rule_b_spec|].
  split; [apply estimateFaceSize_fraction|].
  split; [intros r g b; rewrite strict_is_skin_ofZ; apply strict_skin_rule_b_spec|].
  split; [apply strict_estimateFaceSize_fraction|].
  apply skin_fraction_finite.
Qed.

(** A frame of 5 pixels: the sampled pixels are the first and the fifth; the
    first is skin by the rule, the fifth is not, the fraction is 1/2. *)
Lemma estimateFaceSize_witness :
  let data := [200; 120; 90; 255;  0; 0; 0; 255;  0; 0; 0; 255;  0; 0; 0; 255;
               10; 200; 10; 255] in
  sampled_offsets (length data) = [0; 16]%nat /\
  skin_count skin_rule_b data = 1%nat /\
  Offscreen.estimateFaceSize data = Fin (inject_Z 1 / inject_Z 2).
Proof.
  intros data. split; [reflexivity|]. split; [reflexivity|].
  destruct estimateFaceSize_counts_skin_rule as (_ & He & _ & _ & Hf).
  rewrite He. rewrite (Hf skin_rule_b data); [reflexivity|discriminate].
Defined.

(** ** Calibration *)

Section Sample.

Variables (now now' : Z) (response : option Settings) (f : Frame) (s : Sampler) (a : Q).

Hypothesis Hidle : idle_sampler s.
Hypothesis Hyields : yields s now f a.

(** Past its gates, [performSample] hands the face size to calibration or
    to the proximity check. *)
Lemma performSample_accepted :
  Offscreen.performSample now now' response f s =
    let s2 := mkSampler true false (calibrationData s) now (calibrationSamples s)
                        (effects s) (StatusFaceDetected (Fin a)) in
    match calibrationData s with
    | None => Offscreen.performCalibration now' (Fin a) s2
    | Some _ =>
        if Offscreen.checkProximity response (Fin a) s2
        then sendProximityWarning s2
        else s2
    end.
Proof.
  destruct Hidle as [Hi Hp]. destruct Hyields as (Ht & ((Hr & Hw & Hh) & He & Ha)).
  unfold Offscreen.performSample. rewrite Hi, Hp. cbn [negb orb].
  apply Z.ltb_ge in Ht. rewrite Ht.
  assert (H1 : (readyState f <? 2) = false) by (apply Z.ltb_ge; lia).
  apply Z.eqb_neq in Hw, Hh. rewrite H1, Hw, Hh. cbn [orb].
  rewrite He.
  assert (H2 : JsNum.gtb (Fin a) (Fin 0) = true) by (apply ltb_lt; now constructor).
  rewrite H2. reflexivity.
Qed.

End Sample.

(** Whatever a sample does, it leaves an existing calibration alone. *)
Lemma performSample_keeps_calibration
    (now now' : Z) (response : option Settings) (f : Frame) (s : Sampler) (c : Calibration) :
  calibrationData s = Some c ->
  calibrationData (Offscreen.performSample now now' response f s) = Some c.
Proof.
  intros Hc. unfold Offscreen.performSample.
  destruct (negb (initialized s) || isProcessing s); [exact Hc|].
  destruct (now - lastSampleTime s <? SAMPLE_INTERVAL); [exact Hc|].
  destruct (readyState f <? 2); [exact Hc|].
  destruct ((videoWidth f =? 0) || (videoHeight f =? 0)); [exact Hc|].
  destruct (JsNum.gtb (Offscreen.estimateFaceSize (data f)) (Fin 0)); [|exact Hc].
  cbn [calibrationData set_status]. rewrite Hc.
  destruct (Offscreen.checkProximity _ _ _); reflexivity.
Qed.

(** A sample accepted while there is no calibration extends the
    accumulator, and completes the calibration when that makes five. *)
Lemma performSample_calibrating
    (now now' : Z) (response : option Settings) (f : Frame) (s : Sampler) (a : Q)
    (acc : list num) :
  idle_sampler s ->
  calibrationData s = None ->
  calibrationSamples s = Some acc \/ (calibrationSamples s = None /\ acc = []) ->
  yields s now f a ->
  Offscreen.performSample now now' response f s =
    let samples := acc ++ [Fin a] in
    if (length samples <? CALIBRATION_SAMPLES)%nat then
      mkSampler true false None now (Some samples) (effects s)
                (StatusCalibrating (length samples))
    else
      let c := mkCalibration
                 (JsNum.div (fold_left JsNum.add samples (Fin 0))
                            (ofZ (Z.of_nat (length samples)))) now' in
      mkSampler true false (Some c) now (Some samples)
                (effects s ++ [SendMessage (StorageSetCalibration c)]) StatusCalibrated.
Proof.
  intros Hidle Hc Hacc Hy.
  rewrite (performSample_accepted now now' response f s a Hidle Hy), Hc.
  unfold Offscreen.performCalibration, performCalibration_with.
  cbn [calibrationSamples calibrationData initialized isProcessing lastSampleTime effects].
  destruct Hacc as [-> | [-> ->]]; reflexivity.
Qed.

Ltac calibrating_step Y acc :=
  erewrite (performSample_calibrating _ _ _ _ _ _ acc);
  [ reflexivity
  | split; reflexivity
  | reflexivity
  | left; reflexivity
  | exact Y ].

Lemma mean_of_five (a1 a2 a3 a4 a5 : Q) :
  ((0 + a1 + a2 + a3 + a4 + a5) / inject_Z 5 == (a1 + a2 + a3 + a4 + a5) / 5)%Q.
Proof. change (inject_Z 5) with 5%Q. rewrite Qplus_0_l. reflexivity. Qed.

(** C8. A sampler that is ready, has no calibration and has accumulated
    nothing takes five samples, each past the two-second floor and each
    yielding a positive face size a1 .. a5. After the fifth the calibration
    holds a baseline equal to (a1+a2+a3+a4+a5)/5 and the clock reading taken
    at that moment as timestamp, and the sampler has sent this calibration,
    once, to the background, whose handler writes it to the store. No later
    sample, accepted or not, changes the calibration. *)
Theorem five_samples_set_baseline_to_mean
    (s0 : Sampler) (response : option Settings)
    (t1 t2 t3 t4 t5 : Z) (c1 c2 c3 c4 c5 : Z)
    (f1 f2 f3 f4 f5 : Frame) (a1 a2 a3 a4 a5 : Q) :
  let s1 := Offscreen.performSample t1 c1 response f1 s0 in
  let s2 := Offscreen.performSample t2 c2 response f2 s1 in
  let s3 := Offscreen.performSample t3 c3 response f3 s2 in
  let s4 := Offscreen.performSample t4 c4 response f4 s3 in
  let s5 := Offscreen.performSample t5 c5 response f5 s4 in
  idle_sampler s0 ->
  calibrationData s0 = None ->
  accumulator_empty s0 ->
  SAMPLE_INTERVAL <= t1 - lastSampleTime s0 ->
  SAMPLE_INTERVAL <= t2 - t1 ->
  SAMPLE_INTERVAL <= t3 - t2 ->
  SAMPLE_INTERVAL <= t4 - t3 ->
  SAMPLE_INTERVAL <= t5 - t4 ->
  gives f1 a1 -> gives f2 a2 -> gives f3 a3 -> gives f4 a4 -> gives f5 a5 ->
  calibrationData s4 = None /\
  exists b : Q,
    (b == (a1 + a2 + a3 + a4 + a5) / 5)%Q /\
    calibrationData s5 = Some (mkCalibration (Fin b) c5) /\
    effects s5 = effects s0 ++ [SendMessage (StorageSetCalibration (mkCalibration (Fin b) c5))] /\
    (forall now w,
        stored_calibrationData
          (Background.storage (after now (StorageSetCalibration (mkCalibration (Fin b) c5)) w))
        = Some (mkCalibration (Fin b) c5)) /\
    (forall t6 c6 response6 f6,
        calibrationData (Offscreen.performSample t6 c6 response6 f6 s5)
        = Some (mkCalibration (Fin b) c5)).
Proof.
  intros s1 s2 s3 s4 s5 Hidle Hc Hacc T1 T2 T3 T4 T5 G1 G2 G3 G4 G5.
  pose proof (conj T1 G1 : yields s0 t1 f1 a1) as Y1.
  assert (Hacc0 : calibrationSamples s0 = Some [] \/ (calibrationSamples s0 = None /\ @nil num = []))
    by (destruct Hacc; [right|left]; auto).
  assert (E1 : s1 = mkSampler true false None t1 (Some [Fin a1]) (effects s0)
                              (StatusCalibrating 1)).
  { subst s1. now rewrite (performSample_calibrating t1 c1 response f1 s0 a1 [] Hidle Hc Hacc0 Y1). }
  clearbody s1. subst s1.
  assert (E2 : s2 = mkSampler true false None t2 (Some [Fin a1; Fin a2]) (effects s0)
                              (StatusCalibrating 2)).
  { subst s2. calibrating_step (conj T2 G2) [Fin a1]. }
  clearbody s2. subst s2.
  assert (E3 : s3 = mkSampler true false None t3 (Some [Fin a1; Fin a2; Fin a3]) (effects s0)
                              (StatusCalibrating 3)).
  { subst s3. calibrating_step (conj T3 G3) [Fin a1; Fin a2]. }
  clearbody s3. subst s3.
  assert (E4 : s4 = mkSampler true false None t4 (Some [Fin a1; Fin a2; Fin a3; Fin a4])
                              (effects s0) (StatusCalibrating 4)).
  { subst s4. calibrating_step (conj T4 G4) [Fin a1; Fin a2; Fin a3]. }
  clearbody s4. subst s4.
  split; [reflexivity|].
  exists ((0 + a1 + a2 + a3 + a4 + a5) / inject_Z 5)%Q.
  assert (E5 : s5 =
    let c := mkCalibration (Fin ((0 + a1 + a2 + a3 + a4 + a5) / inject_Z 5)) c5 in
    mkSampler true false (Some c) t5 (Some [Fin a1; Fin a2; Fin a3; Fin a4; Fin a5])
              (effects s0 ++ [SendMessage (StorageSetCalibration c)]) StatusCalibrated).
  { subst s5. calibrating_step (conj T5 G5) [Fin a1; Fin a2; Fin a3; Fin a4]. }
  clearbody s5. subst s5. cbv zeta.
  split; [apply mean_of_five|].
  split; [reflexivity|]. split; [reflexivity|]. split; [reflexivity|].
  intros t6 c6 response6 f6. now apply performSample_keeps_calibration.
Qed.

Ltac prove_gives :=
  split;
  [ split; [vm_compute; discriminate | split; discriminate]
  | split; reflexivity ].

(** Five samples 1, 1/2, 1, 1/2, 1 taken two seconds apart by a sampler
    that has just been initialised without stored calibration: the baseline
    is 4/5, and a sixth sample leaves it. *)
Lemma five_samples_witness :
  let both := frame_of skin_pixel skin_pixel in
  let one := frame_of skin_pixel dark_pixel in
  let s0 := Offscreen.initialize 0 None in
  let s1 := Offscreen.performSample 2000 2001 None both s0 in
  let s2 := Offscreen.performSample 4000 4001 None one s1 in
  let s3 := Offscreen.performSample 6000 6001 None both s2 in
  let s4 := Offscreen.performSample 8000 8001 None one s3 in
  let s5 := Offscreen.performSample 10000 10001 None both s4 in
  exists b : Q,
    (b == 4 # 5)%Q /\
    calibrationData s5 = Some (mkCalibration (Fin b) 10001) /\
    calibrationData (Offscreen.performSample 12000 12001 None one s5)
      = Some (mkCalibration (Fin b) 10001).
Proof.
  intros both one s0 s1 s2 s3 s4 s5.
  destruct (five_samples_set_baseline_to_mean s0 None
              2000 4000 6000 8000 10000 2001 4001 6001 8001 10001
              both one both one both
              (inject_Z 2 / inject_Z 2) (inject_Z 1 / inject_Z 2) (inject_Z 2 / inject_Z 2)
              (inject_Z 1 / inject_Z 2) (inject_Z 2 / inject_Z 2))
    as (_ & b & Hb & Hc & _ & _ & H6).
  - split; reflexivity.
  - reflexivity.
  - left. reflexivity.
  - vm_compute. discriminate.
  - vm_compute. discriminate.
  - vm_compute. discriminate.
  - vm_compute. discriminate.
  - vm_compute. discriminate.
  - prove_gives.
  - prove_gives.
  - prove_gives.
  - prove_gives.
  - prove_gives.
  - exists b. split; [|split].
    + rewrite Hb. reflexivity.
    + exact Hc.
    + apply H6.
Defined.

(** ** The proximity check *)

Lemma eqv_not_lt (a b : num) : JsNum.eqv a b -> ~ JsNum.lt b a.
Proof.
  intros He Hl. destruct Hl; simpl in He; try contradiction.
  rewrite He in H. now apply Qlt_irrefl in H.
Qed.

(** offscreen.js: an accepted sample of a calibrated sampler sends one
    warning when the ratio exceeds the threshold and nothing otherwise; in
    both cases the sampler stays ready and keeps its calibration, so the
    next sample is judged the same way. *)
Lemma offscreen_warns_iff_ratio_exceeds
    (now now' : Z) (response : option Settings) (f : Frame) (s : Sampler) (a : Q)
    (c : Calibration) :
  idle_sampler s ->
  yields s now f a ->
  calibrationData s = Some c ->
  let s' := Offscreen.performSample now now' response f s in
  let ratio := proximity_ratio (Fin a) c in
  let threshold := proximity_threshold (Offscreen.getSensitivity response) in
  (JsNum.lt threshold ratio -> effects s' = effects s ++ [SendMessage ProximityWarning]) /\
  (~ JsNum.lt threshold ratio -> effects s' = effects s) /\
  (JsNum.eqv ratio threshold -> effects s' = effects s) /\
  idle_sampler s' /\ calibrationData s' = Some c /\ lastSampleTime s' = now.
Proof.
  intros Hidle Hy Hc s' ratio threshold. subst s'.
  rewrite (performSample_accepted now now' response f s a Hidle Hy), Hc. cbv zeta.
  unfold Offscreen.checkProximity. cbn [calibrationData].
  change (JsNum.gtb _ _) with (JsNum.ltb threshold ratio).
  assert (Hno : ~ JsNum.lt threshold ratio ->
                effects (if JsNum.ltb threshold ratio
                         then sendProximityWarning
                                (mkSampler true false (Some c) now (calibrationSamples s)
                                           (effects s) (StatusFaceDetected (Fin a)))
                         else mkSampler true false (Some c) now (calibrationSamples s)
                                        (effects s) (StatusFaceDetected (Fin a)))
                = effects s).
  { intros H. apply ltb_not_lt in H. now rewrite H. }
  split; [|split; [exact Hno|split]].
  - intros H. apply ltb_lt in H. now rewrite H.
  - intros H. apply Hno. now apply eqv_not_lt.
  - destruct (JsNum.ltb threshold ratio); repeat split.
Qed.

(** offscreen.js: a posture that stays too close is warned about at every
    accepted sample. *)
Lemma offscreen_rewarns
    (t1 t2 c1 c2 : Z) (response : option Settings) (f1 f2 : Frame) (s : Sampler)
    (a1 a2 : Q) (c : Calibration) :
  idle_sampler s ->
  calibrationData s = Some c ->
  SAMPLE_INTERVAL <= t1 - lastSampleTime s ->
  SAMPLE_INTERVAL <= t2 - t1 ->
  gives f1 a1 -> gives f2 a2 ->
  let threshold := proximity_threshold (Offscreen.getSensitivity response) in
  JsNum.lt threshold (proximity_ratio (Fin a1) c) ->
  JsNum.lt threshold (proximity_ratio (Fin a2) c) ->
  effects (Offscreen.performSample t2 c2 response f2
             (Offscreen.performSample t1 c1 response f1 s))
  = effects s ++ [SendMessage ProximityWarning; SendMessage ProximityWarning].
Proof.
  intros Hidle Hc T1 T2 G1 G2 threshold L1 L2.
  destruct (offscreen_warns_iff_ratio_exceeds t1 c1 response f1 s a1 c Hidle (conj T1 G1) Hc)
    as (W1 & _ & _ & Hidle1 & Hc1 & Ht1).
  assert (Y2 : yields (Offscreen.performSample t1 c1 response f1 s) t2 f2 a2).
  { split; [now rewrite Ht1|exact G2]. }
  destruct (offscreen_warns_iff_ratio_exceeds t2 c2 response f2 _ a2 c Hidle1 Y2 Hc1)
    as (W2 & _).
  rewrite (W2 L2), (W1 L1), <- app_assoc. reflexivity.
Qed.

(** The older sampler: the threshold is computed from a promise, so it is
    NaN and no face size exceeds it. *)
Lemma older_checkProximity_false (stored : option Settings) (faceSize : num) (s : Sampler) :
  OffscreenDirect.checkProximity stored faceSize s = false.
Proof.
  unfold OffscreenDirect.checkProximity. destruct (calibrationData s); [|reflexivity].
  reflexivity.
Qed.

(** C9, evaluated. A sampler calibrated to 1/2 gets a frame with face size
    1 under the default sensitivity 1.5: the ratio 2 exceeds the threshold
    1.05. The sampler of offscreen.js sends the warning; the older sampler,
    given the same state, frame and settings, sends nothing, and its check
    answers false for every input. *)
Theorem older_sampler_never_warns :
  let f := frame_of skin_pixel skin_pixel in
  let c := mkCalibration (Fin 0.5) 1000 in
  JsNum.eqv (Offscreen.estimateFaceSize (data f)) (Fin 1) /\
  JsNum.eqv (OffscreenDirect.estimateFaceSize (data f)) (Fin 1) /\
  JsNum.lt (proximity_threshold (Fin 1.5)) (proximity_ratio (Fin 1) c) /\
  effects (Offscreen.performSample 5000 5001 (Some DEFAULT_SETTINGS) f calibrated_sampler)
    = [SendMessage ProximityWarning] /\
  effects (OffscreenDirect.performSample 5000 5001 (Some DEFAULT_SETTINGS) f calibrated_sampler)
    = [] /\
  (forall stored faceSize s, OffscreenDirect.checkProximity stored faceSize s = false) /\
  (forall now now' stored frame s,
      effects (OffscreenDirect.performSample now now' stored frame s) = effects s \/
      calibrationData s = None).
Proof.
  intros f c.
  split; [vm_compute; reflexivity|]. split; [vm_compute; reflexivity|].
  split; [apply ltb_lt; reflexivity|].
  split; [reflexivity|]. split; [reflexivity|].
  split; [apply older_checkProximity_false|].
  intros now now' stored frame s. unfold OffscreenDirect.performSample.
  destruct (negb (initialized s) || isProcessing s); [now left|].
  destruct (now - lastSampleTime s <? SAMPLE_INTERVAL); [now left|].
  destruct (JsNum.gtb _ _); [|now left].
  cbn [calibrationData set_status].
  destruct (calibrationData s) eqn:Hc; [|now right].
  rewrite older_checkProximity_false. now left.
Qed.

(** ** Settings updates and the proximity subsystem *)

Lemma remaining_max (interval : Q) (elapsed : Z) :
  (0 <= remaining interval elapsed)%Q /\
  (interval - inject_Z elapsed <= remaining interval elapsed)%Q /\
  (remaining interval elapsed == 0 \/
   remaining interval elapsed == interval - inject_Z elapsed)%Q.
Proof.
  unfold remaining, Qminus.
  destruct (JsNum.Qltb (interval + - inject_Z elapsed) 0) eqn:H.
  - apply Qltb_lt in H. split; [apply Qle_refl|]. split; [now apply Qlt_le_weak|].
    left. reflexivity.
  - apply Qltb_ge in H. split; [exact H|]. split; [apply Qle_refl|].
    right. reflexivity.
Qed.

Lemma ensureBreakTickAlarm_frame (w : Background.World) :
  Background.ensureBreakTickAlarm w =
    Background.set_alarms (Background.alarms (Background.ensureBreakTickAlarm w)) w.
Proof.
  unfold Background.ensureBreakTickAlarm.
  destruct (_ || _); [now destruct w|reflexivity].
Qed.

Lemma ensureProximitySampling_off (w : Background.World) :
  truthy_flag (proximityEnabled (Background.get_settings w)) = false ->
  Background.ensureProximitySampling w = w.
Proof.
  intros H. unfold Background.ensureProximitySampling. rewrite H.
  cbn [negb]. now rewrite orb_true_r.
Qed.

(** With proximity off the update comes down to: store the payload, clear
    the alarms, schedule the break tick if breaks are on, and clear the
    proximity alarm. *)
Lemma update_proximity_off (now : Z) (payload : Settings) (w : Background.World) :
  truthy_flag (proximityEnabled payload) = false ->
  after now (SettingsUpdate payload) w =
    Background.set_alarms
      (delete Background.PROXIMITY_SAMPLE
         (Background.alarms
            (Background.ensureBreakTickAlarm
               (Background.set_alarms ∅ (Background.store_settings payload w)))))
      (Background.store_settings payload w).
Proof.
  intros Hoff. unfold after. cbn [Background.onMessage fst]. rewrite Hoff.
  rewrite ensureProximitySampling_off.
  - now rewrite ensureBreakTickAlarm_frame at 2.
  - rewrite ensureBreakTickAlarm_frame. exact Hoff.
Qed.

(** C10, as it is written: with the offscreen document open and the
    proximity alarm scheduled, an update that switches proximity off leaves
    the offscreen document open. *)
Lemma disabling_proximity_leaves_document_open :
  Background.offscreenOpen running = true /\
  is_Some (Background.alarms running !! Background.PROXIMITY_SAMPLE) /\
  truthy_flag (proximityEnabled proximity_off_settings) = false /\
  Background.offscreenOpen (after 1000 (SettingsUpdate proximity_off_settings) running) = true.
Proof.
  split; [reflexivity|]. split; [|split; reflexivity].
  vm_compute. eexists. reflexivity.
Qed.

(** C10, amended. A settings update whose payload has proximity off leaves
    no proximity alarm scheduled and does not touch the offscreen document:
    the document, and the camera it holds, stay as they were. Nothing is
    sent to the sampler or to the tabs, a proximity alarm that still fires
    is skipped, and the coordinator's counters are unchanged. A status query
    after the update answers with the unchanged [activeMinutes] and
    [isBreakInProgress], the payload as [settings], and
    [Math.max(payload.breakIntervalMinutes - activeMinutes, 0)] as
    [minutesRemaining], which for a payload with a finite interval is the
    non-negative number [max(interval - activeMinutes, 0)]. *)
Theorem disabling_proximity_cancels_schedule
    (now : Z) (payload : Settings) (w : Background.World) :
  truthy_flag (proximityEnabled payload) = false ->
  let w' := after now (SettingsUpdate payload) w in
  Background.alarms w' !! Background.PROXIMITY_SAMPLE = None /\
  Background.offscreenOpen w' = Background.offscreenOpen w /\
  Background.runtimeMessages w' = Background.runtimeMessages w /\
  Background.tabMessages w' = Background.tabMessages w /\
  Background.handleProximitySample w' = w' /\
  Background.activeMinutes w' = Background.activeMinutes w /\
  Background.isBreakInProgress w' = Background.isBreakInProgress w /\
  (forall now2,
      Background.onMessage now2 RequestStatus w' =
        (w', StatusResponse
               (Background.activeMinutes w)
               (JsNum.max (JsNum.sub (toNumber (breakIntervalMinutes payload))
                                     (ofZ (Background.activeMinutes w))) (Fin 0))
               (Background.isBreakInProgress w)
               payload)) /\
  (forall q, breakIntervalMinutes payload = Some (Fin q) ->
      JsNum.max (JsNum.sub (toNumber (breakIntervalMinutes payload))
                           (ofZ (Background.activeMinutes w))) (Fin 0)
      = Fin (remaining q (Background.activeMinutes w))).
Proof.
  intros Hoff w'.
  assert (E : w' = Background.set_alarms (Background.alarms w')
                     (Background.store_settings payload w)).
  { subst w'. now rewrite update_proximity_off. }
  assert (Ha : Background.alarms w' !! Background.PROXIMITY_SAMPLE = None).
  { subst w'. rewrite update_proximity_off by exact Hoff. apply lookup_delete_eq. }
  clearbody w'.
  assert (Hg : Background.get_settings w' = payload) by (rewrite E; reflexivity).
  split; [exact Ha|].
  split; [rewrite E; reflexivity|]. split; [rewrite E; reflexivity|].
  split; [rewrite E; reflexivity|]. split.
  { unfold Background.handleProximitySample. rewrite Hg, Hoff.
    cbn [negb]. now rewrite orb_true_r. }
  split; [rewrite E; reflexivity|]. split; [rewrite E; reflexivity|]. split.
  - intros now2. cbn [Background.onMessage]. rewrite Hg.
    rewrite E at 2 3 4. reflexivity.
  - intros q Hq. rewrite Hq. cbn. unfold remaining. now destruct (JsNum.Qltb _ _).
Qed.

(** From the running extension with 7 minutes elapsed. *)
Lemma disabling_proximity_witness :
  let w := Background.set_activeMinutes 7 running in
  let w' := after 1000 (SettingsUpdate proximity_off_settings) w in
  Background.alarms w' !! Background.PROXIMITY_SAMPLE = None /\
  Background.offscreenOpen w' = true /\
  snd (Background.onMessage 2000 RequestStatus w')
    = StatusResponse 7 (Fin (remaining 20 7)) false proximity_off_settings /\
  (remaining 20 7 == 13)%Q.
Proof.
  cbv zeta.
  destruct (disabling_proximity_cancels_schedule 1000 proximity_off_settings
              (Background.set_activeMinutes 7 running) eq_refl)
    as (Ha & Ho & _ & _ & _ & _ & _ & Hs & Hr).
  split; [exact Ha|]. split; [rewrite Ho; reflexivity|]. split.
  - rewrite (Hs 2000). cbn [snd]. rewrite (Hr 20%Q eq_refl). reflexivity.
  - reflexivity.
Defined.

(** ** Calibration lifetime and the status query *)

(** A stored calibration that is 24 hours old or older is not loaded. *)
Lemma loadCalibrationData_expired (now : Z) (saved : Calibration) (s : Sampler) :
  CALIBRATION_VALIDITY_MS <= now - timestamp saved ->
  Offscreen.loadCalibrationData now (Some saved) s = s.
Proof.
  intros H. unfold Offscreen.loadCalibrationData.
  destruct (negb (timestamp saved =? 0)); [|reflexivity].
  apply Z.ltb_ge in H. now rewrite H.
Qed.

(** A reset leaves the sampler without calibration and with an empty
    accumulator, and asks the background to remove the stored one. *)
Lemma resetCalibration_clears (s : Sampler) :
  calibrationData (Offscreen.resetCalibration s) = None /\
  accumulator_empty (Offscreen.resetCalibration s) /\
  effects (Offscreen.resetCalibration s)
    = effects s ++ [SendMessage StorageRemoveCalibration].
Proof. split; [reflexivity|]. split; [now right|reflexivity]. Qed.

(** The status query under settings with a finite interval. *)
Lemma status_minutesRemaining (now : Z) (w : Background.World) (q : Q) :
  interval_is w q ->
  snd (Background.onMessage now RequestStatus w) =
    StatusResponse (Background.activeMinutes w)
                   (Fin (remaining q (Background.activeMinutes w)))
                   (Background.isBreakInProgress w) (Background.get_settings w).
Proof.
  intros Hq. unfold interval_is in Hq. cbn [Background.onMessage snd]. rewrite Hq.
  cbn. unfold remaining. now destruct (JsNum.Qltb _ _).
Qed.

(** Completing a break clears the flag and the count, in memory and in the
    store. *)
Lemma break_completed_resets (now : Z) (w : Background.World) :
  let w' := after now BreakCompleted w in
  Background.isBreakInProgress w' = false /\
  Background.activeMinutes w' = 0 /\
  stored_activeMinutes (Background.storage w') = Some 0.
Proof. repeat split. Qed.

(** * Further properties *)

(** ** The validator as a filter *)

Lemma outside_range_b_spec (s : Settings) (f : NumericField) :
  outside_range_b s f = true <-> outside_range f s.
Proof.
  unfold outside_range_b, outside_range. split.
  - destruct (field_value f s) as [v|]; [|discriminate].
    intros H. exists v. split; [reflexivity|].
    apply orb_true_iff in H. destruct H as [H|H]; [left|right]; now apply ltb_lt.
  - intros (v & -> & H). apply orb_true_iff.
    destruct H as [H|H]; [left|right]; now apply ltb_lt.
Qed.

Lemma validate_as_pushes (s : Settings) :
  Options.validateSettings s =
    Options.push_if (outside_range_b s FSnoozeMinutes) Options.msg_snoozeMinutes
      (Options.push_if (outside_range_b s FBreakDurationSeconds) Options.msg_breakDurationSeconds
         (Options.push_if (outside_range_b s FBreakIntervalMinutes) Options.msg_breakIntervalMinutes
            (Options.push_if (outside_range_b s FProximityPeriodSeconds)
               Options.msg_proximityPeriodSeconds
               (Options.push_if (outside_range_b s FSensitivity) Options.msg_sensitivity [])))).
Proof.
  unfold Options.validateSettings, outside_range_b, Options.violates. cbn [field_value].
  destruct (sensitivity s), (proximityPeriodSeconds s), (breakIntervalMinutes s),
    (breakDurationSeconds s), (snoozeMinutes s); reflexivity.
Qed.

Lemma validate_filter_eq (s : Settings) :
  Options.validateSettings s = map violation (List.filter (outside_range_b s) all_fields).
Proof.
  rewrite validate_as_pushes. unfold all_fields. cbn [List.filter].
  destruct (outside_range_b s FSensitivity), (outside_range_b s FProximityPeriodSeconds),
    (outside_range_b s FBreakIntervalMinutes), (outside_range_b s FBreakDurationSeconds),
    (outside_range_b s FSnoozeMinutes); reflexivity.
Qed.

Lemma validate_In (s : Settings) (m : string) :
  In m (Options.validateSettings s) <-> exists f, m = violation f /\ outside_range f s.
Proof.
  rewrite validate_filter_eq, in_map_iff. split.
  - intros (f & <- & Hf). apply filter_In in Hf as [_ Hf].
    exists f. split; [reflexivity|]. now apply outside_range_b_spec.
  - intros (f & -> & Hf). exists f. split; [reflexivity|].
    apply filter_In. split; [destruct f; cbn; tauto|]. now apply outside_range_b_spec.
Qed.

(** The list [validateSettings] returns is the list of the violations of
    the numeric fields that hold a number below their lower or above their
    upper bound, each once, in the order sensitivity, sampling period, break
    interval, break duration, snooze time; so a message is in the list
    exactly when its field is out of range. *)
Theorem validateSettings_is_filter (s : Settings) :
  Options.validateSettings s = map violation (List.filter (outside_range_b s) all_fields) /\
  (forall m, In m (Options.validateSettings s) <->
             exists f, m = violation f /\ outside_range f s) /\
  List.NoDup (Options.validateSettings s).
Proof.
  split; [apply validate_filter_eq|]. split; [apply validate_In|].
  rewrite validate_filter_eq. apply Finite.Injective_map_NoDup.
  - intros f f' Hf. destruct f, f'; try discriminate Hf; reflexivity.
  - apply List.NoDup_filter. unfold all_fields.
    repeat (constructor; [cbn; intuition discriminate|]). constructor.
Qed.

(** ** Live feedback of the form *)

Lemma onInput_outside (f : NumericField) (s : Settings) (v : num) :
  field_value f s = Some v ->
  OptionsForm.onInput (field_name f) v = outside_range_b s f.
Proof.
  intros Hv. unfold outside_range_b. rewrite Hv. destruct f; reflexivity.
Qed.

(** While the user types, the input of a numeric field is marked with an
    error exactly when saving a form with that value would report the field;
    an element whose id is not one of the five field names is never
    marked. *)
Theorem onInput_agrees_with_validateSettings :
  (forall (f : NumericField) (s : Settings) (v : num),
      field_value f s = Some v ->
      (OptionsForm.onInput (field_name f) v = true <->
       In (violation f) (Options.validateSettings s))) /\
  (forall (fieldName : string) (v : num),
      OptionsForm.onInput fieldName v = true -> exists f, fieldName = field_name f).
Proof.
  split.
  - intros f s v Hv. rewrite (onInput_outside f s v Hv), outside_range_b_spec.
    rewrite validate_In. split.
    + intros H. now exists f.
    + intros (f' & Hm & H). destruct f, f'; try discriminate Hm; exact H.
  - intros fieldName v. unfold OptionsForm.onInput, OptionsForm.rule_of.
    destruct (String.eqb_spec fieldName "sensitivity"); [intros _; now exists FSensitivity|].
    destruct (String.eqb_spec fieldName "proximityPeriodSeconds");
      [intros _; now exists FProximityPeriodSeconds|].
    destruct (String.eqb_spec fieldName "breakIntervalMinutes");
      [intros _; now exists FBreakIntervalMinutes|].
    destruct (String.eqb_spec fieldName "breakDurationSeconds");
      [intros _; now exists FBreakDurationSeconds|].
    destruct (String.eqb_spec fieldName "snoozeMinutes");
      [intros _; now exists FSnoozeMinutes|].
    discriminate.
Qed.

Lemma onInput_witness :
  OptionsForm.onInput "sensitivity" (Fin 2.5) = true /\
  OptionsForm.onInput "breakIntervalMinutes" (Fin 20) = false.
Proof.
  destruct onInput_agrees_with_validateSettings as [H _].
  split.
  - apply (H FSensitivity (Options.readForm (form_with_sensitivity (Fin 2.5))) (Fin 2.5) eq_refl).
    cbn. now left.
  - destruct (OptionsForm.onInput "breakIntervalMinutes" (Fin 20)) eqn:E; [|reflexivity].
    apply (H FBreakIntervalMinutes DEFAULT_SETTINGS (Fin 20) eq_refl) in E.
    cbn in E. contradiction.
Defined.

(** ** What the handlers of the background leave alone *)

Lemma tick_shape (now : Z) (state : IdleState) (w : Background.World) :
  exists am sa tm,
    Background.handleBreakTick now state w =
      Background.mkWorld am (Background.isBreakInProgress w) (Background.snoozedUntilMs w)
        (mkStorage sa (stored_settings (Background.storage w))
                   (stored_calibrationData (Background.storage w)))
        (Background.alarms w) (Background.offscreenOpen w) (Background.tabs w) tm
        (Background.runtimeMessages w).
Proof.
  destruct w as [am ibp sn [sa ss sc] al off tabs tm rm].
  unfold Background.handleBreakTick.
  repeat match goal with
         | |- context [if ?c then _ else _] => destruct c
         end; cbn; eauto.
Qed.

Lemma proximity_sample_shape (w : Background.World) :
  exists off rm,
    Background.handleProximitySample w =
      Background.mkWorld (Background.activeMinutes w) (Background.isBreakInProgress w)
        (Background.snoozedUntilMs w) (Background.storage w) (Background.alarms w) off
        (Background.tabs w) (Background.tabMessages w) rm.
Proof.
  destruct w as [am ibp sn st al off tabs tm rm].
  unfold Background.handleProximitySample, Background.ensureOffscreenDocument.
  repeat match goal with
         | |- context [if ?c then _ else _] => destruct c
         end; cbn; eauto.
Qed.

(** The break tick and the proximity alarm do not touch each other's state.
    A break tick changes at most the count of active minutes, its stored
    copy and the messages sent to tabs: settings, calibration, alarms, the
    offscreen document, the snooze deadline and the messages to other
    contexts stay as they are. A proximity alarm changes at most the
    offscreen document and the messages to other contexts: the count, the
    whole store, the snooze deadline, the alarms and the messages to tabs
    stay as they are. *)
Theorem break_and_proximity_are_independent
    (now : Z) (state : IdleState) (w : Background.World) :
  (let w' := Background.handleBreakTick now state w in
   stored_settings (Background.storage w') = stored_settings (Background.storage w) /\
   stored_calibrationData (Background.storage w')
     = stored_calibrationData (Background.storage w) /\
   Background.alarms w' = Background.alarms w /\
   Background.offscreenOpen w' = Background.offscreenOpen w /\
   Background.snoozedUntilMs w' = Background.snoozedUntilMs w /\
   Background.isBreakInProgress w' = Background.isBreakInProgress w /\
   Background.runtimeMessages w' = Background.runtimeMessages w) /\
  (let w' := Background.handleProximitySample w in
   Background.activeMinutes w' = Background.activeMinutes w /\
   Background.storage w' = Background.storage w /\
   Background.snoozedUntilMs w' = Background.snoozedUntilMs w /\
   Background.isBreakInProgress w' = Background.isBreakInProgress w /\
   Background.alarms w' = Background.alarms w /\
   Background.tabMessages w' = Background.tabMessages w).
Proof.
  split.
  - destruct (tick_shape now state w) as (am & sa & tm & ->). cbn. repeat split.
  - destruct (proximity_sample_shape w) as (off & rm & ->). cbn. repeat split.
Qed.

(** ** The count and its stored copy *)

Lemma tick_coherent (now : Z) (state : IdleState) (w : Background.World) :
  coherent w -> coherent (Background.handleBreakTick now state w).
Proof.
  destruct w as [am ibp sn [sa ss sc] al off tabs tm rm].
  unfold coherent. cbn. intros (Hs & Ham & Hb).
  unfold Background.handleBreakTick.
  repeat match goal with
         | |- context [if ?c then _ else _] => destruct c
         end; cbn; repeat split; try assumption; try lia.
Qed.

Lemma update_frame (now : Z) (payload : Settings) (w : Background.World) :
  let w' := after now (SettingsUpdate payload) w in
  Background.activeMinutes w' = Background.activeMinutes w /\
  stored_activeMinutes (Background.storage w') = stored_activeMinutes (Background.storage w) /\
  Background.isBreakInProgress w' = Background.isBreakInProgress w /\
  Background.snoozedUntilMs w' = Background.snoozedUntilMs w /\
  Background.tabMessages w' = Background.tabMessages w /\
  Background.runtimeMessages w' = Background.runtimeMessages w.
Proof.
  unfold after. cbn [Background.onMessage fst].
  unfold Background.ensureProximitySampling, Background.ensureBreakTickAlarm,
    Background.ensureOffscreenDocument.
  repeat match goal with
         | |- context [if ?c then _ else _] => destruct c; cbn
         end; repeat split.
Qed.

Lemma handle_coherent (e : Event) (w : Background.World) :
  coherent w -> coherent (handle e w).
Proof.
  intros H. destruct e as [name now state | now m]; cbn [handle].
  - unfold Background.onAlarm.
    destruct (String.eqb name Background.BREAK_TICK); [now apply tick_coherent|].
    destruct (String.eqb name Background.PROXIMITY_SAMPLE); [|exact H].
    destruct (proximity_sample_shape w) as (off & rm & ->). exact H.
  - destruct m; try exact H.
    + repeat split. reflexivity.
    + destruct (update_frame now payload w) as (Ha & Hs & Hb & _).
      destruct H as (H1 & H2 & H3). unfold coherent. rewrite Ha, Hs, Hb. now repeat split.
    + unfold after. cbn [Background.onMessage fst].
      unfold Background.forceRecreateOffscreenDocument.
      destruct (Background.offscreenOpen w); exact H.
Qed.

(** Installation stores the count 0 that the script starts with; from then
    on, after any sequence of alarms and messages, with whatever names,
    payloads, clock readings and idle states, the count in memory equals the
    stored count, is not negative, and no break is marked as in progress:
    nothing in the background ever sets that flag. *)
Theorem count_stays_coherent :
  (forall (st : Storage) (open_tabs : list Z),
      coherent (Background.onInstalled (Background.initial st open_tabs))) /\
  (forall (events : list Event) (w : Background.World),
      coherent w -> coherent (run events w)).
Proof.
  split.
  - intros st open_tabs. unfold Background.onInstalled, Background.ensureBreakTickAlarm.
    unfold coherent. cbn. split; [reflexivity|]. split; [lia|reflexivity].
  - induction events as [|e events IH]; intros w H; [exact H|].
    apply IH. now apply handle_coherent.
Qed.

Lemma count_stays_coherent_witness :
  coherent (run [AlarmFired "eyeguard.break.tick" 60000 Active;
                 MessageReceived 61000 BreakSnooze;
                 AlarmFired "eyeguard.proximity.sample" 62000 Active;
                 MessageReceived 63000 (SettingsUpdate proximity_off_settings);
                 AlarmFired "eyeguard.break.tick" 400000 Idle]
                installed).
Proof.
  destruct count_stays_coherent as [Hi Hr].
  apply Hr. apply Hi.
Defined.

(** A restart of the service worker on the store left behind by a coherent
    world comes back with the same count; on a store without a count it
    starts from 0. *)
Theorem restart_recovers_count :
  (forall (w : Background.World) (open_tabs : list Z),
      coherent w ->
      let w' := Background.onStartup (Background.initial (Background.storage w) open_tabs) in
      Background.activeMinutes w' = Background.activeMinutes w /\ coherent w') /\
  (forall (st : Storage) (open_tabs : list Z),
      stored_activeMinutes st = None ->
      Background.activeMinutes (Background.onStartup (Background.initial st open_tabs)) = 0).
Proof.
  split.
  - intros w open_tabs (Hs & Ham & _). unfold coherent, Background.onStartup,
      Background.ensureBreakTickAlarm.
    cbn. rewrite Hs. destruct (_ || _); cbn; rewrite Hs; repeat split; assumption.
  - intros st open_tabs Hs. unfold Background.onStartup, Background.ensureBreakTickAlarm.
    cbn. rewrite Hs. now destruct (_ || _).
Qed.

Lemma restart_recovers_count_witness :
  let w := run [AlarmFired "eyeguard.break.tick" 60000 Active;
                AlarmFired "eyeguard.break.tick" 120000 Active] installed in
  Background.activeMinutes w = 2 /\
  Background.activeMinutes
    (Background.onStartup (Background.initial (Background.storage w) [7])) = 2.
Proof.
  intros w. split; [reflexivity|].
  destruct restart_recovers_count as [H _].
  destruct (H w [7]) as [Ha _].
  - split; [reflexivity|]. split; [vm_compute; discriminate|reflexivity].
  - rewrite Ha. reflexivity.
Defined.

(** ** Reminders come once per interval *)

Lemma broadcasts_tabs (n : nat) (m : Message) (w w' : Background.World) :
  Background.tabs w' = Background.tabs w -> broadcasts n m w' = broadcasts n m w.
Proof.
  intros H. induction n as [|n IH]; [reflexivity|].
  cbn [broadcasts]. unfold one_broadcast. now rewrite H, IH.
Qed.

Lemma geb_ofZ (a b : Z) : JsNum.geb (ofZ a) (ofZ b) = (b <=? a).
Proof.
  unfold JsNum.geb. cbn [JsNum.isNaN JsNum.ofZ negb andb]. fold (ofZ a) (ofZ b).
  rewrite ltb_ofZ. apply eq_true_iff_eq. rewrite negb_true_iff, Z.ltb_ge, Z.leb_le. tauto.
Qed.

(** With the break subsystem on, no break in progress and a whole number
    [N >= 1] of minutes as interval, a run of ticks that all find the user
    active outside the snooze window, started with a count below [N], ends
    with the count [(count + ticks) mod N] and has sent
    [(count + ticks) / N] broadcasts of the reminder, no more and no
    fewer. *)
Theorem active_ticks_remind_once_per_interval (N : Z) :
  1 <= N ->
  forall (ticks : list (Z * IdleState)) (w : Background.World),
    breaks_on w ->
    Background.isBreakInProgress w = false ->
    interval_is w (inject_Z N) ->
    0 <= Background.activeMinutes w < N ->
    Forall (fun t => snd t = Active /\ ~ snoozed (fst t) w) ticks ->
    let k := Background.activeMinutes w + Z.of_nat (length ticks) in
    Background.activeMinutes (run_ticks ticks w) = k mod N /\
    Background.tabMessages (run_ticks ticks w)
      = Background.tabMessages w ++ broadcasts (Z.to_nat (k / N)) BreakReminder w.
Proof.
  intros HN. induction ticks as [|[now state] ticks IH]; intros w Hon Hb Hq Ham Hall k.
  - subst k. cbn [length Z.of_nat run_ticks fold_left]. rewrite Z.add_0_r.
    rewrite Z.mod_small, Z.div_small by lia. cbn. now rewrite app_nil_r.
  - inversion Hall as [|t ts [Hact Hsn] Hrest]; subst. cbn [fst snd] in Hact, Hsn. subst state.
    unfold run_ticks in *. cbn [fold_left fst snd].
    set (w1 := Background.handleBreakTick now Active w).
    assert (Hshape := tick_shape now Active w). fold w1 in Hshape.
    destruct Hshape as (am1 & sa1 & tm1 & Hshape).
    assert (Hstep : (Background.activeMinutes w + 1 < N /\
                     am1 = Background.activeMinutes w + 1 /\
                     tm1 = Background.tabMessages w) \/
                    (Background.activeMinutes w + 1 = N /\ am1 = 0 /\
                     tm1 = Background.tabMessages w ++ one_broadcast BreakReminder w)).
    { assert (E := tick_passes_guards now w Hon Hsn Active). fold w1 in E.
      rewrite Hb in E. unfold interval_is in Hq. rewrite Hq in E.
      cbn [is_active negb andb JsNum.toNumber] in E.
      change (Fin (inject_Z N)) with (ofZ N) in E. rewrite geb_ofZ in E.
      destruct (N <=? Background.activeMinutes w + 1) eqn:HN1.
      - apply Z.leb_le in HN1. right. rewrite Hshape in E.
        destruct w; cbn in *. inversion E. repeat split; lia.
      - apply Z.leb_gt in HN1. left. rewrite Hshape in E.
        destruct w; cbn in *. inversion E. now repeat split. }
    assert (Hon1 : breaks_on w1) by (rewrite Hshape; exact Hon).
    assert (Hq1 : interval_is w1 (inject_Z N)) by (rewrite Hshape; exact Hq).
    assert (Hb1 : Background.isBreakInProgress w1 = false) by (rewrite Hshape; exact Hb).
    assert (Hall1 : Forall (fun t => snd t = Active /\ ~ snoozed (fst t) w1) ticks).
    { rewrite Hshape. exact Hrest. }
    assert (Ha1 : Background.activeMinutes w1 = am1) by (now rewrite Hshape).
    assert (Ht1 : Background.tabMessages w1 = tm1) by (now rewrite Hshape).
    assert (Hbr : forall n, broadcasts n BreakReminder w1 = broadcasts n BreakReminder w).
    { intros n. apply broadcasts_tabs. now rewrite Hshape. }
    subst k. cbn [length]. rewrite Nat2Z.inj_succ.
    destruct Hstep as [(Hlt & Eam & Etm) | (Heq & Eam & Etm)].
    + destruct (IH w1 Hon1 Hb1 Hq1 ltac:(lia) Hall1) as [IHa IHt].
      rewrite IHa, IHt, Ha1, Ht1, Hbr, Eam, Etm.
      replace (Background.activeMinutes w + 1 + Z.of_nat (length ticks))
        with (Background.activeMinutes w + Z.succ (Z.of_nat (length ticks))) by lia.
      now split.
    + destruct (IH w1 Hon1 Hb1 Hq1 ltac:(lia) Hall1) as [IHa IHt].
      rewrite IHa, IHt, Ha1, Ht1, Hbr, Eam, Etm.
      replace (Background.activeMinutes w + Z.succ (Z.of_nat (length ticks)))
        with (Z.of_nat (length ticks) + 1 * N) by lia.
      rewrite Z.mod_add, Z.div_add by lia. rewrite Z.add_0_l. split; [reflexivity|].
      rewrite <- app_assoc. f_equal.
      replace (Z.to_nat (Z.of_nat (length ticks) / N + 1))
        with (S (Z.to_nat (Z.of_nat (length ticks) / N))).
      * reflexivity.
      * assert (0 <= Z.of_nat (length ticks) / N) by (apply Z.div_pos; lia). lia.
Qed.

(** Forty-five active ticks from 0 with the default interval of 20: two
    broadcasts to the two tabs, and 5 minutes on the count. *)
Lemma active_ticks_witness :
  let ticks := map (fun i => (60000 * Z.of_nat i, Active)) (seq 1 45) in
  Background.activeMinutes (run_ticks ticks (world_at 0)) = 5 /\
  Background.tabMessages (run_ticks ticks (world_at 0))
    = [(1, BreakReminder); (2, BreakReminder); (1, BreakReminder); (2, BreakReminder)].
Proof.
  intros ticks.
  destruct (active_ticks_remind_once_per_interval 20 ltac:(lia) ticks (world_at 0))
    as [Ha Ht].
  - split; reflexivity.
  - reflexivity.
  - reflexivity.
  - cbn. lia.
  - subst ticks. apply Forall_forall. intros [now state] Hin.
    apply list_elem_of_In, in_map_iff in Hin as (i & Hi & _). inversion Hi; subst.
    split; [reflexivity|]. cbn [fst]. apply world_at_not_snoozed. lia.
  - split; [rewrite Ha; reflexivity | rewrite Ht; reflexivity].
Defined.

(** ** Alarms after a settings update *)

Lemma update_world (now : Z) (payload : Settings) (w : Background.World) :
  after now (SettingsUpdate payload) w =
    Background.mkWorld (Background.activeMinutes w) (Background.isBreakInProgress w)
      (Background.snoozedUntilMs w)
      (mkStorage (stored_activeMinutes (Background.storage w)) (Some payload)
                 (stored_calibrationData (Background.storage w)))
      (scheduled payload)
      (truthy_flag (proximityEnabled payload) || Background.offscreenOpen w)
      (Background.tabs w) (Background.tabMessages w) (Background.runtimeMessages w).
Proof.
  destruct w as [am ibp sn [sa ss sc] al off tabs tm rm].
  destruct payload as [en au th pe se pp be bi bd sm].
  unfold after, scheduled. cbn [Background.onMessage fst].
  unfold Background.ensureProximitySampling, Background.ensureBreakTickAlarm,
    Background.ensureOffscreenDocument, Background.get_settings.
  cbn [Background.store_settings Background.set_storage Background.set_alarms
       Background.set_offscreenOpen Background.storage Background.alarms
       Background.offscreenOpen stored_settings stored_activeMinutes stored_calibrationData
       Background.activeMinutes Background.isBreakInProgress Background.snoozedUntilMs
       Background.tabs Background.tabMessages Background.runtimeMessages
       enabled breaksEnabled proximityEnabled proximityPeriodSeconds].
  destruct en as [[|]|], be as [[|]|], pe as [[|]|], off;
    cbn [truthy_flag negb orb andb Background.alarms Background.set_alarms
         Background.set_offscreenOpen Background.offscreenOpen Background.storage
         stored_settings proximityPeriodSeconds proximityEnabled];
    f_equal;
    rewrite ?insert_insert_eq; try reflexivity;
    now rewrite delete_id.
Qed.

Lemma scheduled_lookup (s : Settings) :
  scheduled s !! Background.BREAK_TICK
    = (if truthy_flag (enabled s) && truthy_flag (breaksEnabled s)
       then Some (mkAlarm (Fin 1) (Fin 1)) else None) /\
  scheduled s !! Background.PROXIMITY_SAMPLE
    = (if truthy_flag (enabled s) && truthy_flag (proximityEnabled s)
       then Some (mkAlarm (Fin 0.5)
                          (JsNum.div (toNumber (proximityPeriodSeconds s)) (Fin 60)))
       else None) /\
  (forall name, name <> Background.BREAK_TICK -> name <> Background.PROXIMITY_SAMPLE ->
                scheduled s !! name = None).
Proof.
  unfold scheduled.
  destruct (truthy_flag (enabled s) && truthy_flag (breaksEnabled s)),
    (truthy_flag (enabled s) && truthy_flag (proximityEnabled s)); repeat split;
    try reflexivity;
    intros name H1 H2; rewrite ?lookup_insert_ne by congruence; apply lookup_empty.
Qed.

(** After a settings update, whatever alarms there were before, the alarms
    are exactly the ones the payload asks for: the break tick (delay and
    period one minute) if and only if its master and break switches are on,
    the proximity sample (delay half a minute, period
    [proximityPeriodSeconds / 60] minutes) if and only if its master and
    proximity switches are on, and no alarm under any other name. The
    payload is the stored record. The offscreen document is open afterwards
    if the payload has proximity on, also with the master switch off, and is
    otherwise as it was. *)
Theorem update_reschedules_from_payload
    (now : Z) (payload : Settings) (w : Background.World) :
  let w' := after now (SettingsUpdate payload) w in
  Background.alarms w' !! Background.BREAK_TICK
    = (if truthy_flag (enabled payload) && truthy_flag (breaksEnabled payload)
       then Some (mkAlarm (Fin 1) (Fin 1)) else None) /\
  Background.alarms w' !! Background.PROXIMITY_SAMPLE
    = (if truthy_flag (enabled payload) && truthy_flag (proximityEnabled payload)
       then Some (mkAlarm (Fin 0.5)
                          (JsNum.div (toNumber (proximityPeriodSeconds payload)) (Fin 60)))
       else None) /\
  (forall name, name <> Background.BREAK_TICK -> name <> Background.PROXIMITY_SAMPLE ->
                Background.alarms w' !! name = None) /\
  stored_settings (Background.storage w') = Some payload /\
  Background.offscreenOpen w'
    = (truthy_flag (proximityEnabled payload) || Background.offscreenOpen w).
Proof.
  intros w'. subst w'. rewrite update_world. cbn.
  destruct (scheduled_lookup payload) as (H1 & H2 & H3). repeat split; assumption.
Qed.

(** ** Saving and resetting on the options page *)

Lemma validate_nil_iff (s : Settings) :
  Options.validateSettings s = [] <-> forall f, ~ outside_range f s.
Proof.
  split.
  - intros H f. now apply validate_nil_not_outside.
  - intros H. rewrite validate_as_pushes.
    assert (Hb : forall f, outside_range_b s f = false).
    { intros f. destruct (outside_range_b s f) eqn:E; [|reflexivity].
      apply outside_range_b_spec in E. now apply H in E. }
    now rewrite !Hb.
Qed.

(** A save of a form none of whose numeric fields is out of range reports
    success and, with the background reachable, leaves exactly the world the
    background's own handling of the update gives: the record of the form is
    stored and the alarms are the ones it asks for. With the background out
    of reach only the stored record changes; the alarms stay as they were. *)
Theorem save_of_valid_form_applies
    (form : Options.Form) (now : Z) (w : Background.World) :
  (forall f, ~ outside_range f (Options.readForm form)) ->
  Options.saveSettings form true now w
    = (after now (SettingsUpdate (Options.readForm form)) w,
       Options.mkNotification "Settings saved successfully!" Options.success) /\
  Background.alarms (fst (Options.saveSettings form true now w))
    = scheduled (Options.readForm form) /\
  Options.saveSettings form false now w
    = (Background.store_settings (Options.readForm form) w,
       Options.mkNotification "Settings saved successfully!" Options.success) /\
  Background.alarms (fst (Options.saveSettings form false now w)) = Background.alarms w.
Proof.
  intros Hok. apply validate_nil_iff in Hok.
  unfold Options.saveSettings. rewrite Hok. cbn [length Z.of_nat Z.ltb Z.compare].
  unfold Options.sendToBackground. cbn [fst].
  fold (after now (SettingsUpdate (Options.readForm form))
          (Background.store_settings (Options.readForm form) w)).
  rewrite !update_world. cbn. repeat split.
Qed.

Lemma save_of_valid_form_witness :
  let form := form_with_sensitivity (Fin 1.8) in
  Background.alarms (fst (Options.saveSettings form true 1000 installed))
    = scheduled (Options.readForm form) /\
  Background.alarms (fst (Options.saveSettings form false 1000 installed))
    = Background.alarms installed.
Proof.
  intros form.
  assert (Hok : forall f, ~ outside_range f (Options.readForm form)).
  { intros f (v & Hv & H). destruct f; cbn in Hv; inversion Hv; subst v;
      destruct H as [H|H]; inversion H; subst;
      match goal with Hq : (_ < _)%Q |- _ => vm_compute in Hq; discriminate Hq end. }
  destruct (save_of_valid_form_applies form 1000 installed Hok) as (_ & H1 & _ & H2).
  split; assumption.
Defined.

(** A reset on the options page, with the background reachable, ends with
    the default record stored, the break tick and the proximity sample (every
    half minute) scheduled and nothing else, and the offscreen document open,
    whatever the settings and alarms were before; the count of active minutes
    and the snooze deadline are not reset. *)
Theorem reset_restores_default_schedule (now : Z) (w : Background.World) :
  let w' := fst (Options.resetSettings true now w) in
  stored_settings (Background.storage w') = Some DEFAULT_SETTINGS /\
  Background.alarms w' =
    <[Background.PROXIMITY_SAMPLE := mkAlarm (Fin 0.5) (JsNum.div (Fin 30) (Fin 60))]>
      (<[Background.BREAK_TICK := mkAlarm (Fin 1) (Fin 1)]> ∅) /\
  Background.offscreenOpen w' = true /\
  Background.activeMinutes w' = Background.activeMinutes w /\
  Background.snoozedUntilMs w' = Background.snoozedUntilMs w /\
  Options.validateSettings DEFAULT_SETTINGS = [].
Proof.
  intros w'. subst w'. unfold Options.resetSettings, Options.sendToBackground. cbn [fst].
  fold (after now (SettingsUpdate DEFAULT_SETTINGS)
          (Background.store_settings DEFAULT_SETTINGS w)).
  rewrite update_world. cbn. repeat split.
Qed.

(** ** The storage proxy *)

(** A calibration handed to the background is what the next request for it
    returns; after a removal the request returns nothing; saving and removing
    touch neither the settings nor the count nor the alarms, and the requests
    themselves change nothing. The settings request returns the stored
    record, or the defaults while none is stored. *)
Theorem storage_proxy_round_trip (t1 t2 : Z) (c : Calibration) (w : Background.World) :
  calibration_reply t2 (after t1 (StorageSetCalibration c) w) = Some c /\
  calibration_reply t2 (after t1 StorageRemoveCalibration w) = None /\
  calibration_reply t2 (after t1 StorageRemoveCalibration
                          (after t1 (StorageSetCalibration c) w)) = None /\
  after t1 StorageGetCalibration w = w /\
  after t1 StorageGetSettings w = w /\
  Background.set_storage (Background.storage w) (after t1 (StorageSetCalibration c) w)
    = w /\
  stored_settings (Background.storage (after t1 (StorageSetCalibration c) w))
    = stored_settings (Background.storage w) /\
  stored_activeMinutes (Background.storage (after t1 (StorageSetCalibration c) w))
    = stored_activeMinutes (Background.storage w) /\
  settings_reply t2 w = Some (match stored_settings (Background.storage w) with
                              | Some s => s
                              | None => DEFAULT_SETTINGS
                              end).
Proof.
  destruct w as [am ibp sn [sa ss sc] al off tabs tm rm]. repeat split.
Qed.

(** ** The status query *)

(** The status query changes nothing. Under settings with a finite break
    interval it reports the count, the flag, the settings in force and a
    remaining time that is the larger of [interval - count] and 0; under a
    record without break interval the remaining time is not a number. *)
Theorem status_query_reports_remaining (now : Z) (w : Background.World) :
  after now RequestStatus w = w /\
  (forall q, interval_is w q ->
     exists r,
       snd (Background.onMessage now RequestStatus w)
         = StatusResponse (Background.activeMinutes w) (Fin r)
                          (Background.isBreakInProgress w) (Background.get_settings w) /\
       (0 <= r)%Q /\
       (q - inject_Z (Background.activeMinutes w) <= r)%Q /\
       (r == 0 \/ r == q - inject_Z (Background.activeMinutes w))%Q) /\
  (breakIntervalMinutes (Background.get_settings w) = None ->
   snd (Background.onMessage now RequestStatus w)
     = StatusResponse (Background.activeMinutes w) NaN
                      (Background.isBreakInProgress w) (Background.get_settings w)).
Proof.
  split; [reflexivity|]. split.
  - intros q Hq. exists (remaining q (Background.activeMinutes w)).
    split; [now apply status_minutesRemaining|]. apply remaining_max.
  - intros H. cbn [Background.onMessage snd]. now rewrite H.
Qed.

Lemma status_query_witness :
  exists r,
    snd (Background.onMessage 5000 RequestStatus (world_at 7))
      = StatusResponse 7 (Fin r) false DEFAULT_SETTINGS /\ (r == 13)%Q.
Proof.
  destruct (status_query_reports_remaining 5000 (world_at 7)) as (_ & H & _).
  destruct (H 20%Q eq_refl) as (r & Hr & _ & _ & [H0 | H1]).
  - exists r. split; [exact Hr|].
    exfalso. cbn in Hr. inversion Hr as [Hq]. rewrite <- Hq in H0.
    vm_compute in H0. discriminate H0.
  - exists r. split; [exact Hr|]. rewrite H1. reflexivity.
Defined.

(** The popup computes, from the store alone, the status the background
    would have sent, whenever the count in memory is the stored one and no
    break is marked: it does not matter to the popup whether the background
    answers. A reply that is not a status is treated as no reply, and when
    the store cannot be read either the popup shows 20 minutes under the
    default settings. *)
Theorem popup_fallback_agrees_with_background (now : Z) (w : Background.World) :
  coherent w ->
  PopupStatus.getStatus (Some (snd (Background.onMessage now RequestStatus w))) true
                        (Background.storage w)
    = PopupStatus.getStatus None true (Background.storage w) /\
  PopupStatus.getStatus (Some (SuccessResponse true)) true (Background.storage w)
    = PopupStatus.getStatus None true (Background.storage w) /\
  PopupStatus.getStatus None false (Background.storage w)
    = StatusResponse 0 (Fin 20) false DEFAULT_SETTINGS.
Proof.
  intros (Hs & _ & Hb). repeat split.
  cbn [Background.onMessage snd PopupStatus.getStatus]. unfold Background.get_settings.
  now rewrite Hs, Hb.
Qed.

Lemma popup_fallback_witness :
  PopupStatus.getStatus (Some (snd (Background.onMessage 5000 RequestStatus (world_at 7))))
                        true (Background.storage (world_at 7))
    = PopupStatus.getStatus None true (Background.storage (world_at 7)).
Proof.
  apply (popup_fallback_agrees_with_background 5000 (world_at 7)).
  split; [reflexivity|]. split; [vm_compute; discriminate|reflexivity].
Defined.

(** ** The end of the snooze window *)

(** A snooze replaces the deadline by [t0 + m * 60 * 1000], whatever it was
    before. A tick whose clock reading is at the deadline or after it is no
    longer suppressed: it does what the same tick would do in a world that
    was never snoozed, the deadline apart. *)
Theorem tick_at_deadline_is_processed
    (t0 now : Z) (m : Q) (state : IdleState) (w : Background.World) :
  snoozeMinutes (Background.get_settings w) = Some (Fin m) ->
  (inject_Z t0 + m * 60 * 1000 <= inject_Z now)%Q ->
  let deadline := Fin (inject_Z t0 + m * 60 * 1000) in
  after t0 BreakSnooze w = Background.set_snoozedUntilMs deadline w /\
  ~ snoozed now (after t0 BreakSnooze w) /\
  Background.handleBreakTick now state (after t0 BreakSnooze w)
    = Background.set_snoozedUntilMs deadline
        (Background.handleBreakTick now state (Background.set_snoozedUntilMs NInf w)).
Proof.
  intros Hm Hnow deadline.
  assert (E : after t0 BreakSnooze w = Background.set_snoozedUntilMs deadline w).
  { unfold after. cbn [Background.onMessage fst]. now rewrite Hm. }
  assert (Hl : JsNum.ltb (ofZ now) deadline = false) by (now apply Qltb_ge).
  split; [exact E|]. split.
  - rewrite E. apply ltb_not_lt. exact Hl.
  - rewrite E. destruct w as [am ibp sn [sa ss sc] al off tabs tm rm].
    unfold Background.handleBreakTick, Background.get_settings,
      Background.set_snoozedUntilMs, Background.broadcastMessage,
      Background.store_activeMinutes, Background.set_activeMinutes,
      Background.set_storage, Background.set_tabMessages.
    cbn [Background.snoozedUntilMs Background.storage stored_settings
         stored_activeMinutes stored_calibrationData
         Background.activeMinutes Background.isBreakInProgress Background.alarms
         Background.offscreenOpen Background.tabs Background.tabMessages
         Background.runtimeMessages].
    rewrite Hl. change (JsNum.ltb (ofZ now) NInf) with false. cbv iota.
    repeat match goal with
           | |- context [if ?c then _ else _] => destruct c
           end; reflexivity.
Qed.

(** Snoozed at 1000 for 5 minutes with 7 minutes on the count: the tick at
    301000, the deadline itself, counts the eighth minute. *)
Lemma tick_at_deadline_witness :
  Background.activeMinutes
    (Background.handleBreakTick 301000 Active (after 1000 BreakSnooze (world_at 7))) = 8 /\
  Background.activeMinutes
    (Background.handleBreakTick 300999 Active (after 1000 BreakSnooze (world_at 7))) = 7.
Proof.
  destruct (tick_at_deadline_is_processed 1000 301000 5 Active (world_at 7) eq_refl)
    as (_ & _ & H).
  - vm_compute. discriminate.
  - split; [rewrite H; reflexivity | reflexivity].
Defined.

(** ** Bounds of the face size *)

Lemma fraction_bounds (a b : Z) :
  0 <= a <= b -> 0 < b ->
  (0 <= inject_Z a / inject_Z b <= 1)%Q.
Proof.
  intros Ha Hb.
  assert (Hb' : (0 < inject_Z b)%Q) by (change 0%Q with (inject_Z 0); now rewrite <- Zlt_Qlt).
  split.
  - apply Qle_shift_div_l; [exact Hb'|]. rewrite Qmult_0_l.
    change 0%Q with (inject_Z 0). rewrite <- Zle_Qle. lia.
  - apply Qle_shift_div_r; [exact Hb'|]. rewrite Qmult_1_l. rewrite <- Zle_Qle. lia.
Qed.

Lemma skin_fraction_bounds (rule : Z -> Z -> Z -> bool) (data : list Z) :
  data <> [] ->
  exists q, skin_fraction rule data = Fin q /\ (0 <= q <= 1)%Q.
Proof.
  intros Hne. rewrite (skin_fraction_finite rule data Hne). eexists. split; [reflexivity|].
  apply fraction_bounds.
  - unfold skin_count. split; [lia|]. apply inj_le. apply List.filter_length_le.
  - unfold sampled_offsets. rewrite length_map, length_seq.
    assert (H : (0 < (length data + 15) / 16)%nat).
    { apply offset_in_range. destruct data; [congruence|cbn; lia]. }
    lia.
Qed.

(** For a frame buffer that is not empty both samplers estimate a face size
    that is a finite number between 0 and 1. For an empty buffer the
    estimate is 0/0, not a number; the sample is then reported as showing no
    face, and neither calibration nor warning takes place. *)
Theorem estimateFaceSize_between_0_and_1 :
  (forall data, data <> [] ->
     exists q, Offscreen.estimateFaceSize data = Fin q /\ (0 <= q <= 1)%Q) /\
  (forall data, data <> [] ->
     exists q, OffscreenDirect.estimateFaceSize data = Fin q /\ (0 <= q <= 1)%Q) /\
  Offscreen.estimateFaceSize [] = NaN /\
  OffscreenDirect.estimateFaceSize [] = NaN /\
  (forall now now' response f s,
      idle_sampler s ->
      SAMPLE_INTERVAL <= now - lastSampleTime s ->
      2 <= readyState f -> videoWidth f <> 0 -> videoHeight f <> 0 ->
      data f = [] ->
      Offscreen.performSample now now' response f s
        = mkSampler true false (calibrationData s) now (calibrationSamples s) (effects s)
                    StatusNoFace).
Proof.
  split; [|split; [|split; [|split]]].
  - intros data Hne. rewrite estimateFaceSize_fraction. now apply skin_fraction_bounds.
  - intros data Hne. rewrite strict_estimateFaceSize_fraction. now apply skin_fraction_bounds.
  - reflexivity.
  - reflexivity.
  - intros now now' response f s [Hi Hp] Ht Hr Hw Hh Hd.
    unfold Offscreen.performSample. rewrite Hi, Hp, Hd. cbn [negb orb].
    apply Z.ltb_ge in Ht. rewrite Ht.
    assert (H1 : (readyState f <? 2) = false) by (apply Z.ltb_ge; lia).
    apply Z.eqb_neq in Hw, Hh. rewrite H1, Hw, Hh. reflexivity.
Qed.

Lemma estimateFaceSize_bounds_witness :
  exists q, Offscreen.estimateFaceSize (data (frame_of skin_pixel dark_pixel)) = Fin q /\
            (0 <= q <= 1)%Q.
Proof.
  destruct estimateFaceSize_between_0_and_1 as (H & _).
  apply H. discriminate.
Defined.

(** ** The two-second floor *)

Lemma performSample_gate_passed
    (now now' : Z) (response : option Settings) (f : Frame) (s : Sampler) :
  idle_sampler s ->
  SAMPLE_INTERVAL <= now - lastSampleTime s ->
  let s' := Offscreen.performSample now now' response f s in
  lastSampleTime s' = now /\ idle_sampler s'.
Proof.
  intros [Hi Hp] Ht. unfold Offscreen.performSample. rewrite Hi, Hp. cbn [negb orb].
  apply Z.ltb_ge in Ht. rewrite Ht. unfold idle_sampler.
  destruct (readyState f <? 2); [now cbn|].
  destruct ((videoWidth f =? 0) || (videoHeight f =? 0)); [now cbn|].
  destruct (JsNum.gtb _ _); [|now cbn].
  cbn [calibrationData set_status].
  destruct (calibrationData s).
  - destruct (Offscreen.checkProximity _ _ _); now cbn.
  - unfold Offscreen.performCalibration, performCalibration_with.
    destruct (_ <? _)%nat; now cbn.
Qed.

(** A sample request that passes the gate takes the slot, whether or not
    the video was ready and whatever the frame showed: any further request
    less than two seconds later leaves the sampler exactly as it is. A
    sampler that is not initialised, or is in the middle of a sample, ignores
    every request. *)
Theorem sample_requests_respect_floor
    (now now' : Z) (response : option Settings) (f : Frame) (s : Sampler) :
  (idle_sampler s ->
   SAMPLE_INTERVAL <= now - lastSampleTime s ->
   let s' := Offscreen.performSample now now' response f s in
   lastSampleTime s' = now /\
   forall t2 c2 response2 f2,
     t2 - now < SAMPLE_INTERVAL ->
     Offscreen.performSample t2 c2 response2 f2 s' = s') /\
  (initialized s = false \/ isProcessing s = true ->
   Offscreen.performSample now now' response f s = s).
Proof.
  split.
  - intros Hidle Ht s'.
    destruct (performSample_gate_passed now now' response f s Hidle Ht) as [Hl [Hi Hp]].
    fold s' in Hl, Hi, Hp. split; [exact Hl|].
    intros t2 c2 response2 f2 H2. unfold Offscreen.performSample at 1.
    rewrite Hi, Hp, Hl. cbn [negb orb].
    apply Z.ltb_lt in H2. now rewrite H2.
  - intros [H|H]; unfold Offscreen.performSample; rewrite H; [reflexivity|].
    now rewrite orb_true_r.
Qed.

Lemma sample_floor_witness :
  let s' := Offscreen.performSample 5000 5001 None (mkFrame 0 0 0 []) calibrated_sampler in
  lastSampleTime s' = 5000 /\
  Offscreen.performSample 6999 7000 None (frame_of skin_pixel skin_pixel) s' = s'.
Proof.
  destruct (sample_requests_respect_floor 5000 5001 None (mkFrame 0 0 0 [])
              calibrated_sampler) as [H _].
  destruct H as [Hl Hn].
  - split; reflexivity.
  - vm_compute. discriminate.
  - split; [exact Hl|]. apply Hn. reflexivity.
Defined.

(** ** Baselines are positive *)

Lemma fold_add_positive (l : list num) :
  Forall positive l ->
  forall q0, exists q, fold_left JsNum.add l (Fin q0) = Fin q /\
                       (q0 <= q)%Q /\ (l <> [] -> (q0 < q)%Q).
Proof.
  induction 1 as [|x l [a [-> Ha]] _ IH]; intros q0.
  - exists q0. split; [reflexivity|]. split; [apply Qle_refl|congruence].
  - cbn [fold_left JsNum.add]. destruct (IH (q0 + a)%Q) as (q & Hq & Hle & _).
    exists q. split; [exact Hq|].
    assert (Hlt : (q0 < q)%Q).
    { apply Qlt_le_trans with (q0 + a)%Q; [|exact Hle].
      rewrite <- (Qplus_0_r q0) at 1. apply Qplus_lt_r. exact Ha. }
    split; [now apply Qlt_le_weak|]. intros _. exact Hlt.
Qed.

Lemma mean_positive (l : list num) :
  Forall positive l -> l <> [] ->
  positive (JsNum.div (fold_left JsNum.add l (Fin 0)) (ofZ (Z.of_nat (length l)))).
Proof.
  intros Hl Hne. destruct (fold_add_positive l Hl 0%Q) as (q & -> & _ & Hq).
  specialize (Hq Hne).
  assert (Hn : 0 < Z.of_nat (length l)) by (destruct l; [congruence|cbn; lia]).
  unfold JsNum.div, JsNum.ofZ. cbn [Qnum inject_Z].
  destruct (Z.compare_spec (Z.of_nat (length l)) 0) as [E|E|E]; try lia.
  eexists. split; [reflexivity|].
  apply Qlt_shift_div_l.
  - change 0%Q with (inject_Z 0). now rewrite <- Zlt_Qlt.
  - now rewrite Qmult_0_l.
Qed.

Lemma estimate_positive (d : list Z) :
  JsNum.gtb (Offscreen.estimateFaceSize d) (Fin 0) = true ->
  positive (Offscreen.estimateFaceSize d).
Proof.
  intros H. destruct d as [|x d]; [discriminate H|].
  rewrite estimateFaceSize_fraction in *.
  destruct (skin_fraction_bounds skin_rule_b (x :: d)) as (q & Hq & _); [discriminate|].
  rewrite Hq in *. exists q. split; [reflexivity|]. now apply Qltb_lt.
Qed.

Lemma sampler_ok_ext (s s' : Sampler) :
  initialized s' = initialized s ->
  isProcessing s' = isProcessing s ->
  calibrationData s' = calibrationData s ->
  calibrationSamples s' = calibrationSamples s ->
  sampler_ok s -> sampler_ok s'.
Proof.
  unfold sampler_ok, idle_sampler. intros -> -> -> ->. tauto.
Qed.

Lemma performSample_ok
    (now now' : Z) (response : option Settings) (f : Frame) (s : Sampler) :
  sampler_ok s -> sampler_ok (Offscreen.performSample now now' response f s).
Proof.
  intros Hok. pose proof Hok as ([Hi Hp] & Hacc & Hbase).
  unfold Offscreen.performSample. rewrite Hi, Hp. cbn [negb orb].
  destruct (now - lastSampleTime s <? SAMPLE_INTERVAL); [exact Hok|].
  destruct (readyState f <? 2);
    [apply (sampler_ok_ext s); cbn; auto|].
  destruct ((videoWidth f =? 0) || (videoHeight f =? 0));
    [apply (sampler_ok_ext s); cbn; auto|].
  destruct (JsNum.gtb (Offscreen.estimateFaceSize (data f)) (Fin 0)) eqn:Hpos;
    [|apply (sampler_ok_ext s); cbn; auto].
  apply estimate_positive in Hpos.
  cbn [calibrationData set_status].
  destruct (calibrationData s) as [c|] eqn:Hc.
  - destruct (Offscreen.checkProximity _ _ _); (split; [split; reflexivity|]);
      (split; [intros H; cbn in H; congruence|]); intros c' H; cbn in H;
      apply Hbase; congruence.
  - destruct (Hacc eq_refl) as (acc & Hsome & Hlen & Hall).
    assert (Hall' : Forall positive (acc ++ [Offscreen.estimateFaceSize (data f)])).
    { apply Forall_app. split; [exact Hall|]. now constructor. }
    unfold Offscreen.performCalibration, performCalibration_with, set_status.
    cbn [calibrationSamples initialized isProcessing calibrationData lastSampleTime effects].
    assert (E : match calibrationSamples s with Some l => l | None => [] end = acc).
    { destruct Hsome as [-> | [-> ->]]; reflexivity. }
    rewrite E.
    destruct (length (acc ++ [Offscreen.estimateFaceSize (data f)]) <? CALIBRATION_SAMPLES)%nat
      eqn:Hlt.
    + split; [split; reflexivity|]. split.
      * intros _. eexists. split; [left; reflexivity|].
        split; [now apply Nat.ltb_lt|exact Hall'].
      * intros c' H. discriminate H.
    + split; [split; reflexivity|]. split; [intros H; discriminate H|].
      intros c' H. cbn in H. inversion H; subst c'. cbn [baselineFaceSize].
      apply mean_positive; [exact Hall'|]. now destruct acc.
Qed.

(** A sampler that starts without calibration, or with a loaded calibration
    whose baseline is positive, and from then on only takes samples and
    resets, with whatever frames, clock readings and settings replies, is
    always ready for the next request, never holds five or more samples in a
    filling accumulator, and never has a baseline that is zero, negative,
    infinite or not a number; so the ratio of a positive face size to the
    baseline is always a positive finite number. *)
Theorem sampler_keeps_positive_baseline :
  (forall now response,
      (forall c, response = Some c -> positive (baselineFaceSize c)) ->
      sampler_ok (Offscreen.initialize now response)) /\
  (forall now now' response f s,
      sampler_ok s -> sampler_ok (Offscreen.performSample now now' response f s)) /\
  (forall s, sampler_ok s -> sampler_ok (Offscreen.resetCalibration s)) /\
  (forall s c a,
      sampler_ok s -> calibrationData s = Some c -> (0 < a)%Q ->
      positive (proximity_ratio (Fin a) c)).
Proof.
  split; [|split; [|split]].
  - intros now response Hpos. unfold Offscreen.initialize, Offscreen.loadCalibrationData.
    destruct response as [c|]; cbn.
    + destruct (negb (timestamp c =? 0)); cbn;
        [destruct (now - timestamp c <? CALIBRATION_VALIDITY_MS); cbn|].
      * split; [split; reflexivity|]. split; [intros H; discriminate H|].
        intros c' H. inversion H; subst. now apply Hpos.
      * split; [split; reflexivity|]. split; [|intros c' H; discriminate H].
        intros _. exists []. split; [now right|]. split; [unfold CALIBRATION_SAMPLES; cbn; lia|constructor].
      * split; [split; reflexivity|]. split; [|intros c' H; discriminate H].
        intros _. exists []. split; [now right|]. split; [unfold CALIBRATION_SAMPLES; cbn; lia|constructor].
    + split; [split; reflexivity|]. split; [|intros c' H; discriminate H].
      intros _. exists []. split; [now right|]. split; [unfold CALIBRATION_SAMPLES; cbn; lia|constructor].
  - intros. now apply performSample_ok.
  - intros s ([Hi Hp] & _). split; [split; assumption|].
    split; [|intros c H; discriminate H].
    intros _. exists []. split; [now left|]. split; [unfold CALIBRATION_SAMPLES; cbn; lia|constructor].
  - intros s c a (_ & _ & Hbase) Hc Ha. destruct (Hbase c Hc) as (b & Hb & Hbpos).
    unfold proximity_ratio. rewrite Hb. unfold JsNum.div.
    assert (Hn : 0 < Qnum b) by (unfold Qlt in Hbpos; cbn in Hbpos; lia).
    destruct (Z.compare_spec (Qnum b) 0) as [E|E|E]; try lia.
    eexists. split; [reflexivity|].
    apply Qlt_shift_div_l; [exact Hbpos|]. now rewrite Qmult_0_l.
Qed.

Lemma sampler_ok_witness :
  let s := Offscreen.performSample 4000 4001 None (frame_of skin_pixel dark_pixel)
             (Offscreen.performSample 2000 2001 None (frame_of skin_pixel skin_pixel)
                (Offscreen.initialize 0 None)) in
  sampler_ok s /\ calibrationSamples s <> None.
Proof.
  intros s. destruct sampler_keeps_positive_baseline as (Hinit & Hstep & _).
  split.
  - subst s. apply Hstep, Hstep, Hinit. intros c H. discriminate H.
  - vm_compute. discriminate.
Defined.

(** ** A calibration across a restart of the sampler *)

Lemma initialize_calibration (now : Z) (response : option Calibration) :
  calibrationData (Offscreen.initialize now response) =
    match response with
    | Some c =>
        if negb (timestamp c =? 0) && (now - timestamp c <? CALIBRATION_VALIDITY_MS)
        then Some c else None
    | None => None
    end.
Proof.
  unfold Offscreen.initialize, Offscreen.loadCalibrationData.
  destruct response as [c|]; [|reflexivity].
  destruct (negb (timestamp c =? 0)); [|reflexivity].
  now destruct (now - timestamp c <? CALIBRATION_VALIDITY_MS).
Qed.

(** A calibration that the sampler has handed to the background is in force
    again after the sampler is initialised anew at time [now] if and only if
    its timestamp is not 0 and it is less than 24 hours old. Otherwise the
    sampler comes up without calibration and with nothing accumulated, and
    its first accepted sample is the first of a new calibration: it is put
    into the accumulator and no warning is sent, however large the face. *)
Theorem calibration_valid_for_24_hours
    (t1 t2 now : Z) (c : Calibration) (w : Background.World) :
  let reply := calibration_reply t2 (after t1 (StorageSetCalibration c) w) in
  let s := Offscreen.initialize now reply in
  (calibrationData s = Some c <->
   timestamp c <> 0 /\ now - timestamp c < 24 * 60 * 60 * 1000) /\
  (calibrationData s = Some c \/ calibrationData s = None) /\
  calibrationSamples s = None /\
  idle_sampler s /\
  (calibrationData s = None ->
   forall t t' response f a,
     yields s t f a ->
     Offscreen.performSample t t' response f s
       = mkSampler true false None t (Some [Fin a]) [] (StatusCalibrating 1)).
Proof.
  intros reply s.
  assert (Er : reply = Some c) by (destruct w as [? ? ? [? ? ?] ? ? ? ? ?]; reflexivity).
  assert (Ec := initialize_calibration now reply). fold s in Ec. rewrite Er in Ec.
  assert (Es : calibrationSamples s = None).
  { subst s. rewrite Er. unfold Offscreen.initialize, Offscreen.loadCalibrationData.
    destruct (negb _); [destruct (_ <? _)|]; reflexivity. }
  assert (Hidle : idle_sampler s).
  { subst s. rewrite Er. unfold Offscreen.initialize, Offscreen.loadCalibrationData.
    destruct (negb _); [destruct (_ <? _)|]; split; reflexivity. }
  assert (He : effects s = []).
  { subst s. rewrite Er. unfold Offscreen.initialize, Offscreen.loadCalibrationData.
    destruct (negb _); [destruct (_ <? _)|]; reflexivity. }
  split; [|split; [|split; [exact Es|split; [exact Hidle|]]]].
  - rewrite Ec. change CALIBRATION_VALIDITY_MS with (24 * 60 * 60 * 1000).
    destruct (Z.eqb_spec (timestamp c) 0) as [E0|E0];
      destruct (Z.ltb_spec (now - timestamp c) (24 * 60 * 60 * 1000)) as [El|El];
      cbn [negb andb]; split; try discriminate; try tauto; try lia.
  - rewrite Ec. destruct (_ && _); [now left|now right].
  - intros Hnone t t' response f a Hy.
    rewrite (performSample_calibrating t t' response f s a [] Hidle Hnone
               (or_intror (conj Es eq_refl)) Hy).
    rewrite He. reflexivity.
Qed.

(** Calibrated at 1000: a restart 23 hours later has the calibration, a
    restart 25 hours later has none. *)
Lemma calibration_validity_witness :
  let c := mkCalibration (Fin 0.5) 1000 in
  calibrationData
    (Offscreen.initialize (1000 + 23 * 3600000)
       (calibration_reply 2000 (after 1500 (StorageSetCalibration c) installed))) = Some c /\
  calibrationData
    (Offscreen.initialize (1000 + 25 * 3600000)
       (calibration_reply 2000 (after 1500 (StorageSetCalibration c) installed))) <> Some c.
Proof.
  intros c. split.
  - apply (calibration_valid_for_24_hours 1500 2000 (1000 + 23 * 3600000) c installed).
    split; [discriminate|reflexivity].
  - intros H.
    apply (calibration_valid_for_24_hours 1500 2000 (1000 + 25 * 3600000) c installed) in H.
    destruct H as [_ H]. vm_compute in H. discriminate H.
Defined.

(** ** Sensitivity and the posture of calibration *)

Lemma lt_fin (x y : Q) : JsNum.lt (Fin x) (Fin y) <-> (x < y)%Q.
Proof. split; [intros H; now inversion H|apply JsNum.lt_fin]. Qed.

(** The sensitivity the sampler works with is the stored one when that is a
    number other than 0, and 1.5 in every other case (no reply, no settings,
    missing, 0 or not a number); it is therefore never 0 and never NaN, and
    what the background replies when no settings are stored yields 1.5. *)
Theorem sensitivity_read_through :
  (forall response, JsNum.truthy (Offscreen.getSensitivity response) = true) /\
  (forall s v, sensitivity s = Some v -> JsNum.truthy v = true ->
               Offscreen.getSensitivity (Some s) = v) /\
  (forall s, JsNum.truthy (toNumber (sensitivity s)) = false ->
             Offscreen.getSensitivity (Some s) = Fin 1.5) /\
  Offscreen.getSensitivity None = Fin 1.5 /\
  (forall now w, stored_settings (Background.storage w) = None ->
                 Offscreen.getSensitivity (settings_reply now w) = Fin 1.5) /\
  (forall now w s, stored_settings (Background.storage w) = Some s ->
                   Offscreen.getSensitivity (settings_reply now w)
                   = Offscreen.getSensitivity (Some s)).
Proof.
  split; [|split; [|split; [|split; [|split]]]].
  - intros [s|]; [|reflexivity]. unfold Offscreen.getSensitivity.
    destruct (JsNum.truthy (toNumber (sensitivity s))) eqn:E; [exact E|reflexivity].
  - intros s v Hv Ht. unfold Offscreen.getSensitivity. rewrite Hv. cbn. now rewrite Ht.
  - intros s Hf. unfold Offscreen.getSensitivity. now rewrite Hf.
  - reflexivity.
  - intros now w H. unfold settings_reply. cbn. unfold Background.get_settings.
    now rewrite H.
  - intros now w s H. unfold settings_reply. cbn. unfold Background.get_settings.
    now rewrite H.
Qed.

Lemma sensitivity_read_through_witness :
  Offscreen.getSensitivity (settings_reply 1000 (after 500
      (SettingsUpdate (Options.readForm (form_with_sensitivity (Fin 1.8)))) installed))
    = Fin 1.8 /\
  Offscreen.getSensitivity (settings_reply 1000 (Popup.toggleProximity true true 500 installed))
    = Fin 1.5.
Proof.
  destruct sensitivity_read_through as (_ & Hv & Hd & _ & _ & Hs).
  split.
  - rewrite (Hs 1000 _ (Options.readForm (form_with_sensitivity (Fin 1.8))));
      [|apply update_stores_payload].
    apply Hv; reflexivity.
  - rewrite (Hs 1000 _ (mkSettings None None None (Some true) None None None None None None));
      [|reflexivity].
    apply Hd. reflexivity.
Defined.

(** A user who sits exactly as during calibration (the face size equals the
    baseline) is warned at every accepted sample when 0.7 times the
    sensitivity is below 1, that is for sensitivities below 10/7, and is not
    warned when it is 1 or more, as with the default 1.5. *)
Theorem calibration_posture_warns_below_10_7
    (now now' : Z) (response : option Settings) (f : Frame) (s : Sampler)
    (a b sens : Q) (c : Calibration) :
  idle_sampler s ->
  yields s now f a ->
  calibrationData s = Some c ->
  baselineFaceSize c = Fin b ->
  (a == b)%Q ->
  Offscreen.getSensitivity response = Fin sens ->
  let s' := Offscreen.performSample now now' response f s in
  ((0.7 * sens < 1)%Q -> effects s' = effects s ++ [SendMessage ProximityWarning]) /\
  ((1 <= 0.7 * sens)%Q -> effects s' = effects s).
Proof.
  intros Hidle Hy Hc Hb Hab Hs s'.
  destruct (offscreen_warns_iff_ratio_exceeds now now' response f s a c Hidle Hy Hc)
    as (Hw & Hn & _).
  fold s' in Hw, Hn.
  assert (Ha : (0 < a)%Q) by (destruct Hy as (_ & _ & _ & Ha); exact Ha).
  assert (Hbpos : (0 < b)%Q) by (now rewrite <- Hab).
  assert (Hr : proximity_ratio (Fin a) c = Fin (a / b)).
  { unfold proximity_ratio. rewrite Hb. unfold JsNum.div.
    assert (0 < Qnum b) by (unfold Qlt in Hbpos; cbn in Hbpos; lia).
    destruct (Z.compare_spec (Qnum b) 0); try lia; reflexivity. }
  assert (H1 : (a / b == 1)%Q).
  { rewrite Hab. apply Qmult_inv_r. intros E. rewrite E in Hbpos. now apply Qlt_irrefl in Hbpos. }
  rewrite Hs, Hr in Hw, Hn. unfold proximity_threshold in Hw, Hn.
  cbn [JsNum.mul] in Hw, Hn. rewrite lt_fin in Hw, Hn. rewrite H1 in Hw, Hn.
  split; [exact Hw|]. intros Hge. apply Hn. now apply Qle_not_lt.
Qed.

Lemma calibration_posture_witness :
  let f := mkFrame 4 640 480 (data (frame_of skin_pixel dark_pixel)) in
  effects (Offscreen.performSample 5000 5001
             (Some (Options.readForm (form_with_sensitivity (Fin 1.2)))) f calibrated_sampler)
    = [SendMessage ProximityWarning] /\
  effects (Offscreen.performSample 5000 5001 (Some DEFAULT_SETTINGS) f calibrated_sampler)
    = [].
Proof.
  intros f.
  assert (Hy : yields calibrated_sampler 5000 f (inject_Z 1 / inject_Z 2)).
  { split; [vm_compute; discriminate|]. prove_gives. }
  split.
  - apply (calibration_posture_warns_below_10_7 5000 5001 _ f calibrated_sampler
             (inject_Z 1 / inject_Z 2) 0.5 1.2 (mkCalibration (Fin 0.5) 1000));
      try reflexivity; [split; reflexivity|exact Hy].
  - apply (calibration_posture_warns_below_10_7 5000 5001 _ f calibrated_sampler
             (inject_Z 1 / inject_Z 2) 0.5 1.5 (mkCalibration (Fin 0.5) 1000));
      try reflexivity; [split; reflexivity|exact Hy|vm_compute; discriminate].
Defined.

(** ** The content script *)

Lemma leb_zero_fin (r : Q) : JsNum.leb (Fin r) (Fin 0) = true <-> (r <= 0)%Q.
Proof. unfold JsNum.leb. apply geb_fin. Qed.

Lemma leb_zero_fin_false (r : Q) : JsNum.leb (Fin r) (Fin 0) = false <-> (0 < r)%Q.
Proof. unfold JsNum.leb. apply geb_fin_false. Qed.

Lemma intervalTick_last (p : Content.Page) (q : Q) :
  Content.countdown p = Some (Fin q) -> (q == 1)%Q ->
  Content.intervalTick p = Content.mkPage None None (Content.toast p)
                             (Content.sent p ++ [BreakCompleted]).
Proof.
  intros Hc Hq. unfold Content.intervalTick. rewrite Hc.
  change (JsNum.sub (Fin q) (Fin 1)) with (Fin (q + - (1))).
  assert (H : JsNum.leb (Fin (q + - (1))) (Fin 0) = true).
  { apply leb_zero_fin. rewrite Hq. apply Qle_refl. }
  now rewrite H.
Qed.

Lemma intervalTick_running (p : Content.Page) (q : Q) :
  Content.countdown p = Some (Fin q) -> (1 < q)%Q ->
  Content.intervalTick p = Content.mkPage (Content.breakOverlayEl p) (Some (Fin (q + - (1))))
                             (Content.toast p) (Content.sent p).
Proof.
  intros Hc Hq. unfold Content.intervalTick. rewrite Hc.
  change (JsNum.sub (Fin q) (Fin 1)) with (Fin (q + - (1))).
  assert (H : JsNum.leb (Fin (q + - (1))) (Fin 0) = false).
  { apply leb_zero_fin_false. rewrite <- (Qplus_opp_r 1).
    apply Qplus_lt_l. exact Hq. }
  now rewrite H.
Qed.

(** A countdown with [m + 1] seconds left sends nothing and leaves overlay
    and toast alone for [m] firings, and completes at the next one. *)
Lemma countdown_runs (m : nat) :
  forall (p : Content.Page) (q : Q),
    Content.countdown p = Some (Fin q) ->
    (q == inject_Z (Z.of_nat (S m)))%Q ->
    (forall k, (k <= m)%nat ->
       Content.sent (interval_ticks k p) = Content.sent p /\
       Content.breakOverlayEl (interval_ticks k p) = Content.breakOverlayEl p /\
       Content.countdown (interval_ticks k p) <> None) /\
    interval_ticks (S m) p
      = Content.mkPage None None (Content.toast p) (Content.sent p ++ [BreakCompleted]).
Proof.
  induction m as [|m IH]; intros p q Hc Hq.
  - split.
    + intros k Hk. assert (k = 0)%nat by lia. subst k. cbn. rewrite Hc.
      repeat split. discriminate.
    + cbn [interval_ticks]. now apply (intervalTick_last p q).
  - assert (H1 : (1 < q)%Q).
    { rewrite Hq. change 1%Q with (inject_Z 1). rewrite <- Zlt_Qlt. lia. }
    pose proof (intervalTick_running p q Hc H1) as Et.
    assert (Hq' : (q + - (1) == inject_Z (Z.of_nat (S m)))%Q).
    { rewrite Hq. rewrite !Nat2Z.inj_succ. unfold Z.succ. rewrite !inject_Z_plus.
      change (inject_Z 1) with 1%Q. ring. }
    destruct (IH (Content.intervalTick p) (q + - (1))%Q) as [IHk IHend];
      [now rewrite Et|exact Hq'|].
    rewrite Et in IHk, IHend.
    split.
    + intros [|k] Hk.
      * cbn. rewrite Hc. repeat split. discriminate.
      * cbn [interval_ticks]. rewrite Et. destruct (IHk k ltac:(lia)) as (Hs & Ho & Hn).
        rewrite Hs, Ho. cbn. repeat split. exact Hn.
    + change (interval_ticks (S (S m)) p) with (interval_ticks (S m) (Content.intervalTick p)).
      rewrite Et, IHend. reflexivity.
Qed.

Lemma interval_ticks_toast (k : nat) (p : Content.Page) :
  Content.toast (interval_ticks k p) = Content.toast p.
Proof.
  revert p. induction k as [|k IH]; intros p; [reflexivity|].
  cbn [interval_ticks]. rewrite IH. unfold Content.intervalTick.
  destruct (Content.countdown p); [|reflexivity]. now destruct (JsNum.leb _ _).
Qed.

Lemma interval_ticks_succ (k : nat) (p : Content.Page) :
  interval_ticks (S k) p = Content.intervalTick (interval_ticks k p).
Proof.
  revert p. induction k as [|k IH]; intros p; [reflexivity|].
  change (interval_ticks (S (S k)) p) with (interval_ticks (S k) (Content.intervalTick p)).
  now rewrite IH.
Qed.

(** A started countdown of [n >= 1] whole seconds sends nothing and keeps
    the overlay for its first [n - 1] seconds; at the [n]-th second it removes
    the overlay, stops, and sends exactly one break-completed message, after
    which further seconds change nothing. Pressing Start again restarts the
    countdown from the duration of the overlay. *)
Theorem countdown_completes_once (n : nat) (p : Content.Page) :
  (1 <= n)%nat ->
  Content.breakOverlayEl p = Some (ofZ (Z.of_nat n)) ->
  let started := Content.clickStart p in
  (forall k, (k < n)%nat ->
     Content.sent (interval_ticks k started) = Content.sent p /\
     Content.breakOverlayEl (interval_ticks k started) = Some (ofZ (Z.of_nat n)) /\
     Content.clickStart (interval_ticks k started) = started) /\
  interval_ticks n started
    = Content.mkPage None None (Content.toast p) (Content.sent p ++ [BreakCompleted]) /\
  (forall j, interval_ticks (n + j) started = interval_ticks n started).
Proof.
  intros Hn Ho started.
  assert (Es : started = Content.mkPage (Some (ofZ (Z.of_nat n))) (Some (ofZ (Z.of_nat n)))
                           (Content.toast p) (Content.sent p)).
  { subst started. unfold Content.clickStart, Content.startCountdown. now rewrite Ho. }
  destruct n as [|m]; [lia|].
  destruct (countdown_runs m started (inject_Z (Z.of_nat (S m)))) as [Hk Hend].
  { now rewrite Es. }
  { reflexivity. }
  assert (Hend' : interval_ticks (S m) started
                  = Content.mkPage None None (Content.toast p)
                      (Content.sent p ++ [BreakCompleted])).
  { rewrite Hend, Es. reflexivity. }
  split; [|split].
  - intros k Hlt. destruct (Hk k ltac:(lia)) as (Hs & Hov & _).
    assert (Hs' : Content.sent (interval_ticks k started) = Content.sent p)
      by (rewrite Hs, Es; reflexivity).
    assert (Hov' : Content.breakOverlayEl (interval_ticks k started)
                   = Some (ofZ (Z.of_nat (S m))))
      by (rewrite Hov, Es; reflexivity).
    assert (Ht : Content.toast (interval_ticks k started) = Content.toast p)
      by (rewrite interval_ticks_toast, Es; reflexivity).
    split; [exact Hs'|]. split; [exact Hov'|].
    unfold Content.clickStart, Content.startCountdown. rewrite Hov', Hs', Ht, Es. reflexivity.
  - exact Hend'.
  - intros j. induction j as [|j IHj]; [now rewrite Nat.add_0_r|].
    replace (S m + S j)%nat with (S (S m + j)) by lia.
    rewrite interval_ticks_succ, IHj, Hend'. reflexivity.
Qed.

Lemma countdown_witness :
  let p := Content.onMessage BreakReminder Content.empty in
  Content.sent (interval_ticks 19 (Content.clickStart p)) = [] /\
  interval_ticks 20 (Content.clickStart p) = Content.mkPage None None false [BreakCompleted].
Proof.
  intros p.
  destruct (countdown_completes_once 20 p ltac:(lia) eq_refl) as (Hk & Hend & _).
  split; [apply (Hk 19%nat); lia|exact Hend].
Defined.

Lemma content_idempotent (m : Message) (p : Content.Page) :
  Content.onMessage m (Content.onMessage m p) = Content.onMessage m p.
Proof.
  destruct m; try reflexivity; cbn [Content.onMessage];
    unfold Content.showBreakOverlay, Content.createToast.
  - destruct (Content.breakOverlayEl p) eqn:E; [now rewrite E|reflexivity].
  - destruct (Content.breakOverlayEl p) eqn:E; [now rewrite E|reflexivity].
  - destruct (Content.toast p) eqn:E; [now rewrite E|reflexivity].
Qed.

(** A message handled twice in a row has the effect of handling it once: a
    second reminder while the overlay is up does not replace it or restart
    its countdown, a second warning while the toast is up adds none. No
    message makes the content script send anything or touches a running
    countdown, and the overlay of a reminder is always made for 20 seconds,
    the one of a break-start message for the duration it carries, or 20 when
    that is 0 or not a number. *)
Theorem content_messages_are_idempotent (m : Message) (p : Content.Page) :
  Content.onMessage m (Content.onMessage m p) = Content.onMessage m p /\
  Content.sent (Content.onMessage m p) = Content.sent p /\
  Content.countdown (Content.onMessage m p) = Content.countdown p /\
  (Content.breakOverlayEl p = None ->
   Content.breakOverlayEl (Content.onMessage BreakReminder p) = Some (Fin 20) /\
   forall d, Content.breakOverlayEl (Content.onMessage (BreakStart d) p)
             = Some (if JsNum.truthy d then d else Fin 20)) /\
  (forall d, Content.breakOverlayEl p = Some d ->
             Content.onMessage BreakReminder p = p /\
             forall d', Content.onMessage (BreakStart d') p = p).
Proof.
  split; [|split; [|split; [|split]]].
  - apply content_idempotent.
  - destruct m; try reflexivity; cbn [Content.onMessage];
      unfold Content.showBreakOverlay, Content.createToast;
      [destruct (Content.breakOverlayEl p)|destruct (Content.breakOverlayEl p)|
       destruct (Content.toast p)]; reflexivity.
  - destruct m; try reflexivity; cbn [Content.onMessage];
      unfold Content.showBreakOverlay, Content.createToast;
      [destruct (Content.breakOverlayEl p)|destruct (Content.breakOverlayEl p)|
       destruct (Content.toast p)]; reflexivity.
  - intros H. cbn [Content.onMessage]. unfold Content.showBreakOverlay. rewrite H.
    split; [reflexivity|]. intros d. reflexivity.
  - intros d H. cbn [Content.onMessage]. unfold Content.showBreakOverlay. rewrite H.
    split; [reflexivity|]. intros d'. reflexivity.
Qed.

Lemma content_idempotent_witness :
  let p := Content.clickStart (Content.onMessage (BreakStart (Fin 60)) Content.empty) in
  Content.onMessage BreakReminder (Content.intervalTick p) = Content.intervalTick p /\
  Content.breakOverlayEl (Content.intervalTick p) = Some (Fin 60).
Proof.
  intros p. split; [|reflexivity].
  destruct (content_messages_are_idempotent BreakReminder (Content.intervalTick p))
    as (_ & _ & _ & _ & H).
  apply (H (Fin 60)). reflexivity.
Defined.

(** Skipping removes the overlay and sends the snooze, but does not stop a
    countdown that was started before: that countdown runs on unseen and,
    when its seconds are over, sends break-completed as well. *)
Theorem skip_does_not_stop_countdown (m : nat) (p : Content.Page) (d : num) (q : Q) :
  Content.breakOverlayEl p = Some d ->
  Content.countdown p = Some (Fin q) ->
  (q == inject_Z (Z.of_nat (S m)))%Q ->
  let skipped := Content.clickSkip p in
  Content.breakOverlayEl skipped = None /\
  Content.sent skipped = Content.sent p ++ [BreakSnooze] /\
  Content.countdown skipped = Content.countdown p /\
  interval_ticks (S m) skipped
    = Content.mkPage None None (Content.toast p)
        (Content.sent p ++ [BreakSnooze; BreakCompleted]).
Proof.
  intros Ho Hc Hq skipped.
  assert (Es : skipped = Content.mkPage None (Some (Fin q)) (Content.toast p)
                           (Content.sent p ++ [BreakSnooze])).
  { subst skipped. unfold Content.clickSkip, Content.cleanupOverlay. rewrite Ho. cbn.
    now rewrite Hc. }
  split; [now rewrite Es|]. split; [now rewrite Es|]. split; [now rewrite Es, Hc|].
  destruct (countdown_runs m skipped q) as [_ Hend].
  - now rewrite Es.
  - exact Hq.
  - rewrite Hend, Es. cbn. now rewrite <- app_assoc.
Qed.

(** Start, five seconds later Skip: fifteen seconds after that the page
    has sent the snooze and the completion. *)
Lemma skip_witness :
  let p := interval_ticks 5 (Content.clickStart (Content.onMessage BreakReminder Content.empty)) in
  Content.sent (interval_ticks 15 (Content.clickSkip p)) = [BreakSnooze; BreakCompleted].
Proof.
  intros p.
  destruct (skip_does_not_stop_countdown 14 p (Fin 20) (20 + -(1) + -(1) + -(1) + -(1) + -(1))%Q)
    as (_ & _ & _ & H).
  - reflexivity.
  - reflexivity.
  - reflexivity.
  - rewrite H. reflexivity.
Defined.

(** ** From the reminder to the completed break *)

Lemma deliver_broadcast (m : Message) (tab : Z) (tabs : list Z) (p : Content.Page) :
  fold_left (fun acc tm => if (fst tm =? tab) then Content.onMessage (snd tm) acc else acc)
            (map (fun t => (t, m)) tabs) p
  = if existsb (Z.eqb tab) tabs then Content.onMessage m p else p.
Proof.
  revert p. induction tabs as [|t tabs IH]; intros p; [reflexivity|].
  cbn [map fold_left fst snd existsb]. rewrite IH. rewrite (Z.eqb_sym tab t).
  destruct (t =? tab); cbn [orb]; [|reflexivity].
  destruct (existsb (Z.eqb tab) tabs); [|reflexivity].
  apply content_idempotent.
Qed.

(** When a tick reaches the interval, every open tab's content script that
    has no overlay yet shows the break overlay for 20 seconds, whatever break
    duration the settings hold; once Start is pressed the script sends
    break-completed after exactly 20 seconds and nothing before, and the
    background, on that message, has the count at 0 in memory and in the
    store with no break in progress. *)
Theorem reminder_runs_a_twenty_second_break
    (now t : Z) (w : Background.World) (q : Q) (tab : Z) :
  breaks_on w ->
  ~ snoozed now w ->
  Background.isBreakInProgress w = false ->
  interval_is w q ->
  (q <= inject_Z (Background.activeMinutes w + 1))%Q ->
  In tab (Background.tabs w) ->
  let w' := Background.handleBreakTick now Active w in
  let page := deliver_to_tab tab (one_broadcast BreakReminder w) Content.empty in
  let started := Content.clickStart page in
  Background.tabMessages w' = Background.tabMessages w ++ one_broadcast BreakReminder w /\
  page = Content.mkPage (Some (Fin 20)) None false [] /\
  (forall k, (k < 20)%nat -> Content.sent (interval_ticks k started) = []) /\
  interval_ticks 20 started = Content.mkPage None None false [BreakCompleted] /\
  Background.activeMinutes (after t BreakCompleted w') = 0 /\
  stored_activeMinutes (Background.storage (after t BreakCompleted w')) = Some 0 /\
  Background.isBreakInProgress (after t BreakCompleted w') = false.
Proof.
  intros Hon Hsn Hb Hq Hreach Hin w' page started.
  assert (Et : Background.tabMessages w'
               = Background.tabMessages w ++ one_broadcast BreakReminder w).
  { subst w'. rewrite (tick_passes_guards now w Hon Hsn Active), Hb.
    unfold interval_is in Hq. rewrite Hq. cbn [is_active negb andb JsNum.toNumber].
    apply geb_fin in Hreach. unfold JsNum.ofZ. now rewrite Hreach. }
  assert (Ep : page = Content.mkPage (Some (Fin 20)) None false []).
  { subst page. unfold deliver_to_tab, one_broadcast. rewrite deliver_broadcast.
    assert (He : existsb (Z.eqb tab) (Background.tabs w) = true).
    { apply existsb_exists. exists tab. split; [exact Hin|apply Z.eqb_refl]. }
    now rewrite He. }
  split; [exact Et|]. split; [exact Ep|].
  subst started. rewrite Ep.
  split; [|split; [reflexivity|repeat split]].
  intros k Hk.
  do 20 (destruct k as [|k]; [reflexivity|]). lia.
Qed.

(** The default world one minute before the interval, seen from tab 2. *)
Lemma reminder_break_witness :
  let w' := Background.handleBreakTick 60000 Active (world_at 19) in
  let page := deliver_to_tab 2 (Background.tabMessages w') Content.empty in
  page = Content.mkPage (Some (Fin 20)) None false [] /\
  interval_ticks 20 (Content.clickStart page) = Content.mkPage None None false [BreakCompleted].
Proof.
  intros w' page.
  destruct (reminder_runs_a_twenty_second_break 60000 61000 (world_at 19) 20 2)
    as (Et & Ep & _ & Hend & _).
  - apply world_at_on.
  - apply world_at_not_snoozed. lia.
  - reflexivity.
  - reflexivity.
  - vm_compute. discriminate.
  - cbn. tauto.
  - subst page. fold w' in Et. rewrite Et. cbn [world_at Background.tabMessages app].
    rewrite Ep. split; [reflexivity|exact Hend].
Defined.

(** ** Warnings from the sampler to the page *)



(** The background relays a proximity warning to every open tab and changes
    nothing else. In a tab, the page then has the toast; warnings that come
    while the toast is up add nothing, and after the toast is dismissed the
    next warning shows it again. *)
Theorem proximity_warning_shows_one_toast
    (now : Z) (w : Background.World) (tab : Z) (p : Content.Page) :
  In tab (Background.tabs w) ->
  let w' := after now ProximityWarning w in
  let sent_now := one_broadcast ProximityWarning w in
  w' = Background.set_tabMessages (Background.tabMessages w ++ sent_now) w /\
  Content.toast (deliver_to_tab tab sent_now p) = true /\
  deliver_to_tab tab (sent_now ++ sent_now) p = deliver_to_tab tab sent_now p /\
  Content.toast (Content.dismissToast (deliver_to_tab tab sent_now p)) = false /\
  Content.toast (deliver_to_tab tab sent_now
                   (Content.dismissToast (deliver_to_tab tab sent_now p))) = true /\
  Content.breakOverlayEl (deliver_to_tab tab sent_now p) = Content.breakOverlayEl p /\
  Content.sent (deliver_to_tab tab sent_now p) = Content.sent p.
Proof.
  intros Hin w' sent_now.
  assert (He : existsb (Z.eqb tab) (Background.tabs w) = true).
  { apply existsb_exists. exists tab. split; [exact Hin|apply Z.eqb_refl]. }
  assert (Ed : forall x, deliver_to_tab tab sent_now x = Content.createToast x).
  { intros x. subst sent_now. unfold deliver_to_tab, one_broadcast.
    rewrite deliver_broadcast, He. reflexivity. }
  split; [reflexivity|].
  split; [rewrite Ed; unfold Content.createToast; now destruct (Content.toast p) eqn:E|].
  split.
  { unfold deliver_to_tab at 1. rewrite fold_left_app.
    fold (deliver_to_tab tab sent_now p).
    fold (deliver_to_tab tab sent_now (deliver_to_tab tab sent_now p)).
    rewrite !Ed. apply (content_idempotent ProximityWarning). }
  split; [reflexivity|].
  split; [rewrite Ed; reflexivity|].
  rewrite Ed. unfold Content.createToast. now destruct (Content.toast p).
Qed.

Lemma proximity_warning_witness :
  Content.toast (deliver_to_tab 2 (one_broadcast ProximityWarning (world_at 3)) Content.empty)
    = true.
Proof.
  apply (proximity_warning_shows_one_toast 1000 (world_at 3) 2 Content.empty).
  cbn. tauto.
Defined.

(** ** Installation and the proximity alarm *)

Lemma proximity_alarm_on (w : Background.World) :
  truthy_flag (enabled (Background.get_settings w)) = true ->
  truthy_flag (proximityEnabled (Background.get_settings w)) = true ->
  Background.handleProximitySample w =
    Background.set_runtimeMessages (Background.runtimeMessages w ++ [ProximitySample])
      (Background.set_offscreenOpen true w).
Proof.
  intros He Hp. unfold Background.handleProximitySample, Background.ensureOffscreenDocument.
  rewrite He, Hp. cbn [negb orb].
  destruct w as [am ibp sn st al off tabs tm rm]. cbn. now destruct off.
Qed.

(** Installation schedules the break tick only: the proximity alarm is not
    scheduled and the offscreen document is not open until a settings update
    asks for them. Once the master and proximity switches are on in the
    stored settings, [k] firings of the proximity alarm open the document and
    send exactly [k] sample requests to the sampler. *)
Theorem proximity_starts_with_settings_update :
  (forall (st : Storage) (open_tabs : list Z),
      let w := Background.onInstalled (Background.initial st open_tabs) in
      Background.alarms w = <[Background.BREAK_TICK := mkAlarm (Fin 1) (Fin 1)]> ∅ /\
      Background.alarms w !! Background.PROXIMITY_SAMPLE = None /\
      Background.offscreenOpen w = false /\
      stored_settings (Background.storage w) = Some DEFAULT_SETTINGS) /\
  (forall (k : nat) (w : Background.World),
      truthy_flag (enabled (Background.get_settings w)) = true ->
      truthy_flag (proximityEnabled (Background.get_settings w)) = true ->
      Background.runtimeMessages (run (proximity_alarms k) w)
        = Background.runtimeMessages w ++ repeat ProximitySample k /\
      (1 <= k -> Background.offscreenOpen (run (proximity_alarms k) w) = true)%nat).
Proof.
  split.
  - intros st open_tabs w. subst w.
    unfold Background.onInstalled, Background.ensureBreakTickAlarm. cbn.
    split; [reflexivity|]. split; [|split; reflexivity].
    rewrite lookup_insert_ne by discriminate. apply lookup_empty.
  - induction k as [|k IH]; intros w He Hp.
    + cbn. split; [now rewrite app_nil_r|lia].
    + change (run (proximity_alarms (S k)) w)
        with (run (proximity_alarms k) (Background.handleProximitySample w)).
      rewrite (proximity_alarm_on w He Hp).
      set (w1 := Background.set_runtimeMessages _ _).
      destruct (IH w1) as [IHr IHo]; [exact He|exact Hp|].
      split.
      * rewrite IHr. subst w1. cbn. now rewrite <- app_assoc.
      * intros _. destruct k as [|k]; [reflexivity|]. apply IHo. lia.
Qed.

Lemma proximity_start_witness :
  Background.runtimeMessages (run (proximity_alarms 3) running)
    = [ProximitySample; ProximitySample; ProximitySample] /\
  Background.runtimeMessages (run (proximity_alarms 3) installed)
    = [ProximitySample; ProximitySample; ProximitySample].
Proof.
  destruct proximity_starts_with_settings_update as [_ H].
  split.
  - destruct (H 3%nat running eq_refl eq_refl) as [Hr _]. rewrite Hr. reflexivity.
  - destruct (H 3%nat installed eq_refl eq_refl) as [Hr _]. rewrite Hr. reflexivity.
Defined.

(** ** A reset is durable *)

(** A reset of the sampler drops the calibration and the accumulator and
    asks the background, once, to remove the stored calibration; when the
    background has done so, a sampler that is initialised afterwards has no
    calibration either, whatever was stored before, while the settings and
    the count are untouched. *)
Theorem reset_removes_stored_calibration
    (t1 t2 now : Z) (s : Sampler) (w : Background.World) :
  let s' := Offscreen.resetCalibration s in
  calibrationData s' = None /\
  calibrationSamples s' = Some [] /\
  effects s' = effects s ++ [SendMessage StorageRemoveCalibration] /\
  let w' := after t1 StorageRemoveCalibration w in
  calibrationData (Offscreen.initialize now (calibration_reply t2 w')) = None /\
  stored_settings (Background.storage w') = stored_settings (Background.storage w) /\
  stored_activeMinutes (Background.storage w') = stored_activeMinutes (Background.storage w).
Proof.
  destruct w as [am ibp sn [sa ss sc] al off tabs tm rm]. repeat split.
Qed.

(** An update with proximity off on the running extension: the break tick
    stays, the proximity alarm goes, and an alarm of another name is not
    there. *)
Lemma update_reschedules_witness :
  let w' := after 1000 (SettingsUpdate proximity_off_settings) running in
  Background.alarms w' !! Background.BREAK_TICK = Some (mkAlarm (Fin 1) (Fin 1)) /\
  Background.alarms w' !! Background.PROXIMITY_SAMPLE = None /\
  Background.alarms w' !! "eyeguard.other"%string = None.
Proof.
  destruct (update_reschedules_from_payload 1000 proximity_off_settings running)
    as (Hb & Hp & Ho & _).
  split; [exact Hb|]. split; [exact Hp|]. apply Ho; discriminate.
Defined.
